(** * Superstore analysis pipeline: a shallow embedding

    The script [01_superstore_analysis/notebooks/superstore_analysis.py]
    loads one tabular dataset, normalises it, computes a few KPIs, writes
    three interactive charts and assembles a dashboard page.  Each stage
    of the script is a [try] block; this file embeds the stages as
    functions over an explicit world (working directory, standard output,
    standard error) and proves properties of them.

    Modelling conventions.
    - A Python [str] is a [string]; each [ascii] is one code point in
      U+0000..U+00FF.
    - Numeric cells are exact integers ([Z]); [NaN] is a separate cell.
      Sums are the exact integer sums: they are what pandas computes as
      long as no partial sum leaves the integers binary64 represents
      ([summed_exactly]); statements about the value of a sum carry that
      condition.
    - numpy's and Python's floats are IEEE 754 binary64 numbers, with the
      operations the Standard Library specifies in [SpecFloat].
    - Python exceptions are values of [exn]; a call that may raise returns
      a [result]. *)

From Stdlib Require Import ZArith QArith Qabs Qpower Ascii String Strings.Byte List.
From Stdlib Require Import Lia Lqa Floats.SpecFloat.
From stdpp Require Import base decidable option list sorting strings gmap pretty.

Open Scope Z_scope.

(** ** Exceptions and results *)

Inductive exn : Type :=
| FileNotFoundError (msg : string)
| UnicodeDecodeError
| ValueError (msg : string)
| TypeError (msg : string)
| KeyError (msg : string)
| OSError (msg : string)
| OtherError (msg : string).

(** [str(e)] as the [except] clauses of the script print it. *)
Definition exn_str (e : exn) : string :=
  match e with
  | FileNotFoundError m | ValueError m | TypeError m | KeyError m | OSError m
  | OtherError m => m
  | UnicodeDecodeError => "codec can't decode bytes"
  end.

Inductive result (A : Type) : Type :=
| Ok (a : A)
| Raise (e : exn).
Arguments Ok {A} a.
Arguments Raise {A} e.

#[global] Instance result_ret : MRet result := fun A a => Ok a.

#[global] Instance result_bind : MBind result := fun A B k r =>
  match r with
  | Ok a => k a
  | Raise e => Raise e
  end.

(** ** Column-name canonicalisation (line 43)

    [c.strip().lower().replace(' ', '_').replace('-', '_')] *)

Definition code (c : ascii) : N := N_of_ascii c.

(** [str.isspace] on U+0000..U+00FF: TAB..CR, FS..US, SPACE, NEL, NBSP. *)
Definition py_isspace (c : ascii) : bool :=
  let n := code c in
  ((9 <=? n) && (n <=? 13) || (28 <=? n) && (n <=? 32)
   || (n =? 133) || (n =? 160))%N.

(** [str.lower] on U+0000..U+00FF: A..Z and the Latin-1 capitals
    U+00C0..U+00DE (the multiplication sign U+00D7 apart) move up by 32. *)
Definition py_lower_char (c : ascii) : ascii :=
  let n := code c in
  if ((65 <=? n) && (n <=? 90)
      || (192 <=? n) && (n <=? 222) && negb (n =? 215))%N
  then ascii_of_N (n + 32) else c.

Fixpoint lstrip (l : list ascii) : list ascii :=
  match l with
  | c :: t => if py_isspace c then lstrip t else l
  | [] => []
  end.

Definition rstrip (l : list ascii) : list ascii := rev (lstrip (rev l)).

Definition strip (l : list ascii) : list ascii := rstrip (lstrip l).

Definition lower (l : list ascii) : list ascii := map py_lower_char l.

(** [s.replace(a, b)] for one-character [a] and [b]. *)
Definition replace_char (a b : ascii) (l : list ascii) : list ascii :=
  map (fun c => if Ascii.eqb c a then b else c) l.

Definition canonical_chars (l : list ascii) : list ascii :=
  replace_char "-" "_" (replace_char " " "_" (lower (strip l))).

Definition canonical_name (c : string) : string :=
  string_of_list_ascii (canonical_chars (list_ascii_of_string c)).

(** ** Loader (lines 14-38) *)

Definition encodings : list string := ["utf-8"; "latin1"; "ISO-8859-1"; "cp1252"].

Definition encoding_undetermined : exn :=
  ValueError "No se pudo determinar la codificación del archivo".

(** The [for ... else] loop of lines 25-32: [break] on the first parse
    that returns, [continue] on [UnicodeDecodeError], any other exception
    leaves the loop; the [else] branch runs when the list is exhausted. *)
Fixpoint try_encodings {A} (read_csv : string → result A) (encs : list string)
  : result A :=
  match encs with
  | [] => Raise encoding_undetermined
  | encoding :: rest =>
      match read_csv encoding with
      | Raise UnicodeDecodeError => try_encodings read_csv rest
      | r => r
      end
  end.

(** ** Text codecs used by [pd.read_csv(..., encoding=...)]

    A decoded text is a list of code points. *)

Definition byte_val (b : byte) : Z := Z.of_N (Byte.to_N b).

Definition is_cont (b : Z) : bool := (0x80 <=? b) && (b <=? 0xBF).

Definition cont_bits (b : Z) : Z := Z.land b 0x3F.

(** Strict UTF-8: shortest form only, no surrogates, at most U+10FFFF. *)
Fixpoint utf8_decode (bs : list Z) : option (list Z) :=
  match bs with
  | [] => Some []
  | b0 :: r0 =>
      if b0 <? 0x80 then cons b0 <$> utf8_decode r0
      else if (0xC2 <=? b0) && (b0 <=? 0xDF) then
        match r0 with
        | b1 :: r1 =>
            if is_cont b1
            then cons (Z.lor (Z.shiftl (Z.land b0 0x1F) 6) (cont_bits b1))
                   <$> utf8_decode r1
            else None
        | [] => None
        end
      else if (0xE0 <=? b0) && (b0 <=? 0xEF) then
        match r0 with
        | b1 :: b2 :: r2 =>
            let lo := if b0 =? 0xE0 then 0xA0 else 0x80 in
            let hi := if b0 =? 0xED then 0x9F else 0xBF in
            if (lo <=? b1) && (b1 <=? hi) && is_cont b2
            then cons (Z.lor (Z.shiftl (Z.land b0 0x0F) 12)
                         (Z.lor (Z.shiftl (cont_bits b1) 6) (cont_bits b2)))
                   <$> utf8_decode r2
            else None
        | _ => None
        end
      else if (0xF0 <=? b0) && (b0 <=? 0xF4) then
        match r0 with
        | b1 :: b2 :: b3 :: r3 =>
            let lo := if b0 =? 0xF0 then 0x90 else 0x80 in
            let hi := if b0 =? 0xF4 then 0x8F else 0xBF in
            if (lo <=? b1) && (b1 <=? hi) && is_cont b2 && is_cont b3
            then cons (Z.lor (Z.shiftl (Z.land b0 0x07) 18)
                         (Z.lor (Z.shiftl (cont_bits b1) 12)
                            (Z.lor (Z.shiftl (cont_bits b2) 6) (cont_bits b3))))
                   <$> utf8_decode r3
            else None
        | _ => None
        end
      else None
  end.

(** latin1 (alias ISO-8859-1): every byte is its own code point. *)
Definition latin1_decode (bs : list Z) : option (list Z) := Some bs.

(** cp1252: 0x81, 0x8D, 0x8F, 0x90 and 0x9D are unassigned. *)
Definition cp1252_char (b : Z) : option Z :=
  if (b <? 0x80) || (0xA0 <=? b) then Some b
  else match b with
       | 0x80 => Some 0x20AC | 0x82 => Some 0x201A | 0x83 => Some 0x0192
       | 0x84 => Some 0x201E | 0x85 => Some 0x2026 | 0x86 => Some 0x2020
       | 0x87 => Some 0x2021 | 0x88 => Some 0x02C6 | 0x89 => Some 0x2030
       | 0x8A => Some 0x0160 | 0x8B => Some 0x2039 | 0x8C => Some 0x0152
       | 0x8E => Some 0x017D | 0x91 => Some 0x2018 | 0x92 => Some 0x2019
       | 0x93 => Some 0x201C | 0x94 => Some 0x201D | 0x95 => Some 0x2022
       | 0x96 => Some 0x2013 | 0x97 => Some 0x2014 | 0x98 => Some 0x02DC
       | 0x99 => Some 0x2122 | 0x9A => Some 0x0161 | 0x9B => Some 0x203A
       | 0x9C => Some 0x0153 | 0x9E => Some 0x017E | 0x9F => Some 0x0178
       | _ => None
       end.

Definition cp1252_decode (bs : list Z) : option (list Z) := mapM cp1252_char bs.

Definition or_decode_error (decoded : option (list Z)) : result (list Z) :=
  match decoded with
  | Some text => Ok text
  | None => Raise UnicodeDecodeError
  end.

(** [bytes.decode(encoding)]: [UnicodeDecodeError] on undecodable input,
    [LookupError] for a codec Python does not know. *)
Definition decode (encoding : string) (bs : list byte) : result (list Z) :=
  let raw := map byte_val bs in
  if String.eqb encoding "utf-8" then or_decode_error (utf8_decode raw)
  else if String.eqb encoding "latin1" || String.eqb encoding "ISO-8859-1"
       then or_decode_error (latin1_decode raw)
  else if String.eqb encoding "cp1252" then or_decode_error (cp1252_decode raw)
  else Raise (OtherError ("unknown encoding: " +:+ encoding)).

(** What the CSV parser makes of a decoded text: a table, or one of its
    own errors ([ParserError], [EmptyDataError], ...). *)
Inductive parsed (A : Type) : Type :=
| Parsed (a : A)
| ParserError (msg : string).
Arguments Parsed {A} a.
Arguments ParserError {A} msg.

(** [pd.read_csv(path, encoding=e)] on the bytes of a file it has opened:
    decode them, then hand the text to the CSV parser [parse], which is
    external.  Opening the file comes first and can fail on its own
    ([open_file]). *)
Definition read_csv {A} (parse : list Z → parsed A) (bs : list byte)
    (encoding : string) : result A :=
  text ← decode encoding bs;
  match parse text with
  | Parsed a => Ok a
  | ParserError msg => Raise (OtherError msg)
  end.

(** The file at [data_path] as the loader sees it.  A path that exists
    need not open: [open_error] is the message of the [OSError] that
    opening it for reading raises (a directory, a file without read
    permission), if any. *)
Record Source := {
  data_path : string;
  path_exists : bool;
  suffix : string;
  open_error : option string;
  file_bytes : list byte
}.

(** What [pd.read_excel] and [pd.read_csv] do first. *)
Definition open_file (src : Source) : result (list byte) :=
  match open_error src with
  | Some msg => Raise (OSError msg)
  | None => Ok (file_bytes src)
  end.

(** Lines 15-32, inside the [try].  Each turn of the loop opens the file
    again. *)
Definition load {A} (read_excel : list byte → result A)
    (parse : list Z → parsed A) (src : Source) : result A :=
  if negb (path_exists src) then
    Raise (FileNotFoundError
             ("No se encontró el archivo en la ruta: " +:+ data_path src))
  else if String.eqb (suffix src) ".xls" || String.eqb (suffix src) ".xlsx" then
    bs ← open_file src; read_excel bs
  else
    try_encodings (fun encoding => bs ← open_file src; read_csv parse bs encoding)
      encodings.

(** Lines 14-38: what the load leaves on the streams, and the dataset, if
    any; [None] is [sys.exit(1)]. *)
Definition load_stage {A} (read_excel : list byte → result A)
    (parse : list Z → parsed A) (shape : A → nat * nat) (src : Source)
  : option A * (list string * list string) :=
  match load read_excel parse src with
  | Ok df =>
      (Some df,
       (["Datos cargados correctamente. Filas: " +:+ pretty (shape df).1
         +:+ ", Columnas: " +:+ pretty (shape df).2], []))
  | Raise e => (None, ([], ["Error al cargar los datos: " +:+ exn_str e]))
  end.

(** ** Datasets

    A [DataFrame] is its column index and its rows; a row maps column
    names to cells.  A cell missing from a row reads as [NaN]. *)

Inductive cell : Type :=
| NaN
| Num (z : Z)
| Str (s : string)
| Time (t : Z).

#[global] Instance cell_eq_dec : EqDecision cell.
Proof. solve_decision. Defined.

Record DataFrame := {
  columns : list string;
  rows : list (gmap string cell)
}.

(** [c in df.columns] *)
Definition has_column (c : string) (df : DataFrame) : bool :=
  bool_decide (c ∈ columns df).

Definition get (c : string) (r : gmap string cell) : cell :=
  default NaN (r !! c).

(** Line 43 on the column index and on every row. *)
Definition rename_columns (df : DataFrame) : DataFrame :=
  {| columns := map canonical_name (columns df);
     rows := map (fun r => kmap canonical_name r) (rows df) |}.

(** The value a numeric cell adds to a sum; [sum] skips [NaN]. *)
Definition num (c : cell) : Z :=
  match c with
  | Num z => z
  | _ => 0
  end.

(** The sum of a numeric column or group, as an exact integer.  pandas
    adds in [int64] when no cell is missing and in binary64 otherwise, in
    an order of its own; both return this integer as long as no partial
    sum leaves the integers below 2^53 in magnitude ([summed_exactly]
    below).  Beyond that [int64] wraps and binary64 rounds, and this sum
    is not what the code computes. *)
Definition sum_cells (cs : list cell) : Z := foldr Z.add 0 (map num cs).

(** [df[c].sum()], where it is exact. *)
Definition column_sum (c : string) (df : DataFrame) : Z :=
  sum_cells (map (get c) (rows df)).

(** *** Order of group keys

    [groupby] sorts the groups by key ([sort=True] is the default).  Cells
    of one kind compare as their values do; a homogeneous column never
    compares cells of two kinds, for which the order below is a
    convention. *)

Definition cell_leb (a b : cell) : bool :=
  match a, b with
  | NaN, _ => true
  | Num x, Num y => x <=? y
  | Num _, (Str _ | Time _) => true
  | Str s, Str t => String.leb s t
  | Str _, Time _ => true
  | Time x, Time y => x <=? y
  | _, _ => false
  end.

(** Tuples of cells compare lexicographically. *)
Fixpoint key_leb (k1 k2 : list cell) : bool :=
  match k1, k2 with
  | [], _ => true
  | _ :: _, [] => false
  | a :: k1', b :: k2' =>
      if decide (a = b) then key_leb k1' k2' else cell_leb a b
  end.

Definition key_le (k1 k2 : list cell) : Prop := key_leb k1 k2 = true.

#[global] Instance key_le_dec : RelDecision key_le.
Proof. intros k1 k2. unfold key_le. apply _. Defined.

(** *** [groupby(by, as_index=False)] and sums per group *)

Definition key_of (by_ : list string) (r : gmap string cell) : list cell :=
  map (fun c => get c r) by_.

Definition is_nan (c : cell) : bool :=
  match c with
  | NaN => true
  | _ => false
  end.

(** Rows with a missing key are dropped ([dropna=True]). *)
Definition keyed_rows (by_ : list string) (rs : list (gmap string cell))
  : list (gmap string cell) :=
  filter (fun r => existsb is_nan (key_of by_ r) = false) rs.

(** The distinct keys, ascending. *)
Definition group_keys (by_ : list string) (rs : list (gmap string cell))
  : list (list cell) :=
  merge_sort key_le (remove_dups (map (key_of by_) (keyed_rows by_ rs))).

Definition group_sum (by_ : list string) (col : string)
    (rs : list (gmap string cell)) (k : list cell) : Z :=
  sum_cells (map (get col) (filter (fun r => key_of by_ r = k) rs)).

(** [df.groupby(by, as_index=False)[col].sum()] *)
Definition groupby_sum (by_ : list string) (col : string) (df : DataFrame)
  : list (list cell * Z) :=
  map (fun k => (k, group_sum by_ col (rows df) k)) (group_keys by_ (rows df)).

Definition agg_type_error : exn :=
  TypeError "Must provide 'func' or tuples of '(column, aggfunc).".

(** [df.groupby(by, as_index=False).agg(name=value, ...)], keyword
    arguments only.  pandas relabels when every keyword value is a pair
    [(column, aggfunc)] and there is at least one keyword; otherwise no
    function was given and it raises [TypeError].  A keyword value that
    is [None] is written [None] here. *)
Definition is_multi_agg_with_relabel
    (kwargs : list (string * option (string * string))) : bool :=
  forallb (fun kw => match kw.2 with Some _ => true | None => false end) kwargs
  && negb (Nat.eqb (length kwargs) 0).

Fixpoint agg_columns (df : DataFrame)
    (kwargs : list (string * option (string * string))) : result (list string) :=
  match kwargs with
  | [] => Ok []
  | (_, Some (col, func)) :: rest =>
      if negb (has_column col df) then
        Raise (KeyError ("Column(s) ['" +:+ col +:+ "'] do not exist"))
      else if negb (String.eqb func "sum") then
        Raise (OtherError ("'SeriesGroupBy' object has no attribute '" +:+ func +:+ "'"))
      else cols ← agg_columns df rest; Ok (col :: cols)
  | (_, None) :: rest => agg_columns df rest
  end.

Definition agg (by_ : list string) (df : DataFrame)
    (kwargs : list (string * option (string * string)))
  : result (list (list cell * list Z)) :=
  if is_multi_agg_with_relabel kwargs then
    cols ← agg_columns df kwargs;
    Ok (map (fun k => (k, map (fun col => group_sum by_ col (rows df) k) cols))
          (group_keys by_ (rows df)))
  else Raise agg_type_error.

(** *** [sort_values(col, ascending=False)] and [head]

    pandas sorts one column through [nargsort]: for a descending sort it
    reverses the values, calls numpy's [argsort] and reverses the indexer.
    [argsort] is numpy's (kind ['quicksort'], not a stable sort), so it is
    a parameter. *)

(** [DataFrame.take] *)
Definition take_rows {A} (indexer : list nat) (l : list A) : list A :=
  omap (fun i => l !! i) indexer.

Definition nargsort_descending (argsort : list Z → list nat) (items : list Z)
  : list nat :=
  let n := length items in
  reverse (map (fun j => (n - 1 - j)%nat) (argsort (reverse items))).

Definition sort_values_descending (argsort : list Z → list nat)
    (t : list (list cell * Z)) : list (list cell * Z) :=
  take_rows (nargsort_descending argsort (map snd t)) t.

(** [t.head(n)] *)
Definition head {A} (n : nat) (t : list A) : list A := take n t.

(** Lines 107-108. *)
Definition top_subcategories (argsort : list Z → list nat) (df : DataFrame)
  : list (list cell * Z) :=
  let cat := groupby_sum ["category"; "sub_category"] "sales" df in
  head 20 (sort_values_descending argsort cat).

(** A stable insertion argsort: what numpy's scalar quicksort does on a
    partition of at most sixteen elements. *)
Fixpoint insert_sorted (x : Z * nat) (l : list (Z * nat)) : list (Z * nat) :=
  match l with
  | [] => [x]
  | y :: t => if x.1 <? y.1 then x :: l else y :: insert_sorted x t
  end.

Definition insertion_argsort (items : list Z) : list nat :=
  map snd (foldl (fun acc x => insert_sorted x acc) []
             (zip items (seq 0 (length items)))).

(** ** KPIs (lines 66-83) *)

Inductive kpi_value : Type :=
| KNum (z : Z)
| KText (s : string).

(** A Python [dict]: keys in insertion order, one entry per key. *)
Fixpoint dict_set {V} (k : string) (v : V) (d : list (string * V))
  : list (string * V) :=
  match d with
  | [] => [(k, v)]
  | (k0, v0) :: rest =>
      if String.eqb k0 k then (k0, v) :: rest else (k0, v0) :: dict_set k v rest
  end.

Definition dict_update {V} (d new : list (string * V)) : list (string * V) :=
  foldl (fun acc kv => dict_set kv.1 kv.2 acc) d new.

Fixpoint dict_get {V} (k : string) (d : list (string * V)) : option V :=
  match d with
  | [] => None
  | (k0, v0) :: rest => if String.eqb k0 k then Some v0 else dict_get k rest
  end.

(** Nearest integer, ties to even. *)
Definition round_half_even (q : Q) : Z :=
  let n := Qnum q in
  let d := Z.pos (Qden q) in
  let fl := n / d in
  let r2 := 2 * (n mod d) in
  if r2 <? d then fl
  else if d <? r2 then fl + 1
  else if Z.even fl then fl else fl + 1.

(** *** Binary64

    The quotient of line 75 and the number line 78 formats are IEEE 754
    binary64 numbers.  [spec_float] and its operations are the Standard
    Library's specification of them; [prec] and [emax] select binary64. *)

Definition prec : Z := 53.
Definition emax : Z := 1024.

(** An integer total converted for the division: the nearest binary64
    number. *)
Definition of_int (z : Z) : spec_float := binary_normalize prec emax z 0 false.

(** [total_profit / total_sales] on numpy scalars: both are converted to
    binary64 and divided there. *)
Definition true_divide (a b : Z) : spec_float :=
  SFdiv prec emax (of_int a) (of_int b).

(** [np.isnan] *)
Definition isnan (x : spec_float) : bool :=
  match x with
  | S754_nan => true
  | _ => false
  end.

(** The magnitude [m * 2^e] of a finite number. *)
Definition magnitude (m : positive) (e : Z) : Q := (inject_Z (Z.pos m) * 2 ^ e)%Q.

(** [format(x, '.2f')]: the decimal with two places nearest to the exact
    value of [x], ties to even; the sign is the sign bit. *)
Definition format_fixed (x : spec_float) : string :=
  match x with
  | S754_nan => "nan"
  | S754_infinity s => if s then "-inf" else "inf"
  | S754_zero s => if s then "-0.00" else "0.00"
  | S754_finite s m e =>
      let h := round_half_even (magnitude m e * 100) in
      (if s then "-" else "")
      +:+ pretty (h / 100) +:+ "." +:+ pretty (h mod 100 / 10) +:+ pretty (h mod 10)
  end.

(** [f"{x:.2%}"]: [x] times 100 in binary64, two decimals, a percent
    sign. *)
Definition format_percent (x : spec_float) : string :=
  format_fixed (SFmul prec emax x (of_int 100)) +:+ "%".

(** Line 75. *)
Definition profit_margin (total_profit total_sales : Z) : spec_float :=
  if negb (total_sales =? 0) then true_divide total_profit total_sales
  else S754_nan.

(** Lines 67-79. *)
Definition compute_kpis (df : DataFrame) : list (string * kpi_value) :=
  let kpis := [] in
  if has_column "sales" df then
    let total_sales := column_sum "sales" df in
    let kpis := dict_set "Total Sales" (KNum total_sales) kpis in
    if has_column "profit" df then
      let total_profit := column_sum "profit" df in
      let margin := profit_margin total_profit total_sales in
      dict_update kpis
        [ ("Total Profit", KNum total_profit);
          ("Profit Margin",
           KText (if negb (isnan margin) then format_percent margin else "N/A")) ]
    else kpis
  else kpis.

(** [str(v)] *)
Definition kpi_str (v : kpi_value) : string :=
  match v with
  | KNum z => pretty z
  | KText s => s
  end.

(** ** The world of a run

    The working directory as [Path('.')] enumerates it, and the two output
    streams. *)

Record Figure := {
  kind : string;
  table : list (list cell * list Z);
  x_axis : string;
  y_axis : string;
  color : option string;
  title : string
}.

Inductive content : Type :=
| ChartHtml (fig : Figure)
| Page (parts : list string)
| Blob.

Record World := {
  cwd : list (string * content);
  stdout : list string;
  stderr : list string
}.

(** Calls into plotly and the file system that may raise. *)
Inductive io_call : Type :=
| PxFigure
| UpdateLayout
| WriteHtml
| Show
| OpenWrite.

(** What the surroundings of a run decide: the exception, if any, a call
    for an output file raises; the order in which the directory lists its
    entries; numpy's [argsort]. *)
Record Env := {
  raises : string → io_call → option exn;
  scandir : list string → list string;
  argsort : list Z → list nat
}.

(** A stage body: it may raise, and what it wrote before stays written. *)
Definition stage (A : Type) : Type := World → result A * World.

#[global] Instance stage_ret : MRet stage := fun A a w => (Ok a, w).

#[global] Instance stage_bind : MBind stage := fun A B k m w =>
  match m w with
  | (Ok a, w') => k a w'
  | (Raise e, w') => (Raise e, w')
  end.

Definition lift {A} (r : result A) : stage A := fun w => (r, w).

Definition call (env : Env) (file : string) (c : io_call) : stage unit :=
  fun w => match raises env file c with
           | Some e => (Raise e, w)
           | None => (Ok (), w)
           end.

Definition print (s : string) : stage unit :=
  fun w => (Ok (), {| cwd := cwd w; stdout := stdout w ++ [s]; stderr := stderr w |}).

Definition eprint (s : string) : stage unit :=
  fun w => (Ok (), {| cwd := cwd w; stdout := stdout w; stderr := stderr w ++ [s] |}).

Fixpoint put_file (name : string) (c : content) (fs : list (string * content))
  : list (string * content) :=
  match fs with
  | [] => [(name, c)]
  | (n, c0) :: rest =>
      if String.eqb n name then (n, c) :: rest else (n, c0) :: put_file name c rest
  end.

Definition write_file (name : string) (c : content) : stage unit :=
  fun w => (Ok (), {| cwd := put_file name c (cwd w);
                      stdout := stdout w; stderr := stderr w |}).

(** [try: body / except Exception as e: print(prefix + str(e), file=sys.stderr)] *)
Definition try_except (body : stage unit) (prefix : string) (w : World) : World :=
  match body w with
  | (Ok _, w') => w'
  | (Raise e, w') => (eprint (prefix +:+ exn_str e) w').2
  end.

(** Lines 81-83 around [compute_kpis]. *)
Definition kpi_stage (df : DataFrame) (w : World)
  : list (string * kpi_value) * World :=
  let kpis := compute_kpis df in
  (kpis,
   try_except
     (print "
=== KPIs Principales ===";;
      foldr (fun kv k => print (kv.1 +:+ ": " +:+ kpi_str kv.2);; k) (mret ()) kpis)
     "Error al calcular KPIs: " w).

(** ** Small string functions of the later stages *)

Definition dq : string := String (ascii_of_nat 34) EmptyString.

Definition is_ascii_upper (c : ascii) : bool := ((65 <=? code c) && (code c <=? 90))%N.
Definition is_ascii_lower (c : ascii) : bool := ((97 <=? code c) && (code c <=? 122))%N.

(** [str.title] on ASCII text: a letter that follows a letter is lowered,
    any other letter is raised; other characters stay.  Characters beyond
    ASCII are left alone and taken for no letters, which is not what
    Python does with the cased letters among them: statements about
    titles are about ASCII names ([ascii_text]). *)
Fixpoint title_chars (after_letter : bool) (l : list ascii) : list ascii :=
  match l with
  | [] => []
  | c :: t =>
      if is_ascii_upper c then
        (if after_letter then ascii_of_N (code c + 32) else c) :: title_chars true t
      else if is_ascii_lower c then
        (if after_letter then c else ascii_of_N (code c - 32)) :: title_chars true t
      else c :: title_chars false t
  end.

Definition py_title (s : string) : string :=
  string_of_list_ascii (title_chars false (list_ascii_of_string s)).

Definition py_replace_char (a b : ascii) (s : string) : string :=
  string_of_list_ascii (replace_char a b (list_ascii_of_string s)).

(** Index of the last occurrence of [c], scanning from position [i]. *)
Fixpoint rfind_from (i : nat) (c : ascii) (l : list ascii) (found : option nat)
  : option nat :=
  match l with
  | [] => found
  | d :: t => rfind_from (S i) c t (if Ascii.eqb d c then Some i else found)
  end.

(** [Path.stem]: the name without its last suffix; a dot at either end
    of the name starts no suffix. *)
Definition stem (name : string) : string :=
  let l := list_ascii_of_string name in
  match rfind_from 0 "." l None with
  | Some i =>
      if (0 <? i)%nat && (i <? length l - 1)%nat
      then string_of_list_ascii (take i l) else name
  | None => name
  end.

Definition ends_with (suffix s : string) : bool :=
  bool_decide (list_ascii_of_string suffix `suffix_of` list_ascii_of_string s).

(** ** Charts (lines 89-133) *)

Definition ventas_por_mes : string := "ventas_por_mes.html".
Definition top_subcategorias : string := "top_subcategorias.html".
Definition ventas_por_region : string := "ventas_por_region.html".

Definition one_measure (t : list (list cell * Z)) : list (list cell * list Z) :=
  map (fun kv => (kv.1, [kv.2])) t.

(** Lines 91-103. *)
Definition monthly_trend (env : Env) (df : DataFrame) : stage unit :=
  if has_column "year_month" df && has_column "sales" df then
    by_month ← lift (agg ["year_month"] df
                       [ ("sales", Some ("sales", "sum"));
                         ("profit", if has_column "profit" df
                                    then Some ("profit", "sum") else None) ]);
    call env ventas_por_mes PxFigure;;
    call env ventas_por_mes UpdateLayout;;
    call env ventas_por_mes WriteHtml;;
    write_file ventas_por_mes
      (ChartHtml {| kind := "line"; table := by_month;
                    x_axis := "year_month"; y_axis := "sales"; color := None;
                    title := "Tendencia Mensual de Ventas" |});;
    call env ventas_por_mes Show
  else mret ().

(** Lines 106-116. *)
Definition subcategory_chart (env : Env) (df : DataFrame) : stage unit :=
  if forallb (fun c => has_column c df) ["category"; "sub_category"; "sales"] then
    let cat := top_subcategories (argsort env) df in
    call env top_subcategorias PxFigure;;
    call env top_subcategorias UpdateLayout;;
    call env top_subcategorias WriteHtml;;
    write_file top_subcategorias
      (ChartHtml {| kind := "bar"; table := one_measure cat;
                    x_axis := "sub_category"; y_axis := "sales";
                    color := Some "category";
                    title := "Top 20 Subcategorías por Ventas" |});;
    call env top_subcategorias Show
  else mret ().

(** Lines 119-130. *)
Definition region_chart (env : Env) (df : DataFrame) : stage unit :=
  let group_cols := List.filter (fun c => has_column c df) ["region"; "segment"] in
  if negb (Nat.eqb (length group_cols) 0) && has_column "sales" df then
    let reg := groupby_sum group_cols "sales" df in
    call env ventas_por_region PxFigure;;
    call env ventas_por_region WriteHtml;;
    write_file ventas_por_region
      (ChartHtml {| kind := "bar"; table := one_measure reg;
                    x_axis := List.hd "" group_cols; y_axis := "sales";
                    color := group_cols !! 1%nat;
                    title := "Ventas por " +:+ py_title (String.concat " y " group_cols) |});;
    call env ventas_por_region Show
  else mret ().

(** The one [try] block around the three charts. *)
Definition visualization_stage (env : Env) (df : DataFrame) : World → World :=
  try_except
    (monthly_trend env df;; subcategory_chart env df;; region_chart env df)
    "Error al generar visualizaciones: ".

(** ** Dashboard (lines 136-182) *)

Definition dashboard_file : string := "dashboard_superstore.html".

(** [Path('.').glob('*.html')] without the dashboard itself, in the order
    the directory lists its entries. *)
Definition glob_html (env : Env) (w : World) : list string :=
  filter (fun n => ends_with ".html" n = true ∧ n ≠ dashboard_file)
    (scandir env (map fst (cwd w))).

Definition kpi_box_open : string := "<div class=" +:+ dq +:+ "kpi-box" +:+ dq +:+ ">".

Definition kpi_line (kv : string * kpi_value) : string :=
  "<p><strong>" +:+ kv.1 +:+ ":</strong> " +:+ kpi_str kv.2 +:+ "</p>".

Definition chart_heading (p : string) : string :=
  let chart_name := py_title (py_replace_char "_" " " (stem p)) in
  "<h2>📈 " +:+ chart_name +:+ "</h2>".

Definition iframe_line (p : string) : string :=
  "<iframe src=" +:+ dq +:+ p +:+ dq +:+ " width=" +:+ dq +:+ "100%" +:+ dq
  +:+ " height=" +:+ dq +:+ "500" +:+ dq +:+ " frameborder=" +:+ dq +:+ "0" +:+ dq
  +:+ "></iframe>".

Definition dashboard_head : list string :=
  [ "<!DOCTYPE html>";
    "<html lang=" +:+ dq +:+ "es" +:+ dq +:+ ">";
    "<head>";
    "<meta charset=" +:+ dq +:+ "UTF-8" +:+ dq +:+ ">";
    "<title>Dashboard Superstore</title>";
    "<style>";
    "body { font-family: Arial, sans-serif; margin: 20px; }";
    "h1 { color: #2c3e50; }";
    "h2 { color: #3498db; margin-top: 30px; }";
    ".kpi-box { background: #f8f9fa; padding: 15px; border-radius: 5px; margin: 10px 0; }";
    "</style>";
    "</head>";
    "<body>";
    "<h1>📊 Dashboard Superstore</h1>" ].

(** Lines 141-171: [parts] grows by [append] and [extend]. *)
Definition dashboard_parts (kpis : list (string * kpi_value))
    (html_files : list string) : list string :=
  let parts := dashboard_head in
  let parts := parts ++ [kpi_box_open] in
  let parts := parts ++ ["<h2>🔍 KPIs Principales</h2>"] in
  let parts := foldl (fun parts kv => parts ++ [kpi_line kv]) parts kpis in
  let parts := parts ++ ["</div>"] in
  let parts := foldl (fun parts p => (parts ++ [chart_heading p]) ++ [iframe_line p])
                 parts html_files in
  parts ++ ["</body>"; "</html>"].

Definition no_charts_message : string :=
  "No se encontraron gráficos para incluir en el dashboard".

(** Lines 137-179, inside the [try]. *)
Definition assemble (env : Env) (kpis : list (string * kpi_value)) : stage unit :=
  fun w =>
    let html_files := glob_html env w in
    match html_files with
    | _ :: _ =>
        (call env dashboard_file OpenWrite;;
         write_file dashboard_file (Page (dashboard_parts kpis html_files));;
         print "
✅ Dashboard creado exitosamente: dashboard_superstore.html") w
    | [] => eprint no_charts_message w
    end.

Definition dashboard_stage (env : Env) (kpis : list (string * kpi_value))
  : World → World :=
  try_except (assemble env kpis) "Error al crear el dashboard: ".

(** Lines 65-182 on a prepared dataset. *)
Definition report (env : Env) (df : DataFrame) (w : World) : World :=
  let '(kpis, w) := kpi_stage df w in
  let w := visualization_stage env df w in
  dashboard_stage env kpis w.

(** ** Notions the statements below use *)

(** One character of [canonical_chars] after [strip]. *)
Definition canon_char (c : ascii) : ascii :=
  let c1 := py_lower_char c in
  let c2 := if Ascii.eqb c1 " " then "_"%char else c1 in
  if Ascii.eqb c2 "-" then "_"%char else c2.

(** Neither end of the list is white space. *)
Definition trimmed (l : list ascii) : Prop :=
  lstrip l = l ∧ lstrip (rev l) = rev l.

Definition is_decode_error {A} (r : result A) : bool :=
  match r with
  | Raise UnicodeDecodeError => true
  | _ => false
  end.

Definition of_parsed {A} (p : parsed A) : result A :=
  match p with
  | Parsed a => Ok a
  | ParserError msg => Raise (OtherError msg)
  end.

(** What [argsort] owes its caller on [items]: the indices of [items],
    each once, with the values they select in ascending order. *)
Definition valid_argsort (items : list Z) (indexer : list nat) : Prop :=
  indexer ≡ₚ seq 0 (length items) ∧ Sorted Z.le (take_rows indexer items).

(** Position of the first row of a group in the input. *)
Definition first_encounter (by_ : list string) (rs : list (gmap string cell))
    (k : list cell) : option nat :=
  fst <$> list_find (fun r => key_of by_ r = k) rs.

(** Ties broken by group encounter order: of two result rows with equal
    sums, the one listed first belongs to the group met first. *)
Definition ties_by_encounter_order (by_ : list string)
    (rs : list (gmap string cell)) (t : list (list cell * Z)) : Prop :=
  ∀ i j r1 r2 e1 e2,
    (i < j)%nat → t !! i = Some r1 → t !! j = Some r2 → r1.2 = r2.2 →
    first_encounter by_ rs r1.1 = Some e1 →
    first_encounter by_ rs r2.1 = Some e2 →
    (e1 < e2)%nat.

(** Sections of a dashboard page, read off its lines. *)
Inductive section : Type :=
| KpiSection
| ChartSection (embed : string).

Definition section_of_line (line : string) : option section :=
  if String.eqb line kpi_box_open then Some KpiSection
  else if String.prefix "<iframe src=" line then Some (ChartSection line)
  else None.

Definition sections (parts : list string) : list section :=
  omap section_of_line parts.

Definition chart_sections (html_files : list string) : list section :=
  map (fun p => ChartSection (iframe_line p)) html_files.

Definition read_file (name : string) (fs : list (string * content)) : option content :=
  dict_get name fs.

Definition file_names (w : World) : list string := map fst (cwd w).

(** The world a caught exception leaves: one line more on [stderr]. *)
Definition reported (prefix : string) (e : exn) (w : World) : World :=
  {| cwd := cwd w; stdout := stdout w;
     stderr := stderr w ++ [prefix +:+ exn_str e] |}.

(** The guard of each chart. *)
Definition applicable (file : string) (df : DataFrame) : bool :=
  if String.eqb file ventas_por_mes then
    has_column "year_month" df && has_column "sales" df
  else if String.eqb file top_subcategorias then
    forallb (fun c => has_column c df) ["category"; "sub_category"; "sales"]
  else if String.eqb file ventas_por_region then
    (has_column "region" df || has_column "segment" df) && has_column "sales" df
  else false.

(** Isolation per chart: a chart whose columns are there and none of whose
    own calls raises is written, whatever happens to the other charts. *)
Definition isolated_per_chart (env : Env) (df : DataFrame) (w : World) : Prop :=
  ∀ file,
    applicable file df = true →
    (∀ c, raises env file c = None) →
    file ∈ file_names (visualization_stage env df w).

(** Stage bodies run one after the other. *)
Fixpoint run_all (steps : list (stage unit)) : stage unit :=
  match steps with
  | [] => mret ()
  | s :: rest => s;; run_all rest
  end.

Definition chart_steps (env : Env) (df : DataFrame) : list (stage unit) :=
  [monthly_trend env df; subcategory_chart env df; region_chart env df].

(** ** Sample runs *)

Definition sample_row (m : Z) (c s rg sg : string) (v p : Z) : gmap string cell :=
  list_to_map [ ("year_month", Time m); ("category", Str c);
                ("sub_category", Str s); ("region", Str rg); ("segment", Str sg);
                ("sales", Num v); ("profit", Num p) ].

Definition sample_rows : list (gmap string cell) :=
  [ sample_row 1 "Technology" "Phones" "West" "Consumer" 10 3;
    sample_row 2 "Furniture" "Chairs" "East" "Consumer" 10 (-1);
    sample_row 1 "Technology" "Phones" "West" "Corporate" 5 1 ].

(** Every column the three charts read. *)
Definition df_full : DataFrame :=
  {| columns := ["year_month"; "category"; "sub_category"; "region"; "segment";
                 "sales"; "profit"];
     rows := sample_rows |}.

(** The same rows without the profit column. *)
Definition df_no_profit : DataFrame :=
  {| columns := ["year_month"; "category"; "sub_category"; "region"; "segment";
                 "sales"];
     rows := map (delete "profit") sample_rows |}.

(** Sales that cancel out. *)
Definition df_zero_sales : DataFrame :=
  {| columns := ["sales"; "profit"];
     rows := [ list_to_map [("sales", Num 40); ("profit", Num 7)];
               list_to_map [("sales", Num (-40)); ("profit", Num 2)] ] |}.

(** Only a sales column: no chart applies. *)
Definition df_sales_only : DataFrame :=
  {| columns := ["sales"];
     rows := [ list_to_map [("sales", Num 40)]; list_to_map [("sales", Num 2)] ] |}.

(** Nothing raises, the directory lists entries as they were created. *)
Definition env_quiet : Env :=
  {| raises := fun _ _ => None;
     scandir := fun names => names;
     argsort := insertion_argsort |}.

(** A directory that lists its entries by name, as NTFS does. *)
Definition env_by_name : Env :=
  {| raises := fun _ _ => None;
     scandir := merge_sort String.le;
     argsort := insertion_argsort |}.

(** [fig1.show()] raises: no renderer for the figure. *)
Definition env_show_fails : Env :=
  {| raises := fun file c =>
       match c with
       | Show => if String.eqb file ventas_por_mes
                 then Some (ValueError "Mime type rendering requires nbformat>=4.2.0 but it is not installed")
                 else None
       | _ => None
       end;
     scandir := fun names => names;
     argsort := insertion_argsort |}.

Definition empty_world : World := {| cwd := []; stdout := []; stderr := [] |}.

(** A working directory that already holds a page. *)
Definition stale_world : World :=
  {| cwd := [("index.html", Blob)]; stdout := []; stderr := [] |}.

(** A file that is not UTF-8: "café" in Latin-1. *)
Definition latin1_bytes : list byte := [x63; x61; x66; xe9]%byte.

Definition parse_length (text : list Z) : parsed nat := Parsed (length text).

(** Two groups with equal sales; Technology comes first in the input. *)
Definition df_ties : DataFrame :=
  {| columns := ["category"; "sub_category"; "sales"];
     rows := [ list_to_map [ ("category", Str "Technology");
                             ("sub_category", Str "Phones"); ("sales", Num 10) ];
               list_to_map [ ("category", Str "Furniture");
                             ("sub_category", Str "Chairs"); ("sales", Num 10) ] ] |}.

(** No call raises. *)
Definition quiet (env : Env) : Prop := ∀ file c, raises env file c = None.

(** No name in the list ends in [.html]. *)
Definition no_pages (names : list string) : Prop :=
  Forall (fun n => ends_with ".html" n = false) names.

(** The dashboard of a run lists the three charts in the order the script
    writes them. *)
Definition report_in_production_order (env : Env) (df : DataFrame) (w : World)
  : Prop :=
  ∃ parts,
    read_file dashboard_file (cwd (report env df w)) = Some (Page parts) ∧
    sections parts
    = KpiSection :: chart_sections [ventas_por_mes; top_subcategorias; ventas_por_region].

(** A run whose chart stage wrote no chart ends without a dashboard and
    with the diagnostic of the assembler. *)
Definition empty_report_without_charts (env : Env) (df : DataFrame) (w : World)
  : Prop :=
  let w1 := (kpi_stage df w).2 in
  let w2 := visualization_stage env df w1 in
  cwd w2 = cwd w1 →
  cwd (report env df w) = cwd w ∧
  stderr (report env df w) = stderr w2 ++ [no_charts_message].

(** A working directory after an earlier run that wrote a dashboard. *)
Definition rerun_world : World :=
  {| cwd := [("dashboard_superstore.html", Blob); ("notas.txt", Blob)];
     stdout := []; stderr := [] |}.

(** ** Cleaning and preparation (lines 41-63)

    [pd.to_datetime] and [pd.to_numeric] with [errors='coerce'] and the
    [.dt] accessors are pandas'; they act cell by cell and are taken as
    given.  A column index without duplicates is assumed: a duplicated
    name makes [df[col]] a frame, not a column. *)

Record Pandas := {
  to_datetime : cell → cell;
  to_numeric : cell → cell;
  dt_year : cell → cell;
  dt_month_start : cell → cell;
  dt_month_name : cell → cell
}.

(** [df[c] = values]: an existing column is replaced where it stands, a
    new one goes to the end of the index. *)
Definition set_column (c : string) (value : gmap string cell → cell)
    (df : DataFrame) : DataFrame :=
  {| columns := if has_column c df then columns df else columns df ++ [c];
     rows := map (fun r => <[c := value r]> r) (rows df) |}.

(** Lines 43-60, inside the [try]. *)
Definition prepare (pd : Pandas) (df : DataFrame) : DataFrame :=
  let df := rename_columns df in
  let date_cols := List.filter (fun c => has_column c df) ["order_date"; "ship_date"] in
  let df := foldl (fun df col => set_column col (fun r => to_datetime pd (get col r)) df)
              df date_cols in
  let df :=
    if has_column "order_date" df then
      let df := set_column "year" (fun r => dt_year pd (get "order_date" r)) df in
      let df := set_column "year_month"
                  (fun r => dt_month_start pd (get "order_date" r)) df in
      set_column "month_name" (fun r => dt_month_name pd (get "order_date" r)) df
    else df in
  let numeric_cols := ["sales"; "profit"; "quantity"] in
  foldl (fun df col =>
           if has_column col df
           then set_column col (fun r => to_numeric pd (get col r)) df
           else df)
    df numeric_cols.

(** ** The Spotify script ([02_spotify_analysis/notebooks/spotify_analysis.py])

    The script has no [try]: the first exception ends the run.  A run is
    modelled by its outcome and the files it leaves; what it prints on
    the way is left out. *)

#[global] Instance cell_countable : Countable cell :=
  inj_countable'
    (fun c => match c with
              | NaN => inl ()
              | Num z => inr (inl z)
              | Str s => inr (inr (inl s))
              | Time t => inr (inr (inr t))
              end)
    (fun x => match x with
              | inl _ => NaN
              | inr (inl z) => Num z
              | inr (inr (inl s)) => Str s
              | inr (inr (inr t)) => Time t
              end)
    (fun c => match c with NaN | Num _ | Str _ | Time _ => eq_refl end).

Module Spotify.

(** [df["year"].max()]: the largest number of the column, [None] (NaN)
    when it has none. *)
Fixpoint year_max (ys : list cell) : option Z :=
  match ys with
  | [] => None
  | Num y :: rest =>
      match year_max rest with
      | Some m => Some (Z.max y m)
      | None => Some y
      end
  | _ :: rest => year_max rest
  end.

Definition is_number_or_nan (c : cell) : bool :=
  match c with
  | NaN | Num _ => true
  | _ => false
  end.

(** [y >= bound] on one cell; a comparison with NaN is false. *)
Definition at_least (bound : option Z) (c : cell) : bool :=
  match c, bound with
  | Num y, Some b => b <=? y
  | _, _ => false
  end.

(** Lines 16-17, with the years compared as integers: that is what pandas
    does as long as binary64 represents them exactly ([years_exact]
    below).  On a column that holds text or dates the subtraction or the
    comparison raises [TypeError]. *)
Definition last_three_years (df : DataFrame) : result DataFrame :=
  if has_column "year" df then
    let years := map (get "year") (rows df) in
    if forallb is_number_or_nan years then
      let bound := (fun m => m - 2) <$> year_max years in
      Ok {| columns := columns df;
            rows := List.filter (fun r => at_least bound (get "year" r)) (rows df) |}
    else Raise (TypeError "unsupported operand type(s) for the year column")
  else Ok df.

(** [df['genre'].value_counts().to_dict()]: how often each value occurs;
    missing values are not counted. *)
Definition value_counts (c : string) (df : DataFrame) : gmap cell nat :=
  foldr (fun r m =>
           match get c r with
           | NaN => m
           | g => <[g := S (default 0%nat (m !! g))]> m
           end) ∅ (rows df).

Inductive artifact : Type :=
| Plot (kind : string) (data : DataFrame) (color : option string)
    (hover_data : option (list string))
| CloudPng (frequencies : gmap cell nat)
| CleanCsv (data : DataFrame).

(** Calls into plotly, wordcloud, matplotlib and the file system that may
    raise for reasons of their own. *)
Inductive ext_call : Type :=
| PxScatter
| ShowScatter
| WriteScatter
| PxHistogram
| ShowHistogram
| WriteHistogram
| GenerateCloud
| DrawCloud
| Savefig
| PltShow
| ToCsv.

Definition Files : Type := list (string * artifact).

Definition run (A : Type) : Type := Files → result A * Files.

#[global] Instance run_ret : MRet run := fun A a fs => (Ok a, fs).

#[global] Instance run_bind : MBind run := fun A B k m fs =>
  match m fs with
  | (Ok a, fs') => k a fs'
  | (Raise e, fs') => (Raise e, fs')
  end.

Definition lift {A} (r : result A) : run A := fun fs => (r, fs).

Definition call (raises : ext_call → option exn) (c : ext_call) : run unit :=
  fun fs => match raises c with
            | Some e => (Raise e, fs)
            | None => (Ok (), fs)
            end.

Fixpoint put (name : string) (a : artifact) (fs : Files) : Files :=
  match fs with
  | [] => [(name, a)]
  | (n, a0) :: rest =>
      if String.eqb n name then (n, a) :: rest else (n, a0) :: put name a rest
  end.

Definition write (name : string) (a : artifact) : run unit :=
  fun fs => (Ok (), put name a fs).

Definition read (name : string) (fs : Files) : option artifact := dict_get name fs.

(** plotly express refuses an argument that names no column of the frame
    (message abridged). *)
Fixpoint check_columns (names : list string) (df : DataFrame) : result unit :=
  match names with
  | [] => Ok ()
  | n :: rest =>
      if has_column n df then check_columns rest df
      else Raise (ValueError ("Value is not the name of a column in 'data_frame': " +:+ n))
  end.

Definition option_list {A} (o : option A) : list A :=
  match o with
  | Some a => [a]
  | None => []
  end.

Definition scatter_file : string := "scatter_popularity_energy.html".
Definition histogram_file : string := "histograma_duracion.html".
Definition cloud_file : string := "nube_generos_mejorada.png".
Definition clean_file : string := "SpotifyFeatures_clean.csv".

Definition empty_cloud_error : exn :=
  ValueError "We need at least 1 word to plot a word cloud, got 0.".

(** Lines 20-30. *)
Definition scatter (raises : ext_call → option exn) (df : DataFrame) : run unit :=
  let color := if has_column "genre" df then Some "genre" else None in
  let hover := if has_column "track_name" df
               then Some ["track_name"; "artist_name"] else None in
  lift (check_columns (["energy"; "popularity"] ++ option_list color
                         ++ ["popularity"] ++ default [] hover) df);;
  call raises PxScatter;;
  call raises ShowScatter;;
  call raises WriteScatter;;
  write scatter_file (Plot "scatter" df color hover).

(** Lines 33-41. *)
Definition histogram (raises : ext_call → option exn) (df : DataFrame) : run unit :=
  let color := if has_column "genre" df then Some "genre" else None in
  lift (check_columns (["duration_ms"] ++ option_list color) df);;
  call raises PxHistogram;;
  call raises ShowHistogram;;
  call raises WriteHistogram;;
  write histogram_file (Plot "histogram" df color None).

(** Lines 44-71.  [generate_from_frequencies] refuses an empty
    dictionary. *)
Definition word_cloud (raises : ext_call → option exn) (df : DataFrame) : run unit :=
  if has_column "genre" df then
    let genre_dict := value_counts "genre" df in
    (if bool_decide (genre_dict = ∅) then lift (Raise empty_cloud_error)
     else call raises GenerateCloud);;
    call raises DrawCloud;;
    call raises Savefig;;
    write cloud_file (CloudPng genre_dict);;
    call raises PltShow
  else mret ().

(** The script from line 8 on; [loaded] is what [pd.read_csv] returned. *)
Definition script (raises : ext_call → option exn) (loaded : result DataFrame)
  : run unit :=
  df ← lift loaded;
  df ← lift (last_three_years df);
  scatter raises df;;
  histogram raises df;;
  word_cloud raises df;;
  call raises ToCsv;;
  write clean_file (CleanCsv df).

(** The two figures the script writes. *)
Definition scatter_plot (df : DataFrame) : artifact :=
  Plot "scatter" df
    (if has_column "genre" df then Some "genre" else None)
    (if has_column "track_name" df then Some ["track_name"; "artist_name"] else None).

Definition histogram_plot (df : DataFrame) : artifact :=
  Plot "histogram" df (if has_column "genre" df then Some "genre" else None) None.

(** How many rows hold [g] in column [c]. *)
Definition occurrences (c : string) (g : cell) (rs : list (gmap string cell)) : nat :=
  length (filter (fun r => get c r = g) rs).

End Spotify.

(** A few songs. *)
Definition song (y : cell) (g : cell) (pop : Z) : gmap string cell :=
  list_to_map [ ("year", y); ("genre", g); ("energy", Num 5);
                ("popularity", Num pop); ("duration_ms", Num 200000) ].

Definition songs : DataFrame :=
  {| columns := ["year"; "genre"; "energy"; "popularity"; "duration_ms"];
     rows := [ song (Num 2015) (Str "Rock") 40; song (Num 2019) (Str "Pop") 70;
               song NaN (Str "Pop") 10; song (Num 2017) (Str "Jazz") 30;
               song (Num 2018) NaN 55 ] |}.

(** Songs whose genre is missing everywhere. *)
Definition songs_without_genres : DataFrame :=
  {| columns := columns songs;
     rows := [ song (Num 2019) NaN 70; song (Num 2018) NaN 55 ] |}.

Definition nothing_raises : Spotify.ext_call → option exn := fun _ => None.

(** A raw sheet as the loader hands it over. *)
Definition raw_sheet : DataFrame :=
  {| columns := ["Order Date"; " Sales "; "Sub-Category"];
     rows := [ list_to_map [ ("Order Date", Str "2017-03-05"); (" Sales ", Str "12");
                             ("Sub-Category", Str "Phones") ] ] |}.

(** Conversions that keep what is already typed and null the rest; time
    is counted in months here. *)
Definition pandas_strict : Pandas :=
  {| to_datetime := fun c => match c with Time t => Time t | _ => NaN end;
     to_numeric := fun c => match c with Num z => Num z | _ => NaN end;
     dt_year := fun c => match c with Time t => Num (1970 + t / 12) | _ => NaN end;
     dt_month_start := fun c => c;
     dt_month_name := fun c => match c with Time t => Str "month" | _ => NaN end |}.

(** ** Further notions and samples *)

(** Years that binary64 represents exactly.  A year column with a missing
    cell is a binary64 column; its subtraction and comparisons are those
    of the integers as long as the years, and the latest year less two,
    are below 2^53 in magnitude.  A column without a missing cell is
    [int64] and computes as the integers do there. *)
Definition years_exact (df : DataFrame) : Prop :=
  Forall (fun r => match get "year" r with
                   | Num y => Z.abs y < 2 ^ 52
                   | _ => True
                   end) (rows df).

(** Text in ASCII. *)
Definition ascii_text (s : string) : Prop :=
  Forall (fun c => (code c < 128)%N) (list_ascii_of_string s).

(** A column of numbers and missing cells. *)
Definition is_numeric (c : cell) : bool :=
  match c with
  | NaN | Num _ => true
  | _ => false
  end.

(** The magnitudes of the cells, added up: no sum of some of the cells
    exceeds it. *)
Definition sum_abs (cs : list cell) : Z :=
  foldr Z.add 0 (map (fun c => Z.abs (num c)) cs).

(** Where the exact sums of this file are the sums pandas computes: the
    column holds numbers and missing cells only, and the magnitudes of its
    numbers add up to less than 2^53.  Every partial sum, in whatever
    order and grouping it is taken, is then an integer below 2^53 in
    magnitude; [int64] does not wrap there and binary64 represents it
    exactly, so the sum of the column, and of each group of its rows, is
    the exact one. *)
Definition summed_exactly (c : string) (df : DataFrame) : Prop :=
  forallb is_numeric (map (get c) (rows df)) = true ∧
  sum_abs (map (get c) (rows df)) < 2 ^ 53.

(** Where a rounding digit and the bits below it place [A / B] between
    [shr_m] and its successor. *)
Definition located (mrs : shr_record) (A B : Z) : Prop :=
  0 ≤ shr_m mrs ∧ 0 < B ∧
  0 ≤ A - shr_m mrs * B < B ∧
  shr_r mrs = (B <=? 2 * (A - shr_m mrs * B)) ∧
  shr_s mrs = negb (A - shr_m mrs * B =? 0) && negb (2 * (A - shr_m mrs * B) =? B).

(** A key without missing parts. *)
Definition complete_key (k : list cell) : Prop := existsb is_nan k = false.

Definition sum_Z (l : list Z) : Z := foldr Z.add 0 l.

(** A step that leaves the streams alone and writes at most the file [name]. *)
Definition writes_at_most (name : string) (w w' : World) : Prop :=
  stdout w' = stdout w ∧ stderr w' = stderr w ∧
  (cwd w' = cwd w ∨ ∃ c, cwd w' = put_file name c (cwd w)).

(** A delimited-text file the parser rejects. *)
Definition csv_source : Source :=
  {| data_path := "data/ventas.csv"; path_exists := true; suffix := ".csv";
     open_error := None; file_bytes := latin1_bytes |}.

(** One row with the given sales and profit. *)
Definition df_one_row (sales profit : Z) : DataFrame :=
  {| columns := ["sales"; "profit"];
     rows := [ list_to_map [("sales", Num sales); ("profit", Num profit)] ] |}.

(** A directory where the file should be. *)
Definition directory_source : Source :=
  {| data_path := "data/ventas.csv"; path_exists := true; suffix := ".csv";
     open_error := Some "[Errno 21] Is a directory: 'data/ventas.csv'";
     file_bytes := [] |}.

Definition parse_rejects (text : list Z) : parsed nat :=
  ParserError "Error tokenizing data".

Definition read_excel_length (bs : list byte) : result nat := Ok (length bs).

(** A profit column and no sales column. *)
Definition df_profit_only : DataFrame :=
  {| columns := ["profit"];
     rows := [ list_to_map [("profit", Num 7)]; list_to_map [("profit", Num 2)] ] |}.

(** The sample rows, last row first. *)
Definition df_full_reversed : DataFrame :=
  {| columns := columns df_full; rows := reverse sample_rows |}.

(** [c] joins the index unless it is there. *)
Definition add_column_name (c : string) (names : list string) : list string :=
  if bool_decide (c ∈ names) then names else names ++ [c].

(** The index after the derived calendar columns are set. *)
Definition derived_names (names : list string) : list string :=
  if bool_decide ("order_date" ∈ names)
  then add_column_name "month_name"
         (add_column_name "year_month" (add_column_name "year" names))
  else names.

(** The songs of the last three years. *)
Definition songs_recent : DataFrame :=
  {| columns := columns songs;
     rows := [ song (Num 2019) (Str "Pop") 70; song (Num 2017) (Str "Jazz") 30;
               song (Num 2018) NaN 55 ] |}.

(** The songs without their energy column. *)
Definition songs_no_energy : DataFrame :=
  {| columns := ["year"; "genre"; "popularity"; "duration_ms"];
     rows := rows songs |}.

Definition songs_no_energy_recent : DataFrame :=
  {| columns := ["year"; "genre"; "popularity"; "duration_ms"];
     rows := rows songs_recent |}.

(** * Properties *)

(** ** Canonical column names *)

Section Canonicalisation.

Local Ltac each_ascii c :=
  destruct c as [[] [] [] [] [] [] [] []]; vm_compute.

Lemma canon_char_idem c : canon_char (canon_char c) = canon_char c.
Proof. each_ascii c; reflexivity. Qed.

Lemma canon_char_not_space c :
  py_isspace c = false → py_isspace (canon_char c) = false.
Proof. each_ascii c; intros H; first [reflexivity | discriminate H]. Qed.

Lemma canonical_chars_map l : canonical_chars l = map canon_char (strip l).
Proof.
  unfold canonical_chars, replace_char, lower.
  rewrite !map_map. reflexivity.
Qed.

Lemma lstrip_length l : (length (lstrip l) ≤ length l)%nat.
Proof.
  induction l as [|d t IH]; simpl; [lia|].
  destruct (py_isspace d); simpl; lia.
Qed.

Lemma lstrip_fixed l :
  lstrip l = l ↔ match l with [] => True | c :: _ => py_isspace c = false end.
Proof.
  destruct l as [|c t]; simpl; [tauto|].
  destruct (py_isspace c) eqn:E; split; try done.
  intros H. exfalso.
  pose proof (lstrip_length t) as Hlen.
  rewrite H in Hlen. simpl in Hlen. lia.
Qed.

Lemma lstrip_idem l : lstrip (lstrip l) = lstrip l.
Proof.
  induction l as [|c t IH]; simpl; [done|].
  destruct (py_isspace c) eqn:E; [done|]. simpl. by rewrite E.
Qed.

Lemma lstrip_drops_a_prefix l : ∃ p, l = p ++ lstrip l.
Proof.
  induction l as [|c t [p Hp]]; simpl; [by exists []|].
  destruct (py_isspace c); [|by exists []].
  exists (c :: p). simpl. by f_equal.
Qed.

Lemma lstrip_map_fixed l :
  lstrip l = l → lstrip (map canon_char l) = map canon_char l.
Proof.
  rewrite !lstrip_fixed. destruct l as [|c t]; simpl; [done|].
  apply canon_char_not_space.
Qed.

Lemma strip_trimmed l : trimmed (strip l).
Proof.
  unfold trimmed, strip, rstrip. rewrite rev_involutive, lstrip_idem.
  split; [|done].
  set (m := lstrip l).
  destruct (lstrip_drops_a_prefix (rev m)) as [p Hp].
  assert (Hm : m = rev (lstrip (rev m)) ++ rev p).
  { rewrite <- rev_app_distr, <- Hp, rev_involutive. done. }
  apply lstrip_fixed.
  destruct (rev (lstrip (rev m))) as [|c t] eqn:E; [done|].
  assert (Hfix : lstrip m = m) by apply lstrip_idem.
  apply lstrip_fixed in Hfix. rewrite Hm in Hfix. simpl in Hfix. done.
Qed.

Lemma trimmed_map l : trimmed l → trimmed (map canon_char l).
Proof.
  intros [H1 H2]. split; [by apply lstrip_map_fixed|].
  rewrite <- map_rev. by apply lstrip_map_fixed.
Qed.

Lemma strip_of_trimmed l : trimmed l → strip l = l.
Proof.
  intros [H1 H2]. unfold strip, rstrip. rewrite H1, H2. apply rev_involutive.
Qed.

Lemma canonical_chars_idem l :
  canonical_chars (canonical_chars l) = canonical_chars l.
Proof.
  rewrite !canonical_chars_map.
  rewrite strip_of_trimmed by (apply trimmed_map, strip_trimmed).
  rewrite map_map. apply map_ext. intros c. apply canon_char_idem.
Qed.

Lemma canonical_name_twice c :
  canonical_name (canonical_name c) = canonical_name c.
Proof.
  unfold canonical_name.
  rewrite list_ascii_of_string_of_list_ascii.
  by rewrite canonical_chars_idem.
Qed.

(** C7. Canonicalising a column name twice gives the name that
    canonicalising it once gives: trimming, lowering and replacing
    spaces and hyphens by underscores leave a canonical name as it is.
    The same holds for the column index of a dataset renamed twice. *)
Theorem canonical_name_idempotent :
  (∀ c : string, canonical_name (canonical_name c) = canonical_name c) ∧
  (∀ df : DataFrame,
      columns (rename_columns (rename_columns df)) = columns (rename_columns df)).
Proof.
  split; [apply canonical_name_twice|].
  intros df. unfold rename_columns. cbn [columns].
  rewrite map_map. apply map_ext. intros c. apply canonical_name_twice.
Qed.

End Canonicalisation.

(** ** Loader *)

Section Loader.

Context {A : Type}.

Lemma try_encodings_find (read : string → result A) encs :
  try_encodings read encs =
  match List.find (fun e => negb (is_decode_error (read e))) encs with
  | Some e => read e
  | None => Raise encoding_undetermined
  end.
Proof.
  induction encs as [|e rest IH]; simpl; [done|].
  destruct (read e) as [a|[]] eqn:E; simpl; rewrite ?E; try done.
Qed.

(** The loop returns the dataset of the first candidate that decodes. *)
Lemma try_encodings_accepts (read : string → result A) tried e rest df :
  Forall (fun e' => read e' = Raise UnicodeDecodeError) tried →
  read e = Ok df →
  try_encodings read (tried ++ e :: rest) = Ok df.
Proof.
  intros Htried He. induction Htried as [|e' l He' _ IH]; simpl.
  - by rewrite He.
  - by rewrite He'.
Qed.

(** The [else] branch runs when every candidate fails to decode. *)
Lemma try_encodings_exhausted (read : string → result A) encs :
  Forall (fun e => read e = Raise UnicodeDecodeError) encs →
  try_encodings read encs = Raise encoding_undetermined.
Proof.
  induction 1 as [|e l He _ IH]; simpl; [done|]. by rewrite He.
Qed.

(** C6. The loader tries utf-8, latin1, ISO-8859-1 and cp1252 in that
    order.  Its outcome is that of the first candidate whose parse raises
    no decoding error, the dataset that parse returns; when every
    candidate raises a decoding error it fails with the
    encoding-undetermined error and returns no dataset. *)
Theorem loader_accepts_first_decodable (read : string → result A) :
  encodings = ["utf-8"; "latin1"; "ISO-8859-1"; "cp1252"] ∧
  try_encodings read encodings =
    match List.find (fun e => negb (is_decode_error (read e))) encodings with
    | Some e => read e
    | None => Raise encoding_undetermined
    end.
Proof. split; [reflexivity | apply try_encodings_find]. Qed.

(** A delimited-text file goes through the encoding loop. *)
Lemma load_delimited_text (read_excel : list byte → result A)
    (parse : list Z → parsed A) (src : Source) :
  path_exists src = true →
  suffix src ≠ ".xls" → suffix src ≠ ".xlsx" →
  load read_excel parse src
  = try_encodings (fun encoding => bs ← open_file src; read_csv parse bs encoding)
      encodings.
Proof.
  intros He H1 H2. unfold load. rewrite He. cbn [negb].
  apply String.eqb_neq in H1, H2. by rewrite H1, H2.
Qed.

(** A file that opens goes through the loop with its bytes. *)
Lemma load_opened (read_excel : list byte → result A)
    (parse : list Z → parsed A) (src : Source) :
  path_exists src = true →
  suffix src ≠ ".xls" → suffix src ≠ ".xlsx" →
  open_error src = None →
  load read_excel parse src
  = try_encodings (read_csv parse (file_bytes src)) encodings.
Proof.
  intros He H1 H2 Ho. rewrite load_delimited_text by done.
  unfold open_file. rewrite Ho. reflexivity.
Qed.

(** A file that does not open ends the load with the [OSError], at the
    first candidate of the loop. *)
Lemma load_not_opened (read_excel : list byte → result A)
    (parse : list Z → parsed A) (src : Source) msg :
  path_exists src = true →
  open_error src = Some msg →
  load read_excel parse src = Raise (OSError msg).
Proof.
  intros He Ho. unfold load, open_file. rewrite He, Ho. cbn [negb].
  by destruct (_ || _).
Qed.

(** A failed load hands no dataset on. *)
Lemma load_stage_all_or_nothing (read_excel : list byte → result A)
    (parse : list Z → parsed A) shape (src : Source) e :
  load read_excel parse src = Raise e →
  load_stage read_excel parse shape src
  = (None, ([], ["Error al cargar los datos: " +:+ exn_str e])).
Proof. intros H. unfold load_stage. by rewrite H. Qed.

Lemma latin1_decodes bs : decode "latin1" bs = Ok (map byte_val bs).
Proof. reflexivity. Qed.

Lemma read_csv_decoded (parse : list Z → parsed A) bs e text :
  decode e bs = Ok text → read_csv parse bs e = of_parsed (parse text).
Proof. unfold read_csv. intros ->. reflexivity. Qed.

Lemma utf8_raises_decode_error bs x :
  decode "utf-8" bs = Raise x → x = UnicodeDecodeError.
Proof.
  unfold decode. cbn [String.eqb Ascii.eqb Bool.eqb]. unfold or_decode_error.
  case_match; congruence.
Qed.

(** C10. For every byte sequence the loop stops at utf-8 or at latin1:
    latin1 decodes every byte sequence, so the outcome of the loop is
    what the parser makes of the utf-8 or of the latin1 text, and the
    branch that reports all candidates exhausted is never taken. *)
Theorem exhausted_branch_unreachable (parse : list Z → parsed A) (bs : list byte) :
  decode "latin1" bs = Ok (map byte_val bs) ∧
  try_encodings (read_csv parse bs) encodings ≠ Raise encoding_undetermined ∧
  ∃ encoding text,
    encoding ∈ ["utf-8"; "latin1"] ∧
    decode encoding bs = Ok text ∧
    try_encodings (read_csv parse bs) encodings = of_parsed (parse text).
Proof.
  split; [reflexivity|].
  assert (H : ∃ encoding text,
    encoding ∈ ["utf-8"; "latin1"] ∧
    decode encoding bs = Ok text ∧
    try_encodings (read_csv parse bs) encodings = of_parsed (parse text)).
  { unfold encodings. cbn [try_encodings].
    destruct (decode "utf-8" bs) as [text|e] eqn:E.
    - exists "utf-8", text. split; [left|]. split; [done|].
      rewrite (read_csv_decoded _ _ _ _ E). by destruct (parse text).
    - apply utf8_raises_decode_error in E as E'. subst e.
      exists "latin1", (map byte_val bs). split; [right; left|]. split; [done|].
      unfold read_csv at 1. rewrite E. simpl.
      rewrite (read_csv_decoded _ _ _ _ (latin1_decodes bs)).
      by destruct (parse _). }
  split; [|done].
  destruct H as (e & text & _ & _ & ->). by destruct (parse text).
Qed.

End Loader.

(** Latin-1 bytes that are not UTF-8 are read through the second candidate. *)
Example latin1_fallback :
  decode "utf-8" latin1_bytes = Raise UnicodeDecodeError ∧
  try_encodings (read_csv parse_length latin1_bytes) encodings = Ok 4%nat.
Proof. split; reflexivity. Qed.

(** ** KPIs *)

Section Kpis.

Lemma round_half_even_nearest (q : Q) :
  2 * Z.abs (round_half_even q * Z.pos (Qden q) - Qnum q) ≤ Z.pos (Qden q).
Proof.
  unfold round_half_even.
  set (d := Z.pos (Qden q)). set (n := Qnum q).
  assert (Hd : 0 < d) by (unfold d; lia).
  pose proof (Z.div_mod n d ltac:(lia)) as Hdiv.
  pose proof (Z.mod_pos_bound n d Hd) as Hmod.
  repeat case_match; lia.
Qed.

(** *** Rounding to binary64

    [digits2_pos] counts the bits of a mantissa. *)
Lemma digits2_pos_bounds (p : positive) :
  2 ^ (Z.pos (digits2_pos p) - 1) ≤ Z.pos p < 2 ^ Z.pos (digits2_pos p).
Proof.
  induction p as [p IH|p IH|]; cbn [digits2_pos].
  - rewrite Pos2Z.inj_succ, Z.pow_succ_r by lia.
    replace (Z.succ (Z.pos (digits2_pos p)) - 1) with (Z.succ (Z.pos (digits2_pos p) - 1)) by lia.
    rewrite Z.pow_succ_r by lia. lia.
  - rewrite Pos2Z.inj_succ, Z.pow_succ_r by lia.
    replace (Z.succ (Z.pos (digits2_pos p)) - 1) with (Z.succ (Z.pos (digits2_pos p) - 1)) by lia.
    rewrite Z.pow_succ_r by lia. lia.
  - cbn. lia.
Qed.

Lemma digits2_pos_unique (p : positive) (k : Z) :
  2 ^ (k - 1) ≤ Z.pos p < 2 ^ k → Z.pos (digits2_pos p) = k.
Proof.
  intros [Hlo Hhi]. pose proof (digits2_pos_bounds p) as [Dlo Dhi].
  set (d := Z.pos (digits2_pos p)) in *.
  assert (0 < d) by (unfold d; lia).
  destruct (Z.lt_trichotomy d k) as [Hlt|[Heq|Hgt]]; [|done|].
  - assert (2 ^ d ≤ 2 ^ (k - 1)) by (apply Z.pow_le_mono_r; lia). lia.
  - assert (0 ≤ k).
    { destruct (Z.le_gt_cases 0 k); [done|]. rewrite Z.pow_neg_r in Hhi by lia. lia. }
    assert (2 ^ k ≤ 2 ^ (d - 1)) by (apply Z.pow_le_mono_r; lia). lia.
Qed.

(** Shifting a mantissa right by one bit keeps track of where the exact
    value lies. *)
Lemma shr_1_located mrs A B : located mrs A B → located (shr_1 mrs) A (2 * B).
Proof.
  destruct mrs as [m r s]. unfold located. cbn [shr_m shr_r shr_s].
  intros (Hm & HB & Hd & -> & ->).
  destruct m as [|[p|p|]|p]; cbn [shr_1 shr_m shr_r shr_s]; try lia;
    repeat split; try lia;
    repeat match goal with
    | |- context [?a <=? ?b] => destruct (Z.leb_spec a b)
    | |- context [?a =? ?b] => destruct (Z.eqb_spec a b)
    end; cbn; try reflexivity; try lia.
Qed.

Lemma iter_pos_located n : ∀ mrs A B,
  located mrs A B → located (SpecFloat.iter_pos shr_1 n mrs) A (2 ^ Z.pos n * B).
Proof.
  induction n as [n IH|n IH|]; intros mrs A B H; cbn [SpecFloat.iter_pos].
  - apply shr_1_located, IH, IH in H.
    replace (2 ^ Z.pos n~1 * B) with (2 ^ Z.pos n * (2 ^ Z.pos n * (2 * B))); [done|].
    replace (Z.pos n~1) with (Z.pos n + Z.pos n + 1) by lia.
    rewrite !Z.pow_add_r by lia. rewrite Z.pow_1_r. ring.
  - apply IH, IH in H.
    replace (2 ^ Z.pos n~0 * B) with (2 ^ Z.pos n * (2 ^ Z.pos n * B)); [done|].
    replace (Z.pos n~0) with (Z.pos n + Z.pos n) by lia.
    rewrite !Z.pow_add_r by lia. ring.
  - apply shr_1_located in H. by rewrite Z.pow_1_r.
Qed.

Lemma shr_located mrs e n A B :
  0 ≤ n → located mrs A B →
  located (shr mrs e n).1 A (2 ^ n * B) ∧ (shr mrs e n).2 = e + n.
Proof.
  intros Hn H. destruct n as [|p|p]; [| |lia]; cbn [shr fst snd].
  - rewrite Z.pow_0_r, Z.mul_1_l. split; [done|lia].
  - split; [by apply iter_pos_located|done].
Qed.

(** Rounding to nearest, ties to even, is off by at most half a unit. *)
Lemma round_nearest_even_located mrs A B :
  located mrs A B →
  let m := round_nearest_even (shr_m mrs) (loc_of_shr_record mrs) in
  shr_m mrs ≤ m ≤ shr_m mrs + 1 ∧ 2 * Z.abs (m * B - A) ≤ B.
Proof.
  destruct mrs as [m r s]. unfold located. cbn [shr_m shr_r shr_s].
  intros (Hm & HB & Hd & Hr & Hs). cbn zeta.
  destruct r, s; cbn [loc_of_shr_record round_nearest_even];
    revert Hr Hs;
    repeat match goal with
    | |- context [?a <=? ?b] => destruct (Z.leb_spec a b)
    | |- context [?a =? ?b] => destruct (Z.eqb_spec a b)
    end; cbn; intros; try discriminate; try (destruct (Z.even m)); lia.
Qed.

(** The exponent of a normal number. *)
Lemma fexp_normal x : -1021 ≤ x → fexp prec emax x = x - 53.
Proof. intros H. unfold fexp, SpecFloat.emin, prec, emax. lia. Qed.

Lemma Zdigits2_unique m k : 0 < m → 2 ^ (k - 1) ≤ m < 2 ^ k → Zdigits2 m = k.
Proof.
  intros Hm H. destruct m as [|p|p]; [lia| |lia]. cbn [Zdigits2].
  by apply digits2_pos_unique.
Qed.

Lemma Zdigits2_bounds m : 0 < m → 2 ^ (Zdigits2 m - 1) ≤ m < 2 ^ Zdigits2 m.
Proof.
  intros Hm. destruct m as [|p|p]; [lia| |lia]. cbn [Zdigits2].
  apply digits2_pos_bounds.
Qed.

(** A mantissa of at least 53 bits, away from the ends of the exponent
    range, is rounded to one of 53 bits that is off by at most half a unit
    in its last place. *)
Lemma binary_round_aux_normal (s : bool) (m e : Z) (l : location) (A B : Z) :
  located (shr_record_of_loc m l) A B →
  2 ^ 52 ≤ m →
  -1074 ≤ e →
  Zdigits2 m + e ≤ 1023 →
  ∃ (m' : positive) (e' : Z),
    binary_round_aux prec emax s m e l = S754_finite s m' e' ∧
    2 ^ 52 ≤ Z.pos m' < 2 ^ 53 ∧ e ≤ e' ∧ e' ≤ Zdigits2 m + e - 52 ∧
    2 * Z.abs (Z.pos m' * 2 ^ (e' - e) * B - A) ≤ 2 ^ (e' - e) * B.
Proof.
  intros Hloc Hm He Hd.
  assert (Hm0 : 0 < m) by lia.
  pose proof (Zdigits2_bounds m Hm0) as [Dlo Dhi].
  set (d := Zdigits2 m) in *.
  assert (Hd53 : 53 ≤ d).
  { destruct (Z.le_gt_cases 53 d); [done|].
    assert (2 ^ d ≤ 2 ^ 52) by (apply Z.pow_le_mono_r; lia). lia. }
  assert (HmA : shr_m (shr_record_of_loc m l) = m) by (by destruct l as [|[]]).
  unfold binary_round_aux, shr_fexp. fold d.
  rewrite fexp_normal by lia.
  replace (d + e - 53 - e) with (d - 53) by lia.
  destruct (shr_located (shr_record_of_loc m l) e (d - 53) A B ltac:(lia) Hloc)
    as [Hloc1 He1].
  destruct (shr (shr_record_of_loc m l) e (d - 53)) as [mrs1 e1].
  cbn [fst snd] in Hloc1, He1. subst e1.
  set (n := d - 53) in *.
  assert (Hn : 0 < 2 ^ n) by (apply Z.pow_pos_nonneg; lia).
  assert (Hdn : 2 ^ d = 2 ^ 53 * 2 ^ n).
  { unfold n. rewrite <- Z.pow_add_r by lia. f_equal. lia. }
  assert (Hdn1 : 2 ^ (d - 1) = 2 ^ 52 * 2 ^ n).
  { unfold n. rewrite <- Z.pow_add_r by lia. f_equal. lia. }
  pose proof (round_nearest_even_located mrs1 A (2 ^ n * B) Hloc1) as Hround.
  cbn zeta in Hround.
  set (m2 := round_nearest_even (shr_m mrs1) (loc_of_shr_record mrs1)) in *.
  destruct Hround as [Hm2 Herr].
  destruct Hloc as (_ & HB & HdA & _). rewrite HmA in HdA.
  destruct Hloc1 as (Hm1 & _ & Hd1 & _).
  set (m1 := shr_m mrs1) in *.
  assert (Hm1lo : 2 ^ 52 ≤ m1).
  { assert ((m1 + 1) * 2 ^ n * B > 2 ^ 52 * 2 ^ n * B) by nia.
    assert (m1 + 1 > 2 ^ 52) by nia. lia. }
  assert (Hm1hi : m1 < 2 ^ 53).
  { assert (m1 * 2 ^ n * B < 2 ^ 53 * 2 ^ n * B) by nia.
    nia. }
  destruct (Z.eq_dec m2 (2 ^ 53)) as [E53|N53].
  - rewrite E53.
    assert (Hdig : Zdigits2 (2 ^ 53) = 54) by reflexivity.
    rewrite Hdig, fexp_normal by lia.
    replace (54 + (e + n) - 53 - (e + n)) with 1 by lia.
    cbn [shr SpecFloat.iter_pos shr_record_of_loc shr_1 shr_m].
    change (Z.pow_pos 2 53) with (2 ^ 53).
    cbn -[Z.leb Z.pow].
    destruct (Z.leb_spec (e + n + 1) (emax - prec)) as [_|Hbad];
      [|unfold emax, prec, n in Hbad; lia].
    eexists _, _. split; [reflexivity|].
    change (Z.pos 4503599627370496) with (2 ^ 52).
    split; [lia|]. split; [lia|]. split; [unfold n; lia|].
    replace (e + n + 1 - e) with (n + 1) by lia.
    rewrite Z.pow_add_r, Z.pow_1_r by lia.
    rewrite E53 in Herr.
    replace (2 ^ 52 * (2 ^ n * 2) * B - A) with (2 ^ 53 * (2 ^ n * B) - A)
      by (change (2 ^ 53) with (2 * 2 ^ 52); ring).
    lia.
  - assert (Hm2r : 2 ^ 52 ≤ m2 < 2 ^ 53) by lia.
    assert (Hdig : Zdigits2 m2 = 53) by (apply Zdigits2_unique; [lia|done]).
    rewrite Hdig, fexp_normal by lia.
    replace (53 + (e + n) - 53 - (e + n)) with 0 by lia.
    cbn [shr shr_record_of_loc shr_m fst snd].
    destruct m2 as [|p2|p2] eqn:Em2; [lia| |lia].
    destruct (Z.leb_spec (e + n) (emax - prec)) as [_|Hbad];
      [|unfold emax, prec, n in Hbad; lia].
    exists p2, (e + n). split; [reflexivity|].
    split; [lia|]. split; [lia|]. split; [unfold n; lia|].
    replace (e + n - e) with n by lia.
    replace (Z.pos p2 * 2 ^ n * B - A) with (Z.pos p2 * (2 ^ n * B) - A) by ring.
    lia.
Qed.


Lemma located_exact m : 0 ≤ m → located (shr_record_of_loc m loc_Exact) m 1.
Proof.
  intros Hm. unfold located. cbn [shr_record_of_loc shr_m shr_r shr_s].
  replace (m - m * 1) with 0 by lia. cbn. lia.
Qed.





Lemma SFmul_normal (sx sy : bool) (mx my : positive) (ex ey : Z) :
  2 ^ 52 ≤ Z.pos mx < 2 ^ 53 → 2 ^ 52 ≤ Z.pos my < 2 ^ 53 →
  -1074 ≤ ex + ey ≤ 917 →
  ∃ (m : positive) (e : Z),
    SFmul prec emax (S754_finite sx mx ex) (S754_finite sy my ey)
    = S754_finite (xorb sx sy) m e ∧
    2 ^ 52 ≤ Z.pos m < 2 ^ 53 ∧ ex + ey ≤ e ≤ ex + ey + 54 ∧
    2 * Z.abs (Z.pos m * 2 ^ (e - (ex + ey)) - Z.pos mx * Z.pos my)
    ≤ 2 ^ (e - (ex + ey)).
Proof.
  intros Hx Hy He. unfold SFmul.
  assert (HM : 2 ^ 104 ≤ Z.pos (mx * my) < 2 ^ 106).
  { rewrite Pos2Z.inj_mul. change (2 ^ 104) with (2 ^ 52 * 2 ^ 52).
    change (2 ^ 106) with (2 ^ 53 * 2 ^ 53). nia. }
  assert (Hdig : Zdigits2 (Z.pos (mx * my)) ≤ 106).
  { pose proof (Zdigits2_bounds (Z.pos (mx * my)) ltac:(lia)) as [Dlo _].
    destruct (Z.le_gt_cases (Zdigits2 (Z.pos (mx * my))) 106); [done|].
    assert (2 ^ 106 ≤ 2 ^ (Zdigits2 (Z.pos (mx * my)) - 1))
      by (apply Z.pow_le_mono_r; lia). lia. }
  destruct (binary_round_aux_normal (xorb sx sy) (Z.pos (mx * my)) (ex + ey)
              loc_Exact (Z.pos (mx * my)) 1)
    as (m & e & Hres & Hm & He1 & He2 & Herr).
  { apply located_exact. lia. }
  { lia. }
  { lia. }
  { lia. }
  exists m, e. split; [done|]. split; [done|]. split; [lia|].
  rewrite <- Pos2Z.inj_mul. lia.
Qed.

(** The same in rational numbers. *)
Lemma pow2_pos (e : Z) : (0 < 2 ^ e)%Q.
Proof. by apply Qpower_0_lt. Qed.

Lemma pow2_add (a b : Z) : (2 ^ (a + b) == 2 ^ a * 2 ^ b)%Q.
Proof. by apply Qpower_plus. Qed.

Lemma pow2_Z (k : Z) : 0 ≤ k → (inject_Z (2 ^ k) == 2 ^ k)%Q.
Proof. intros Hk. by rewrite Zpower_Qpower. Qed.

Lemma magnitude_pos m e : (0 < magnitude m e)%Q.
Proof.
  unfold magnitude. apply Qmult_lt_0_compat; [|apply pow2_pos].
  rewrite <- (Zlt_Qlt 0). lia.
Qed.

(** [V] and [T] on a common scale. *)
Lemma scaled_close (G V T : Q) (a b : Z) :
  (0 < G)%Q → (V == G * inject_Z a)%Q → (T == G * inject_Z b)%Q →
  2 ^ 53 * Z.abs (a - b) ≤ a →
  (- V <= inject_Z (2 ^ 53) * (V - T) ∧ inject_Z (2 ^ 53) * (V - T) <= V)%Q.
Proof.
  intros HG HV HT Hab.
  assert (H1 : - a ≤ 2 ^ 53 * (a - b)) by lia.
  assert (H2 : 2 ^ 53 * (a - b) ≤ a) by lia.
  rewrite Zle_Qle in H1, H2.
  rewrite inject_Z_opp in H1.
  rewrite inject_Z_mult in H1, H2.
  unfold Z.sub in H1, H2. rewrite inject_Z_plus, inject_Z_opp in H1, H2.
  set (A := inject_Z a) in *. set (B := inject_Z b) in *.
  set (c := inject_Z (2 ^ 53)) in *.
  rewrite HV, HT.
  assert (E1 : (c * (G * A - G * B) == G * (c * (A + - B)))%Q) by ring.
  assert (E2 : (- (G * A) == G * - A)%Q) by ring.
  rewrite E1, E2. split; by apply Qmult_le_l.
Qed.


Lemma round_half_even_close (r : Q) :
  (- (1 # 2) <= inject_Z (round_half_even r) - r ∧
   inject_Z (round_half_even r) - r <= 1 # 2)%Q.
Proof.
  pose proof (round_half_even_nearest r) as H.
  set (h := round_half_even r) in *. destruct r as [n d].
  cbn [Qnum Qden] in H. unfold Qle, Qminus, Qplus, Qopp, inject_Z. cbn.
  lia.
Qed.

Lemma round_half_even_nonneg (r : Q) : (0 <= r)%Q → 0 ≤ round_half_even r.
Proof.
  destruct r as [n d]. unfold Qle. cbn. intros Hn.
  unfold round_half_even. cbn [Qnum Qden].
  assert (0 ≤ n / Z.pos d) by (apply Z.div_pos; lia).
  repeat case_match; lia.
Qed.

(** So is its hundredfold. *)
Lemma times_100_close (s : bool) (m : positive) (e : Z) :
  2 ^ 52 ≤ Z.pos m < 2 ^ 53 → -1000 ≤ e ≤ 900 →
  ∃ (m' : positive) (e' : Z),
    SFmul prec emax (S754_finite s m e) (of_int 100) = S754_finite s m' e' ∧
    2 ^ 52 ≤ Z.pos m' < 2 ^ 53 ∧
    (- magnitude m' e'
     <= inject_Z (2 ^ 53) * (magnitude m' e' - 100 * magnitude m e) ∧
     inject_Z (2 ^ 53) * (magnitude m' e' - 100 * magnitude m e)
     <= magnitude m' e')%Q.
Proof.
  intros Hm He.
  assert (H100 : of_int 100 = S754_finite false 7036874417766400 (-46)) by reflexivity.
  rewrite H100.
  destruct (SFmul_normal s false m 7036874417766400 e (-46) Hm ltac:(done) ltac:(lia))
    as (m' & e' & Hmul & Hm' & He' & Herr).
  rewrite xorb_false_r in Hmul.
  exists m', e'. split; [done|]. split; [done|].
  set (k := e' - (e + -46)) in *.
  assert (Hk : 0 ≤ k) by (unfold k; lia).
  assert (H2k : 0 < 2 ^ k) by (apply Z.pow_pos_nonneg; lia).
  apply (scaled_close (2 ^ (e + -46))%Q _ _
           (Z.pos m' * 2 ^ k) (Z.pos m * 7036874417766400)).
  - apply pow2_pos.
  - unfold magnitude. rewrite inject_Z_mult, pow2_Z by lia.
    replace e' with (k + (e + -46)) at 1 by (unfold k; lia).
    rewrite pow2_add. ring.
  - unfold magnitude. rewrite inject_Z_mult.
    replace e with (e + -46 + 46) at 1 by lia. rewrite pow2_add.
    assert (E : (inject_Z 7036874417766400 == 100 * 2 ^ 46)%Q) by reflexivity.
    rewrite E. ring.
  - set (w := 2 ^ k) in *.
    change (2 ^ 53) with 9007199254740992 in *.
    change (2 ^ 52) with 4503599627370496 in *.
    nia.
Qed.


Lemma append_assoc (s1 s2 s3 : string) : (s1 +:+ s2) +:+ s3 = s1 +:+ (s2 +:+ s3).
Proof.
  induction s1 as [|c s1 IH]; [done|].
  change (String c ((s1 +:+ s2) +:+ s3) = String c (s1 +:+ (s2 +:+ s3))).
  f_equal. exact IH.
Qed.


Lemma sum_cells_bound (cs : list cell) : Z.abs (sum_cells cs) ≤ sum_abs cs.
Proof.
  unfold sum_cells, sum_abs. induction cs as [|c cs IH]; cbn [map foldr]; lia.
Qed.


(** Python prints the same: a tie of the exact quotient (1/20000) goes by
    the binary64 product, and a zero over a negative total keeps its
    sign. *)
Example format_percent_samples :
  format_percent (true_divide 1 3) = "33.33%" ∧
  format_percent (true_divide (-1) 8) = "-12.50%" ∧
  format_percent (true_divide 12345 100) = "12345.00%" ∧
  format_percent (true_divide 1 20000) = "0.01%" ∧
  format_percent (true_divide 0 (-5)) = "-0.00%" ∧
  format_percent (true_divide 1 800) = "0.12%".
Proof. repeat split. Qed.




(** The margin of the sample data, printed; a profit of 1 on sales of
    20000 and no profit on a refund of 5. *)
Example profit_margin_samples :
  dict_get "Profit Margin" (compute_kpis df_full) = Some (KText "12.00%") ∧
  dict_get "Profit Margin" (compute_kpis df_zero_sales) = Some (KText "N/A") ∧
  dict_get "Profit Margin" (compute_kpis (df_one_row 20000 1)) = Some (KText "0.01%") ∧
  dict_get "Profit Margin" (compute_kpis (df_one_row (-5) 0)) = Some (KText "-0.00%").
Proof. repeat split. Qed.

(** C8. A dataset with a sales column and no profit column has exactly one
    KPI, 'Total Sales'; 'Total Profit' and 'Profit Margin' are not keys of
    the KPI set. *)
Theorem kpis_without_profit (df : DataFrame) :
  has_column "sales" df = true →
  has_column "profit" df = false →
  compute_kpis df = [("Total Sales", KNum (column_sum "sales" df))] ∧
  dict_get "Total Profit" (compute_kpis df) = None ∧
  dict_get "Profit Margin" (compute_kpis df) = None.
Proof.
  intros Hs Hp. unfold compute_kpis. rewrite Hs, Hp. done.
Qed.

Lemma kpis_without_profit_witness :
  compute_kpis df_no_profit = [("Total Sales", KNum 25)] ∧
  dict_get "Total Profit" (compute_kpis df_no_profit) = None ∧
  dict_get "Profit Margin" (compute_kpis df_no_profit) = None.
Proof.
  apply (kpis_without_profit df_no_profit); reflexivity.
Defined.

Lemma print_each {A} (f : A → string) (l : list A) w :
  foldr (fun x k => print (f x);; k) (mret ()) l w
  = (Ok (), {| cwd := cwd w; stdout := stdout w ++ map f l; stderr := stderr w |}).
Proof.
  revert w. induction l as [|x l IH]; intros w.
  - destruct w. cbn. by rewrite app_nil_r.
  - cbn [foldr map]. unfold mbind, stage_bind. unfold print at 1.
    rewrite IH. cbn. by rewrite <- app_assoc.
Qed.

(** The KPI stage prints and leaves the working directory alone. *)
Lemma kpi_stage_eq df w :
  kpi_stage df w =
  (compute_kpis df,
   {| cwd := cwd w;
      stdout := (stdout w ++ ["
=== KPIs Principales ==="])
                ++ map (fun kv => kv.1 +:+ ": " +:+ kpi_str kv.2) (compute_kpis df);
      stderr := stderr w |}).
Proof.
  unfold kpi_stage, try_except. f_equal.
  unfold mbind, stage_bind. unfold print at 1.
  by rewrite (print_each (fun kv => kv.1 +:+ ": " +:+ kpi_str kv.2)).
Qed.

End Kpis.

(** ** The chart stage *)

Section Charts.

(** Without a profit column the keyword [profit] of [agg] is [None], and
    [agg] raises before any chart is drawn. *)
Lemma monthly_trend_raises_without_profit env df w :
  has_column "year_month" df = true →
  has_column "sales" df = true →
  has_column "profit" df = false →
  monthly_trend env df w = (Raise agg_type_error, w).
Proof.
  intros H1 H2 H3. unfold monthly_trend. rewrite H1, H2, H3. reflexivity.
Qed.

(** C1. On a dataset with year_month and sales and no profit column, in
    surroundings where no plotting call fails, the monthly-trend recipe
    does not produce its chart: the aggregation raises [TypeError], the
    stage reports it, and no chart file at all is written, although the
    columns of all three charts are present. *)
Theorem monthly_trend_fails_without_profit :
  has_column "year_month" df_no_profit = true ∧
  has_column "sales" df_no_profit = true ∧
  has_column "profit" df_no_profit = false ∧
  monthly_trend env_quiet df_no_profit empty_world
    = (Raise agg_type_error, empty_world) ∧
  visualization_stage env_quiet df_no_profit empty_world =
    {| cwd := []; stdout := [];
       stderr := ["Error al generar visualizaciones: Must provide 'func' or tuples of '(column, aggfunc)."] |}.
Proof. repeat split. Qed.

Lemma run_all_app (l1 l2 : list (stage unit)) w :
  run_all (l1 ++ l2) w =
  match run_all l1 w with
  | (Ok _, w1) => run_all l2 w1
  | (Raise e, w1) => (Raise e, w1)
  end.
Proof.
  revert w. induction l1 as [|s l1 IH]; intros w; simpl; [done|].
  unfold mbind, stage_bind. destruct (s w) as [[[]|e] w']; [apply IH|done].
Qed.

Lemma visualization_stage_run_all env df w :
  visualization_stage env df w =
  try_except (run_all (chart_steps env df)) "Error al generar visualizaciones: " w.
Proof.
  unfold visualization_stage, try_except, chart_steps. simpl.
  unfold mbind, stage_bind, mret, stage_ret.
  destruct (monthly_trend env df w) as [[[]|e1] w1]; [|done].
  destruct (subcategory_chart env df w1) as [[[]|e2] w2]; [|done].
  destruct (region_chart env df w2) as [[[]|e3] w3]; done.
Qed.

(** C2 (as the code has it). The three charts run in one guarded block,
    monthly trend, top subcategories, region and segment in that order.
    When one of them raises, the exception is caught at the end of the
    block and reported on the error stream; the world the stage leaves is
    the world at the moment of the exception with that one line added, so
    what was written before stays and no later chart is attempted. *)
Theorem chart_failure_ends_stage env df w done failing rest e w1 w2 :
  chart_steps env df = done ++ failing :: rest →
  run_all done w = (Ok (), w1) →
  failing w1 = (Raise e, w2) →
  visualization_stage env df w
  = reported "Error al generar visualizaciones: " e w2.
Proof.
  intros Hsteps Hdone Hfail.
  rewrite visualization_stage_run_all, Hsteps. unfold try_except.
  rewrite run_all_app, Hdone. simpl. unfold mbind, stage_bind. rewrite Hfail.
  reflexivity.
Qed.

Lemma chart_failure_ends_stage_witness :
  visualization_stage env_show_fails df_full empty_world =
  reported "Error al generar visualizaciones: "
    (ValueError "Mime type rendering requires nbformat>=4.2.0 but it is not installed")
    (write_file ventas_por_mes
       (ChartHtml {| kind := "line";
                     table := [([Time 1], [15; 4]); ([Time 2], [10; -1])];
                     x_axis := "year_month"; y_axis := "sales"; color := None;
                     title := "Tendencia Mensual de Ventas" |}) empty_world).2.
Proof.
  apply (chart_failure_ends_stage env_show_fails df_full empty_world
           [] (monthly_trend env_show_fails df_full)
           [subcategory_chart env_show_fails df_full;
            region_chart env_show_fails df_full]
           _ empty_world); reflexivity.
Defined.

(** C2 (as stated) fails: [fig1.show()] raises for the first chart, and the
    two other charts, whose columns are present and whose own calls do not
    raise, are not written. *)
Lemma one_failure_stops_the_other_charts :
  ¬ isolated_per_chart env_show_fails df_full empty_world.
Proof.
  intros H.
  specialize (H top_subcategorias eq_refl).
  assert (Hq : ∀ c, raises env_show_fails top_subcategorias c = None)
    by (by intros []).
  specialize (H Hq). vm_compute in H.
  apply list_elem_of_singleton in H. discriminate H.
Qed.

End Charts.

(** ** Grouping and the top subcategories *)

Section Grouping.

Lemma cell_leb_total a b : cell_leb a b = true ∨ cell_leb b a = true.
Proof.
  destruct a, b; simpl; auto; try lia.
  destruct (String.leb_total s s0); auto.
Qed.

Lemma cell_leb_antisym a b : cell_leb a b = true → cell_leb b a = true → a = b.
Proof.
  destruct a, b; simpl; try done; intros H1 H2.
  - f_equal; lia.
  - f_equal. by apply String.leb_antisym.
  - f_equal; lia.
Qed.

Lemma cell_leb_trans a b c : cell_leb a b = true → cell_leb b c = true → cell_leb a c = true.
Proof.
  destruct a, b, c; simpl; try done; try lia.
  intros H1%Is_true_true H2%Is_true_true. apply Is_true_true.
  change (String.le s s1). by trans s0.
Qed.

#[local] Instance key_le_total : Total key_le.
Proof.
  intros k1. unfold key_le. induction k1 as [|a k1 IH]; intros [|b k2]; simpl; auto.
  destruct (decide (a = b)) as [->|Hne].
  - rewrite decide_True by done. apply IH.
  - rewrite decide_False by done. apply cell_leb_total.
Qed.

#[local] Instance key_le_antisym : AntiSymm (=) key_le.
Proof.
  intros k1. unfold key_le. induction k1 as [|a k1 IH]; intros [|b k2]; simpl; try done.
  destruct (decide (a = b)) as [->|Hne].
  - rewrite decide_True by done. intros H1 H2. f_equal. by apply IH.
  - rewrite decide_False by done. intros H1 H2. destruct Hne. by apply cell_leb_antisym.
Qed.

#[local] Instance key_le_trans : Transitive key_le.
Proof.
  intros k1. unfold key_le.
  induction k1 as [|a k1 IH]; intros [|b k2] [|c k3]; simpl; try done.
  repeat case_decide; simplify_eq; eauto using cell_leb_trans.
  intros H1 H2. exfalso. eauto using cell_leb_antisym.
Qed.

Lemma remove_dups_Permutation {A} `{EqDecision A} (l1 l2 : list A) :
  l1 ≡ₚ l2 → remove_dups l1 ≡ₚ remove_dups l2.
Proof.
  intros H. apply NoDup_Permutation; try apply NoDup_remove_dups.
  intros x. rewrite !elem_of_remove_dups. by rewrite H.
Qed.

Lemma sum_cells_Permutation l1 l2 : l1 ≡ₚ l2 → sum_cells l1 = sum_cells l2.
Proof.
  unfold sum_cells. induction 1; simpl; lia.
Qed.

Lemma group_keys_Permutation by_ rs1 rs2 :
  rs1 ≡ₚ rs2 → group_keys by_ rs1 = group_keys by_ rs2.
Proof.
  intros H. unfold group_keys, keyed_rows.
  apply (Sorted_unique key_le); try apply Sorted_merge_sort; try apply _.
  rewrite !merge_sort_Permutation.
  apply remove_dups_Permutation. by rewrite H.
Qed.

Lemma group_sum_Permutation by_ col rs1 rs2 k :
  rs1 ≡ₚ rs2 → group_sum by_ col rs1 k = group_sum by_ col rs2 k.
Proof.
  intros H. unfold group_sum. apply sum_cells_Permutation. by rewrite H.
Qed.

Lemma groupby_sum_Permutation by_ col df1 df2 :
  rows df1 ≡ₚ rows df2 → groupby_sum by_ col df1 = groupby_sum by_ col df2.
Proof.
  intros H. unfold groupby_sum. rewrite (group_keys_Permutation _ _ _ H).
  apply map_ext. intros k. f_equal. by apply group_sum_Permutation.
Qed.

Lemma map_fmap {A B} (f : A → B) (l : list A) : map f l = f <$> l.
Proof. induction l as [|x l IH]; [done|]. simpl. by rewrite IH. Qed.

Lemma take_rows_fmap {A B} (f : A → B) idx (l : list A) :
  f <$> take_rows idx l = take_rows idx (f <$> l).
Proof.
  unfold take_rows. induction idx as [|i idx IH]; [done|].
  cbn [omap list_omap]. rewrite list_lookup_fmap.
  destruct (l !! i) as [a|]; cbn [fmap option_fmap option_map].
  - rewrite fmap_cons. f_equal. apply IH.
  - apply IH.
Qed.

Lemma take_rows_app {A} idx1 idx2 (l : list A) :
  take_rows (idx1 ++ idx2) l = take_rows idx1 l ++ take_rows idx2 l.
Proof. apply omap_app. Qed.

Lemma take_rows_reverse {A} idx (l : list A) :
  take_rows (reverse idx) l = reverse (take_rows idx l).
Proof.
  induction idx as [|i idx IH]; [done|].
  rewrite reverse_cons, take_rows_app, IH.
  unfold take_rows at 2 3. cbn [omap list_omap].
  destruct (l !! i); simpl; [by rewrite reverse_cons | by rewrite app_nil_r].
Qed.

Lemma take_rows_mirror {A} idx (l : list A) :
  Forall (fun j => (j < length l)%nat) idx →
  take_rows (map (fun j => (length l - 1 - j)%nat) idx) l = take_rows idx (reverse l).
Proof.
  unfold take_rows. induction 1 as [|j idx Hj _ IH]; [done|].
  cbn [map omap list_omap]. rewrite IH.
  rewrite (reverse_lookup l j Hj).
  by replace (length l - 1 - j)%nat with (length l - S j)%nat by lia.
Qed.



Lemma valid_argsort_in_range items indexer :
  valid_argsort items indexer → Forall (fun j => (j < length items)%nat) indexer.
Proof.
  intros [Hperm _]. apply Forall_forall. intros j Hj.
  rewrite Hperm in Hj. apply elem_of_seq in Hj. lia.
Qed.

Lemma sort_values_descending_sorted argsort (t : list (list cell * Z)) :
  valid_argsort (reverse t.*2) (argsort (reverse t.*2)) →
  Sorted (flip Z.le) (sort_values_descending argsort t).*2.
Proof.
  intros Hv. unfold sort_values_descending, nargsort_descending.
  rewrite (map_fmap snd t), take_rows_fmap, take_rows_reverse.
  apply Sorted_reverse.
  pose proof (valid_argsort_in_range _ _ Hv) as Hr.
  rewrite length_reverse in Hr.
  rewrite (take_rows_mirror _ _ Hr). apply Hv.
Qed.

Lemma groupby_sum_keys by_ col df :
  (groupby_sum by_ col df).*1 = group_keys by_ (rows df).
Proof.
  unfold groupby_sum. induction (group_keys by_ (rows df)) as [|k l IH]; [done|].
  cbn [map]. rewrite fmap_cons. by rewrite IH.
Qed.

Lemma groupby_top_Permutation argsort df1 df2 :
  rows df1 ≡ₚ rows df2 → top_subcategories argsort df1 = top_subcategories argsort df2.
Proof.
  intros H. unfold top_subcategories.
  by rewrite (groupby_sum_Permutation _ _ df1 df2 H).
Qed.




(** Whatever valid [argsort] is used, encounter order cannot decide ties on
    both orders of the same two rows: the table does not depend on the
    order of the rows. *)
Lemma no_argsort_follows_encounter_order (argsort : list Z → list nat) :
  valid_argsort [10; 10] (argsort [10; 10]) →
  ¬ (ties_by_encounter_order ["category"; "sub_category"] (rows df_ties)
       (top_subcategories argsort df_ties)
     ∧ ties_by_encounter_order ["category"; "sub_category"] (reverse (rows df_ties))
         (top_subcategories argsort
            {| columns := columns df_ties; rows := reverse (rows df_ties) |})).
Proof.
  intros [Hperm _] [H1 H2].
  rewrite (groupby_top_Permutation argsort
             {| columns := columns df_ties; rows := reverse (rows df_ties) |} df_ties)
    in H2 by apply reverse_Permutation.
  change (top_subcategories argsort df_ties) with
    (take 20 (take_rows (reverse (map (fun j => (2 - 1 - j)%nat) (argsort [10; 10])))
                [([Str "Furniture"; Str "Chairs"], 10);
                 ([Str "Technology"; Str "Phones"], 10)])) in H1, H2.
  symmetry in Hperm. cbn in Hperm.
  apply Permutation_length_2_inv in Hperm as [E | E]; rewrite E in H1, H2.
  - specialize (H1 0%nat 1%nat
                  ([Str "Furniture"; Str "Chairs"], 10)
                  ([Str "Technology"; Str "Phones"], 10) 1%nat 0%nat).
    assert (Hlt : (1 < 0)%nat); [|lia].
    apply H1; first [lia | reflexivity].
  - specialize (H2 0%nat 1%nat
                  ([Str "Technology"; Str "Phones"], 10)
                  ([Str "Furniture"; Str "Chairs"], 10) 1%nat 0%nat).
    assert (Hlt : (1 < 0)%nat); [|lia].
    apply H2; first [lia | reflexivity].
Qed.

End Grouping.

(** ** The dashboard *)

Section Dashboard.

Lemma foldl_append_one {A} (f : A → string) (l : list A) (init : list string) :
  foldl (fun parts x => parts ++ [f x]) init l = init ++ map f l.
Proof.
  revert init. induction l as [|x l IH]; intros init; simpl.
  - by rewrite app_nil_r.
  - rewrite IH. by rewrite <- app_assoc.
Qed.

Lemma foldl_append_two {A} (f g : A → string) (l : list A) (init : list string) :
  foldl (fun parts x => (parts ++ [f x]) ++ [g x]) init l
  = init ++ flat_map (fun x => [f x; g x]) l.
Proof.
  revert init. induction l as [|x l IH]; intros init; simpl.
  - by rewrite app_nil_r.
  - rewrite IH. by rewrite <- !app_assoc.
Qed.

Lemma section_of_kpi_line kv : section_of_line (kpi_line kv) = None.
Proof. reflexivity. Qed.

Lemma section_of_chart_heading p : section_of_line (chart_heading p) = None.
Proof. reflexivity. Qed.

Lemma section_of_iframe_line p :
  section_of_line (iframe_line p) = Some (ChartSection (iframe_line p)).
Proof. reflexivity. Qed.

Lemma sections_app l1 l2 : sections (l1 ++ l2) = sections l1 ++ sections l2.
Proof. apply omap_app. Qed.

Lemma sections_cons line l :
  sections (line :: l) =
  match section_of_line line with
  | Some s => s :: sections l
  | None => sections l
  end.
Proof. reflexivity. Qed.

Lemma sections_kpi_lines kpis : sections (map kpi_line kpis) = [].
Proof.
  induction kpis as [|kv l IH]; [done|].
  cbn [map]. by rewrite sections_cons, section_of_kpi_line.
Qed.

Lemma sections_charts files :
  sections (flat_map (fun p => [chart_heading p; iframe_line p]) files)
  = chart_sections files.
Proof.
  induction files as [|p l IH]; [done|].
  cbn [flat_map app]. rewrite !sections_cons.
  rewrite section_of_chart_heading, section_of_iframe_line, IH. reflexivity.
Qed.

Lemma dashboard_sections kpis files :
  sections (dashboard_parts kpis files) = KpiSection :: chart_sections files.
Proof.
  unfold dashboard_parts.
  rewrite foldl_append_two, foldl_append_one.
  rewrite !sections_app, sections_kpi_lines, sections_charts.
  change (sections dashboard_head) with (@nil section).
  change (sections [kpi_box_open]) with [KpiSection].
  change (sections ["<h2>🔍 KPIs Principales</h2>"]) with (@nil section).
  change (sections ["</div>"]) with (@nil section).
  change (sections ["</body>"; "</html>"]) with (@nil section).
  simpl. by rewrite app_nil_r.
Qed.

Lemma call_quiet env file c w : quiet env → call env file c w = (Ok (), w).
Proof. intros H. unfold call. by rewrite H. Qed.

Lemma put_file_names n c fs :
  map fst (put_file n c fs)
  = if decide (n ∈ map fst fs) then map fst fs else map fst fs ++ [n].
Proof.
  induction fs as [|[m c0] fs IH]; cbn [put_file map fst].
  - destruct (decide (n ∈ [])) as [H|H]; [by apply elem_of_nil in H|done].
  - destruct (String.eqb_spec m n) as [->|Hne]; cbn [map fst].
    + destruct (decide (n ∈ n :: map fst fs)) as [H|H]; [done|]. destruct H. left.
    + rewrite IH.
      destruct (decide (n ∈ map fst fs)) as [H|H],
               (decide (n ∈ m :: map fst fs)) as [H'|H']; try done.
      * destruct H'. by right.
      * apply elem_of_cons in H' as [->|?]; done.
Qed.

Lemma read_put_file n c fs : read_file n (put_file n c fs) = Some c.
Proof.
  unfold read_file. induction fs as [|[m c0] fs IH]; simpl.
  - by rewrite String.eqb_refl.
  - destruct (String.eqb_spec m n) as [->|Hne]; simpl.
    + by rewrite String.eqb_refl.
    + destruct (String.eqb_spec m n); [done|]. apply IH.
Qed.

Lemma monthly_trend_writes env df w :
  quiet env →
  has_column "year_month" df = true →
  has_column "sales" df = true →
  has_column "profit" df = true →
  ∃ fig, monthly_trend env df w = write_file ventas_por_mes (ChartHtml fig) w.
Proof.
  intros Hq H1 H2 H3. unfold monthly_trend, agg. rewrite H1, H2, H3. simpl.
  rewrite H2, H3. simpl. unfold mbind, stage_bind, lift. simpl.
  rewrite !(call_quiet _ _ _ _ Hq). eexists. reflexivity.
Qed.

Lemma subcategory_chart_writes env df w :
  quiet env →
  has_column "category" df = true →
  has_column "sub_category" df = true →
  has_column "sales" df = true →
  ∃ fig, subcategory_chart env df w = write_file top_subcategorias (ChartHtml fig) w.
Proof.
  intros Hq H1 H2 H3. unfold subcategory_chart. simpl. rewrite H1, H2, H3. simpl.
  unfold mbind, stage_bind. rewrite !(call_quiet _ _ _ _ Hq). simpl.
  rewrite !(call_quiet _ _ _ _ Hq). eexists. reflexivity.
Qed.

Lemma region_chart_writes env df w :
  quiet env →
  has_column "region" df || has_column "segment" df = true →
  has_column "sales" df = true →
  ∃ fig, region_chart env df w = write_file ventas_por_region (ChartHtml fig) w.
Proof.
  intros Hq H1 H2. unfold region_chart. simpl. rewrite H2.
  destruct (has_column "region" df), (has_column "segment" df); try discriminate H1;
    simpl; unfold mbind, stage_bind; rewrite !(call_quiet _ _ _ _ Hq); simpl;
    rewrite !(call_quiet _ _ _ _ Hq); eexists; reflexivity.
Qed.

Lemma no_pages_not_elem names f :
  no_pages names → ends_with ".html" f = true → f ∉ names.
Proof.
  intros Hall Hf Hin. unfold no_pages in Hall. rewrite Forall_forall in Hall.
  specialize (Hall f Hin). congruence.
Qed.

Lemma no_pages_filter names :
  no_pages names →
  filter (fun n => ends_with ".html" n = true ∧ n ≠ dashboard_file) names = [].
Proof.
  induction 1 as [|n l Hn _ IH]; [done|].
  rewrite filter_cons_False; [done|]. intros [? _]. congruence.
Qed.

Lemma put_file_fresh n c fs :
  n ∉ map fst fs → map fst (put_file n c fs) = map fst fs ++ [n].
Proof. intros H. rewrite put_file_names. by rewrite decide_False. Qed.

Lemma visualization_all_written env df w :
  quiet env →
  has_column "year_month" df = true →
  has_column "sales" df = true →
  has_column "profit" df = true →
  has_column "category" df = true →
  has_column "sub_category" df = true →
  has_column "region" df || has_column "segment" df = true →
  ∃ fig1 fig2 fig3,
    visualization_stage env df w =
    {| cwd := put_file ventas_por_region (ChartHtml fig3)
                (put_file top_subcategorias (ChartHtml fig2)
                   (put_file ventas_por_mes (ChartHtml fig1) (cwd w)));
       stdout := stdout w; stderr := stderr w |}.
Proof.
  intros Hq Hym Hs Hp Hc Hsc Hr.
  unfold visualization_stage, try_except. unfold mbind, stage_bind.
  destruct (monthly_trend_writes env df w Hq Hym Hs Hp) as [fig1 ->].
  unfold write_file at 1.
  match goal with |- context [subcategory_chart env df ?w1] =>
    destruct (subcategory_chart_writes env df w1 Hq Hc Hsc Hs) as [fig2 ->] end.
  unfold write_file at 1.
  match goal with |- context [region_chart env df ?w2] =>
    destruct (region_chart_writes env df w2 Hq Hr Hs) as [fig3 ->] end.
  by exists fig1, fig2, fig3.
Qed.

Lemma three_charts_fresh names c1 c2 c3 fs :
  names = map fst fs →
  no_pages names →
  map fst (put_file ventas_por_region c3
             (put_file top_subcategorias c2 (put_file ventas_por_mes c1 fs)))
  = names ++ [ventas_por_mes; top_subcategorias; ventas_por_region].
Proof.
  intros -> Hw.
  assert (H1 : map fst (put_file ventas_por_mes c1 fs) = map fst fs ++ [ventas_por_mes]).
  { apply put_file_fresh. by apply no_pages_not_elem. }
  assert (H2 : map fst (put_file top_subcategorias c2 (put_file ventas_por_mes c1 fs))
               = map fst fs ++ [ventas_por_mes; top_subcategorias]).
  { rewrite put_file_fresh; rewrite H1.
    - by rewrite <- app_assoc.
    - intros [Hin|Hin%list_elem_of_singleton]%elem_of_app; [|discriminate Hin].
      by apply (no_pages_not_elem _ top_subcategorias Hw). }
  rewrite put_file_fresh; rewrite H2.
  - by rewrite <- app_assoc.
  - intros [Hin|Hin]%elem_of_app.
    + by apply (no_pages_not_elem _ ventas_por_region Hw).
    + apply elem_of_cons in Hin as [Hin|Hin%list_elem_of_singleton]; discriminate Hin.
Qed.

(** C4 (as the code has it). In a run where nothing raises, the working
    directory holds no page beforehand and the dataset has the columns of
    the three charts (profit included), the dashboard is written with one
    KPI section followed by one chart section per chart file, three in
    all: the files the directory lists, in the order it lists them, which
    is some order of the monthly, subcategory and region charts. *)
Theorem report_sections env df w :
  quiet env →
  (∀ names, scandir env names ≡ₚ names) →
  no_pages (file_names w) →
  has_column "year_month" df = true →
  has_column "sales" df = true →
  has_column "profit" df = true →
  has_column "category" df = true →
  has_column "sub_category" df = true →
  has_column "region" df || has_column "segment" df = true →
  ∃ html_files,
    html_files
    = filter (fun n => ends_with ".html" n = true ∧ n ≠ dashboard_file)
        (scandir env (file_names w
                      ++ [ventas_por_mes; top_subcategorias; ventas_por_region])) ∧
    html_files ≡ₚ [ventas_por_mes; top_subcategorias; ventas_por_region] ∧
    read_file dashboard_file (cwd (report env df w))
      = Some (Page (dashboard_parts (compute_kpis df) html_files)) ∧
    sections (dashboard_parts (compute_kpis df) html_files)
      = KpiSection :: chart_sections html_files.
Proof.
  intros Hq Hscan Hw Hym Hs Hp Hc Hsc Hr.
  unfold report. rewrite kpi_stage_eq.
  match goal with |- context [visualization_stage env df ?w1] =>
    destruct (visualization_all_written env df w1 Hq Hym Hs Hp Hc Hsc Hr)
      as (fig1 & fig2 & fig3 & ->) end.
  cbn [cwd stdout stderr].
  unfold dashboard_stage, try_except, assemble.
  unfold glob_html. cbn [cwd].
  rewrite (three_charts_fresh (file_names w)) by done.
  set (html_files := filter _ (scandir env _)).
  assert (Hperm : html_files ≡ₚ [ventas_por_mes; top_subcategorias; ventas_por_region]).
  { unfold html_files. rewrite Hscan, filter_app, no_pages_filter by done. reflexivity. }
  exists html_files. split; [done|]. split; [done|]. split; [|apply dashboard_sections].
  destruct html_files as [|p rest] eqn:E.
  { by apply Permutation_nil_l in Hperm. }
  unfold mbind, stage_bind. rewrite (call_quiet _ _ _ _ Hq).
  cbn. apply read_put_file.
Qed.

Lemma report_sections_witness :
  ∃ html_files,
    html_files
    = filter (fun n => ends_with ".html" n = true ∧ n ≠ dashboard_file)
        (scandir env_quiet (file_names empty_world
                            ++ [ventas_por_mes; top_subcategorias; ventas_por_region])) ∧
    html_files ≡ₚ [ventas_por_mes; top_subcategorias; ventas_por_region] ∧
    read_file dashboard_file (cwd (report env_quiet df_full empty_world))
      = Some (Page (dashboard_parts (compute_kpis df_full) html_files)) ∧
    sections (dashboard_parts (compute_kpis df_full) html_files)
      = KpiSection :: chart_sections html_files.
Proof.
  apply (report_sections env_quiet df_full empty_world);
    first [reflexivity | by intros ?? | by intros ? | constructor].
Defined.

(** C4 (as stated) fails.  All three charts succeed in both runs; where the
    directory lists its entries by name the chart sections come in the
    order top subcategories, monthly trend, region; where the directory
    already holds a page the dashboard has four chart sections. *)
Lemma dashboard_order_is_directory_order :
  ¬ report_in_production_order env_by_name df_full empty_world ∧
  ¬ report_in_production_order env_quiet df_full stale_world.
Proof.
  split; intros (parts & Hfile & Hsec); vm_compute in Hfile;
    injection Hfile as <-; vm_compute in Hsec; discriminate Hsec.
Qed.

(** Nothing found, nothing written. *)
Lemma dashboard_stage_no_pages env kpis w :
  glob_html env w = [] →
  dashboard_stage env kpis w =
    {| cwd := cwd w; stdout := stdout w;
       stderr := stderr w ++ [no_charts_message] |}.
Proof.
  intros H. unfold dashboard_stage, try_except, assemble. rewrite H. reflexivity.
Qed.

(** C9 (as the code has it). When the working directory holds no [.html]
    file other than the dashboard itself, none written by this run and
    none left by an earlier one, the assembler writes no dashboard,
    whatever the KPIs, and puts one diagnostic on the error stream: the
    directory and standard output stay as they were. *)
Theorem no_charts_no_dashboard env kpis w :
  (∀ names, scandir env names ⊆ names) →
  (∀ p, p ∈ file_names w → ends_with ".html" p = true → p = dashboard_file) →
  dashboard_stage env kpis w =
    {| cwd := cwd w; stdout := stdout w;
       stderr := stderr w ++ [no_charts_message] |}.
Proof.
  intros Hscan Hnone. apply dashboard_stage_no_pages.
  destruct (glob_html env w) as [|p files] eqn:E; [done|].
  assert (Hp : p ∈ glob_html env w) by (rewrite E; left).
  unfold glob_html in Hp. apply list_elem_of_filter in Hp as [[Hhtml Hne] Hin].
  apply Hscan in Hin. destruct Hne. by apply Hnone.
Qed.

Lemma no_charts_no_dashboard_witness :
  compute_kpis df_sales_only = [("Total Sales", KNum 42)] ∧
  dashboard_stage env_quiet (compute_kpis df_sales_only)
    (visualization_stage env_quiet df_sales_only rerun_world)
  = {| cwd := cwd rerun_world; stdout := []; stderr := [no_charts_message] |}.
Proof.
  split; [reflexivity|].
  apply (no_charts_no_dashboard env_quiet (compute_kpis df_sales_only)
           (visualization_stage env_quiet df_sales_only rerun_world)).
  - intros names p Hp. exact Hp.
  - intros p Hp Hhtml.
    apply elem_of_cons in Hp as [->|Hp]; [reflexivity|].
    apply elem_of_cons in Hp as [->|Hp]; [discriminate Hhtml|].
    by apply elem_of_nil in Hp.
Defined.

(** C9 (as stated) fails.  The dataset has no column any chart needs, so
    the chart stage writes nothing; the directory holds a page from
    elsewhere, and the assembler writes a dashboard with that page as its
    one chart section and reports no error. *)
Lemma stale_page_makes_a_dashboard :
  ¬ empty_report_without_charts env_quiet df_sales_only stale_world ∧
  cwd (visualization_stage env_quiet df_sales_only
         (kpi_stage df_sales_only stale_world).2) = cwd stale_world ∧
  (∃ parts,
     read_file dashboard_file (cwd (report env_quiet df_sales_only stale_world))
     = Some (Page parts) ∧
     sections parts = [KpiSection; ChartSection (iframe_line "index.html")]) ∧
  stderr (report env_quiet df_sales_only stale_world) = [].
Proof.
  split; [|split; [reflexivity|split; [|reflexivity]]].
  - intros H. destruct (H eq_refl) as [Hcwd _]. vm_compute in Hcwd. discriminate Hcwd.
  - eexists. split; [reflexivity|]. vm_compute. reflexivity.
Qed.

(** A page that is written has at least one chart section. *)
Lemma written_dashboard_has_a_chart env kpis w parts :
  read_file dashboard_file (cwd w) = None →
  read_file dashboard_file (cwd (dashboard_stage env kpis w)) = Some (Page parts) →
  ∃ p rest, sections parts = KpiSection :: ChartSection (iframe_line p) :: rest.
Proof.
  intros Hnone. unfold dashboard_stage, try_except, assemble.
  destruct (glob_html env w) as [|p files] eqn:E.
  - unfold eprint. cbn [fst snd cwd]. rewrite Hnone. discriminate.
  - unfold mbind, stage_bind, call.
    destruct (raises env dashboard_file OpenWrite) as [e|].
    + unfold eprint. cbn [fst snd cwd]. rewrite Hnone. discriminate.
    + unfold write_file, print. cbn [fst snd cwd].
      rewrite read_put_file. intros [= <-].
      rewrite dashboard_sections. by exists p, (chart_sections files).
Qed.

End Dashboard.

(** * Further properties of the code *)

(** ** Loading *)

Section LoaderMore.

Context {A : Type}.

Lemma try_encodings_stops_early (parse : list Z → parsed A) (bs : list byte) :
  ∃ encoding text,
    encoding ∈ ["utf-8"; "latin1"] ∧
    decode encoding bs = Ok text ∧
    try_encodings (read_csv parse bs) encodings = of_parsed (parse text).
Proof.
  unfold encodings. cbn [try_encodings].
  destruct (decode "utf-8" bs) as [text|e] eqn:E.
  - exists "utf-8", text. split; [left|]. split; [done|].
    rewrite (read_csv_decoded _ _ _ _ E). by destruct (parse text).
  - apply utf8_raises_decode_error in E as E'. subst e.
    exists "latin1", (map byte_val bs). split; [right; left|]. split; [done|].
    unfold read_csv at 1. rewrite E. simpl.
    rewrite (read_csv_decoded _ _ _ _ (latin1_decodes bs)).
    by destruct (parse _).
Qed.

(** X1. A delimited-text file that exists can fail to load in two ways
    only.  Either opening it raises an [OSError] (a directory, a file that
    may not be read): the error leaves the encoding loop at its first
    candidate and is the error of the load.  Or the file opens and the
    parser rejects the text decoded as utf-8 or, failing that, as latin1:
    the error of the load is then the parser's. *)
Theorem text_load_fails_at_open_or_in_the_parser
    (read_excel : list byte → result A)
    (parse : list Z → parsed A) (src : Source) (e : exn) :
  path_exists src = true →
  suffix src ≠ ".xls" → suffix src ≠ ".xlsx" →
  load read_excel parse src = Raise e →
  (∃ msg, open_error src = Some msg ∧ e = OSError msg) ∨
  (open_error src = None ∧
   ∃ encoding text msg,
     encoding ∈ ["utf-8"; "latin1"] ∧
     decode encoding (file_bytes src) = Ok text ∧
     parse text = ParserError msg ∧ e = OtherError msg).
Proof.
  intros Hex H1 H2 Hload.
  destruct (open_error src) as [msg0|] eqn:Ho.
  - left. exists msg0. split; [done|].
    rewrite (load_not_opened _ _ _ _ Hex Ho) in Hload. by injection Hload as <-.
  - right. split; [done|].
    rewrite (load_opened _ _ _ Hex H1 H2 Ho) in Hload.
    destruct (try_encodings_stops_early parse (file_bytes src))
      as (enc & text & Henc & Hdec & Hres).
    rewrite Hres in Hload. exists enc, text.
    destruct (parse text) as [a|msg]; [discriminate Hload|].
    exists msg. injection Hload as <-. done.
Qed.

Lemma utf8_decode_ascii (raw : list Z) :
  Forall (fun b => 0 ≤ b < 128) raw → utf8_decode raw = Some raw.
Proof.
  induction 1 as [|b l Hb _ IH]; [done|].
  cbn [utf8_decode]. destruct (Z.ltb_spec b 128); [|lia].
  by rewrite IH.
Qed.

Lemma cp1252_decode_ascii (raw : list Z) :
  Forall (fun b => 0 ≤ b < 128) raw → cp1252_decode raw = Some raw.
Proof.
  unfold cp1252_decode. induction 1 as [|b l Hb _ IH]; [done|].
  assert (Hc : cp1252_char b = Some b).
  { unfold cp1252_char. destruct (Z.ltb_spec b 128); [done|lia]. }
  change (mapM cp1252_char (b :: l))
    with (y ← cp1252_char b; k ← mapM cp1252_char l; mret (y :: k)).
  rewrite Hc. cbn. rewrite IH. done.
Qed.

End LoaderMore.

(** X2. Bytes below 0x80 decode to the same text, their own code points,
    under each of the four candidate encodings. *)
Theorem ascii_reads_the_same_in_every_encoding (bs : list byte) (encoding : string) :
  Forall (fun b => byte_val b < 128) bs →
  encoding ∈ encodings →
  decode encoding bs = Ok (map byte_val bs).
Proof.
  intros Hbs Henc.
  assert (Hraw : Forall (fun b => 0 ≤ b < 128) (map byte_val bs)).
  { apply Forall_map. eapply Forall_impl; [exact Hbs|].
    intros b Hb. split; [|done]. unfold byte_val. lia. }
  unfold encodings in Henc. unfold decode.
  repeat (apply elem_of_cons in Henc as [->|Henc]); [..|by apply elem_of_nil in Henc];
    cbn [String.eqb Ascii.eqb Bool.eqb orb]; unfold or_decode_error.
  - by rewrite utf8_decode_ascii.
  - done.
  - done.
  - by rewrite cp1252_decode_ascii.
Qed.

Lemma ascii_reads_the_same_in_every_encoding_witness :
  decode "cp1252" [x63; x61]%byte = Ok [99; 97].
Proof.
  apply (ascii_reads_the_same_in_every_encoding [x63; x61]%byte "cp1252").
  - repeat constructor.
  - unfold encodings. set_solver.
Defined.

(** ** KPIs, continued *)

Section KpisMore.

(** X3. Without a sales column there is no KPI at all, not even Total
    Profit when a profit column exists; the KPI stage then prints its
    heading and nothing else. *)
Theorem kpis_need_sales (df : DataFrame) :
  has_column "sales" df = false →
  compute_kpis df = [] ∧
  ∀ w, (kpi_stage df w).2 =
       {| cwd := cwd w; stdout := stdout w ++ ["
=== KPIs Principales ==="]; stderr := stderr w |}.
Proof.
  intros Hs. assert (Hk : compute_kpis df = []).
  { unfold compute_kpis. by rewrite Hs. }
  split; [done|]. intros w. rewrite kpi_stage_eq, Hk. cbn.
  by rewrite app_nil_r.
Qed.

Lemma column_sum_Permutation c df1 df2 :
  rows df1 ≡ₚ rows df2 → column_sum c df1 = column_sum c df2.
Proof.
  intros H. unfold column_sum. apply sum_cells_Permutation. by rewrite H.
Qed.

Lemma foldr_add_Permutation (l1 l2 : list Z) :
  l1 ≡ₚ l2 → foldr Z.add 0 l1 = foldr Z.add 0 l2.
Proof.
  induction 1 as [|x l1 l2 _ IH|x y l|l1 l2 l3 _ IH1 _ IH2]; cbn [foldr];
    [done|by rewrite IH|lia|congruence].
Qed.

Lemma summed_exactly_Permutation c df1 df2 :
  rows df1 ≡ₚ rows df2 → summed_exactly c df1 → summed_exactly c df2.
Proof.
  intros Hr [Hnum Hsum]. split.
  - apply forallb_forall. intros x Hx. rewrite forallb_forall in Hnum.
    apply Hnum. apply list_elem_of_In. apply list_elem_of_In in Hx.
    rewrite map_fmap in *. by rewrite Hr.
  - assert (E : sum_abs (map (get c) (rows df2)) = sum_abs (map (get c) (rows df1))).
    { unfold sum_abs. apply foldr_add_Permutation.
      rewrite !map_fmap. by rewrite Hr. }
    by rewrite E.
Qed.

(** X4. Where the totals are computed exactly, the KPIs do not depend on
    the order of the rows; the reordered rows are then summed exactly as
    well. *)
Theorem kpis_ignore_row_order (df1 df2 : DataFrame) :
  columns df1 = columns df2 →
  rows df1 ≡ₚ rows df2 →
  summed_exactly "sales" df1 →
  summed_exactly "profit" df1 →
  compute_kpis df1 = compute_kpis df2 ∧
  summed_exactly "sales" df2 ∧ summed_exactly "profit" df2.
Proof.
  intros Hc Hr Hs Hp. split.
  - unfold compute_kpis, has_column. rewrite Hc.
    by rewrite !(column_sum_Permutation _ df1 df2 Hr).
  - split; by apply (summed_exactly_Permutation _ df1 df2).
Qed.

Lemma pretty_digit (d : Z) :
  0 ≤ d < 10 → ∃ c : ascii, pretty d = String c EmptyString ∧
                            (48 ≤ Z.of_N (N_of_ascii c) ≤ 57) ∧
                            Z.of_N (N_of_ascii c) - 48 = d.
Proof.
  intros Hd.
  assert (d = 0 ∨ d = 1 ∨ d = 2 ∨ d = 3 ∨ d = 4 ∨ d = 5 ∨ d = 6 ∨ d = 7
          ∨ d = 8 ∨ d = 9) as Hcases by lia.
  repeat destruct Hcases as [->|Hcases]; try subst d;
    eexists; (split; [reflexivity|]); repeat split; vm_compute; congruence.
Qed.

(** X5. The text of a margin is an optional minus sign, the integer
    part, a point, exactly two decimal digits and a percent sign.  For a
    binary64 number of 53 significant bits whose exponent is away from the
    ends of the range, the minus sign is its sign bit, and the number
    written is its hundredfold, off by at most half a hundredth and, for
    the rounding of the multiplication, a 2^-52 part of the hundredfold. *)
Theorem format_percent_two_decimals (s : bool) (m : positive) (e : Z) :
  2 ^ 52 ≤ Z.pos m < 2 ^ 53 →
  -1000 ≤ e ≤ 900 →
  ∃ (h : Z) (d1 d2 : ascii),
    format_percent (S754_finite s m e)
    = (if s then "-" else "") +:+ pretty (h / 100) +:+ "."
      +:+ String d1 (String d2 "%") ∧
    0 ≤ h ∧
    h = 100 * (h / 100) + 10 * (Z.of_N (N_of_ascii d1) - 48)
        + (Z.of_N (N_of_ascii d2) - 48) ∧
    48 ≤ Z.of_N (N_of_ascii d1) ≤ 57 ∧ 48 ≤ Z.of_N (N_of_ascii d2) ≤ 57 ∧
    (Qabs (inject_Z h / 100 - 100 * magnitude m e)
     <= 1 / 200 + 100 * magnitude m e / inject_Z (2 ^ 52))%Q.
Proof.
  intros Hm He.
  destruct (times_100_close s m e Hm He) as (m' & e' & Hmul & Hm' & H1 & H2).
  set (h := round_half_even (magnitude m' e' * 100)).
  assert (Hh : 0 ≤ h).
  { apply round_half_even_nonneg.
    apply Qmult_le_0_compat; [apply Qlt_le_weak, magnitude_pos|done]. }
  destruct (pretty_digit (h mod 100 / 10)) as (d1 & E1 & R1 & V1).
  { pose proof (Z.mod_pos_bound h 100 ltac:(lia)).
    split; [apply Z.div_pos; lia | apply Z.div_lt_upper_bound; lia]. }
  destruct (pretty_digit (h mod 10)) as (d2 & E2 & R2 & V2).
  { apply Z.mod_pos_bound. lia. }
  exists h, d1, d2. split; [|split; [done|split; [|split; [done|split; [done|]]]]].
  - unfold format_percent. rewrite Hmul. cbn [format_fixed]. fold h.
    rewrite E1, E2, !append_assoc. reflexivity.
  - rewrite V1, V2.
    pose proof (Z.div_mod h 100 ltac:(lia)).
    pose proof (Z.div_mod (h mod 100) 10 ltac:(lia)).
    pose proof (Z.div_mod h 10 ltac:(lia)).
    pose proof (Z.mod_pos_bound h 100 ltac:(lia)).
    pose proof (Z.mod_pos_bound (h mod 100) 10 ltac:(lia)).
    pose proof (Z.mod_pos_bound h 10 ltac:(lia)).
    lia.
  - destruct (round_half_even_close (magnitude m' e' * 100)) as [H3 H4].
    fold h in H3, H4.
    pose proof (magnitude_pos m e) as Hx.
    change (inject_Z (2 ^ 53)) with (9007199254740992 # 1)%Q in *.
    unfold Qdiv.
    change (/ inject_Z (2 ^ 52))%Q with (1 # 4503599627370496)%Q.
    change (/ 100)%Q with (1 # 100)%Q. change (/ 200)%Q with (1 # 200)%Q.
    apply Qabs_Qle_condition. split; lra.
Qed.


End KpisMore.

(** ** Grouping, continued *)

Section GroupingMore.

#[local] Existing Instance key_le_total.
#[local] Existing Instance key_le_trans.
#[local] Existing Instance key_le_antisym.

Lemma elem_of_group_keys by_ rs k :
  k ∈ group_keys by_ rs ↔ ∃ r, r ∈ rs ∧ key_of by_ r = k ∧ complete_key k.
Proof.
  unfold group_keys, keyed_rows, complete_key.
  rewrite merge_sort_Permutation, elem_of_remove_dups, map_fmap, list_elem_of_fmap.
  split.
  - intros (r & -> & [Hk Hr]%list_elem_of_filter). by exists r.
  - intros (r & Hr & <- & Hk). exists r. split; [done|].
    by apply list_elem_of_filter.
Qed.

Lemma NoDup_group_keys by_ rs : NoDup (group_keys by_ rs).
Proof.
  unfold group_keys. rewrite merge_sort_Permutation. apply NoDup_remove_dups.
Qed.

(** X7. The groups of a grouped sum are the distinct keys of the rows
    whose key has no missing part, each once, in ascending key order, and
    the value of a group is the sum of its rows. *)
Theorem groups_are_the_distinct_complete_keys by_ col (df : DataFrame) :
  let keys := (groupby_sum by_ col df).*1 in
  NoDup keys ∧
  Sorted key_le keys ∧
  (∀ k, k ∈ keys ↔ ∃ r, r ∈ rows df ∧ key_of by_ r = k ∧ existsb is_nan k = false) ∧
  (∀ k s, (k, s) ∈ groupby_sum by_ col df →
          s = sum_cells (map (get col) (filter (fun r => key_of by_ r = k) (rows df)))).
Proof.
  intros keys. unfold keys. rewrite groupby_sum_keys.
  split; [apply NoDup_group_keys|].
  split; [apply Sorted_merge_sort; apply _|].
  split; [apply elem_of_group_keys|].
  intros k s. unfold groupby_sum. rewrite map_fmap.
  intros (k' & [= -> ->] & _)%list_elem_of_fmap. done.
Qed.

Lemma list_filter_ext_in {B} (P Q : B → Prop) `{∀ x, Decision (P x)}
    `{∀ x, Decision (Q x)} (l : list B) :
  (∀ x, x ∈ l → P x ↔ Q x) → filter P l = filter Q l.
Proof.
  induction l as [|x l IH]; intros Hext; [done|].
  rewrite !filter_cons.
  assert (Hx : P x ↔ Q x) by (apply Hext; left).
  rewrite IH by (intros y Hy; apply Hext; by right).
  destruct (decide (P x)), (decide (Q x)); tauto.
Qed.

Lemma sum_Z_app l1 l2 : sum_Z (l1 ++ l2) = sum_Z l1 + sum_Z l2.
Proof. unfold sum_Z. induction l1 as [|x l IH]; simpl; lia. Qed.

Lemma sum_indicator (keys : list (list cell)) (k0 : list cell) (v : Z) :
  NoDup keys →
  sum_Z (map (fun k => if decide (k0 = k) then v else 0) keys)
  = if decide (k0 ∈ keys) then v else 0.
Proof.
  induction 1 as [|k l Hk Hl IH]; [done|].
  cbn [map]. unfold sum_Z in *. cbn [foldr]. rewrite IH.
  destruct (decide (k0 = k)) as [->|Hne].
  - rewrite decide_False by done. rewrite decide_True by left. lia.
  - destruct (decide (k0 ∈ l)) as [Hin|Hnin].
    + rewrite decide_True by (by right). lia.
    + rewrite decide_False; [lia|]. intros [?|?]%elem_of_cons; done.
Qed.

Lemma sum_of_group_sums by_ col (keys : list (list cell)) rs :
  NoDup keys →
  sum_Z (map (group_sum by_ col rs) keys)
  = sum_cells (map (get col) (filter (fun r => key_of by_ r ∈ keys) rs)).
Proof.
  intros Hnd. induction rs as [|r rs IH].
  - unfold group_sum. cbn. unfold sum_Z. induction keys; simpl; [done|].
    inversion Hnd; subst. rewrite IHkeys by done. done.
  - assert (Hstep : ∀ k, group_sum by_ col (r :: rs) k
                         = (if decide (key_of by_ r = k) then num (get col r) else 0)
                           + group_sum by_ col rs k).
    { intros k. unfold group_sum. rewrite filter_cons.
      destruct (decide (key_of by_ r = k)); cbn; unfold sum_cells; simpl; lia. }
    assert (Hsplit : sum_Z (map (group_sum by_ col (r :: rs)) keys)
                     = sum_Z (map (fun k => if decide (key_of by_ r = k)
                                            then num (get col r) else 0) keys)
                       + sum_Z (map (group_sum by_ col rs) keys)).
    { clear -Hstep. induction keys as [|k l IHl]; [done|].
      cbn [map]. unfold sum_Z in *. cbn [foldr]. rewrite IHl, Hstep. lia. }
    rewrite Hsplit, IH, sum_indicator by done.
    rewrite filter_cons. destruct (decide (key_of by_ r ∈ keys)); cbn.
    + unfold sum_cells. simpl. lia.
    + lia.
Qed.

Lemma filter_group_keys by_ (rs : list (gmap string cell)) :
  filter (fun r => key_of by_ r ∈ group_keys by_ rs) rs = keyed_rows by_ rs.
Proof.
  unfold keyed_rows.
  induction rs as [|r rs IH] using rev_ind; [done|].
  rewrite !filter_app, !filter_cons, !filter_nil.
  assert (Hkeys : ∀ k, k ∈ group_keys by_ (rs ++ [r])
                       ↔ k ∈ group_keys by_ rs ∨ (k = key_of by_ r ∧ complete_key k)).
  { intros k. rewrite !elem_of_group_keys. setoid_rewrite elem_of_app.
    setoid_rewrite list_elem_of_singleton. split.
    - intros (r0 & [Hr0| ->] & <- & Hc); [left; by exists r0 | by right].
    - intros [(r0 & Hr0 & <- & Hc)|[-> Hc]]; [exists r0 | exists r]; auto. }
  assert (Hrs : filter (fun r0 => key_of by_ r0 ∈ group_keys by_ (rs ++ [r])) rs
                = filter (fun r0 => key_of by_ r0 ∈ group_keys by_ rs) rs).
  { apply list_filter_ext_in. intros r0 Hr0. rewrite Hkeys. split; [|by left].
    intros [?|[_ Hc]]; [done|]. apply elem_of_group_keys. by exists r0. }
  rewrite Hrs, IH. f_equal.
  destruct (decide (existsb is_nan (key_of by_ r) = false)) as [Hc|Hc].
  - rewrite decide_True; [done|]. apply Hkeys. by right.
  - rewrite decide_False; [done|]. intros (r' & _ & _ & Hc')%elem_of_group_keys. done.
Qed.

Lemma sum_abs_filter (P : gmap string cell → Prop) `{∀ r, Decision (P r)} col
    (rs : list (gmap string cell)) :
  sum_abs (map (get col) (filter P rs)) ≤ sum_abs (map (get col) rs).
Proof.
  unfold sum_abs. induction rs as [|r rs IH]; [done|].
  rewrite filter_cons. destruct (decide (P r)); cbn [map foldr]; lia.
Qed.

Lemma group_sum_bound by_ col (df : DataFrame) k :
  summed_exactly col df → Z.abs (group_sum by_ col (rows df) k) < 2 ^ 53.
Proof.
  intros [_ Hexact]. unfold group_sum.
  pose proof (sum_cells_bound
                (map (get col) (filter (fun r => key_of by_ r = k) (rows df)))).
  pose proof (sum_abs_filter (fun r => key_of by_ r = k) col (rows df)). lia.
Qed.

(** X8. Where the column is summed exactly, every group sum stays below
    2^53 in magnitude, so it is the sum pandas computes for the group, and
    the group sums add up to the sum of the column over the rows that have
    a complete key: grouping loses the rows with a missing key and nothing
    else. *)
Theorem group_sums_add_up by_ col (df : DataFrame) :
  summed_exactly col df →
  Forall (fun row => Z.abs row.2 < 2 ^ 53) (groupby_sum by_ col df) ∧
  Z.abs (sum_cells (map (get col) (keyed_rows by_ (rows df)))) < 2 ^ 53 ∧
  sum_Z (groupby_sum by_ col df).*2
  = sum_cells (map (get col) (keyed_rows by_ (rows df))).
Proof.
  intros Hes. pose proof Hes as [_ Hexact].
  split.
  { apply Forall_forall. intros row Hrow. unfold groupby_sum in Hrow.
    rewrite map_fmap in Hrow. apply list_elem_of_fmap in Hrow as (k & -> & _).
    cbn [snd]. by apply group_sum_bound. }
  split.
  { unfold keyed_rows.
    pose proof (sum_cells_bound
                  (map (get col)
                     (filter (fun r => existsb is_nan (key_of by_ r) = false) (rows df)))).
    pose proof (sum_abs_filter (fun r => existsb is_nan (key_of by_ r) = false)
                  col (rows df)). lia. }
  assert (Hs : (groupby_sum by_ col df).*2
               = map (group_sum by_ col (rows df)) (group_keys by_ (rows df))).
  { unfold groupby_sum. induction (group_keys by_ (rows df)) as [|k l IH]; [done|].
    cbn [map]. rewrite fmap_cons. by rewrite IH. }
  rewrite Hs, sum_of_group_sums by apply NoDup_group_keys.
  by rewrite filter_group_keys.
Qed.

(** X10. With year_month, sales and profit present the monthly table is
    built: one row per month, months ascending; where sales and profit are
    summed exactly, every entry of the table stays below 2^53 in
    magnitude, so it is the sum pandas computes for the month, and the
    sales and profit columns of the table add up to the totals over the
    rows that have a month. *)
Theorem monthly_table_totals (df : DataFrame) :
  has_column "year_month" df = true →
  has_column "sales" df = true →
  has_column "profit" df = true →
  summed_exactly "sales" df →
  summed_exactly "profit" df →
  ∃ by_month,
    agg ["year_month"] df
      [("sales", Some ("sales", "sum")); ("profit", Some ("profit", "sum"))]
    = Ok by_month ∧
    Sorted key_le by_month.*1 ∧
    NoDup by_month.*1 ∧
    Forall (fun row => Forall (fun v => Z.abs v < 2 ^ 53) row.2) by_month ∧
    sum_Z (map (fun row => row.2 !!! 0%nat) by_month)
    = sum_cells (map (get "sales") (keyed_rows ["year_month"] (rows df))) ∧
    sum_Z (map (fun row => row.2 !!! 1%nat) by_month)
    = sum_cells (map (get "profit") (keyed_rows ["year_month"] (rows df))).
Proof.
  intros Hym Hs Hp Hes Hep.
  set (keys := group_keys ["year_month"] (rows df)).
  exists (map (fun k => (k, [group_sum ["year_month"] "sales" (rows df) k;
                             group_sum ["year_month"] "profit" (rows df) k])) keys).
  split.
  { unfold agg. cbn. rewrite Hs, Hp. reflexivity. }
  assert (Hk : (map (fun k => (k, [group_sum ["year_month"] "sales" (rows df) k;
                                   group_sum ["year_month"] "profit" (rows df) k]))
                  keys).*1 = keys).
  { induction keys as [|k l IH]; [done|]. cbn [map]. rewrite fmap_cons. by rewrite IH. }
  rewrite Hk. split; [apply Sorted_merge_sort; apply _|].
  split; [apply NoDup_group_keys|].
  split.
  { apply Forall_forall. intros row Hrow. rewrite map_fmap in Hrow.
    apply list_elem_of_fmap in Hrow as (k & -> & _). cbn [snd].
    repeat constructor; by apply group_sum_bound. }
  rewrite !map_map. cbn.
  rewrite <- !filter_group_keys, <- !sum_of_group_sums by apply NoDup_group_keys.
  done.
Qed.

Lemma take_rows_from {B} (pre l : list B) :
  take_rows (seq (length pre) (length l)) (pre ++ l) = l.
Proof.
  unfold take_rows. revert pre. induction l as [|x l IH]; intros pre; [done|].
  cbn [length seq omap list_omap]. rewrite list_lookup_middle by done.
  f_equal. specialize (IH (pre ++ [x])).
  rewrite length_app, Nat.add_1_r, <- app_assoc in IH. exact IH.
Qed.

Lemma take_rows_Permutation {B} (indexer : list nat) (l : list B) :
  indexer ≡ₚ seq 0 (length l) → take_rows indexer l ≡ₚ l.
Proof.
  intros H. unfold take_rows. rewrite H.
  change (take_rows (seq (length (@nil B)) (length l)) ([] ++ l) ≡ₚ l).
  by rewrite take_rows_from.
Qed.

Lemma sort_values_descending_Permutation argsort (t : list (list cell * Z)) :
  valid_argsort (reverse t.*2) (argsort (reverse t.*2)) →
  sort_values_descending argsort t ≡ₚ t.
Proof.
  intros Hv. pose proof (valid_argsort_in_range _ _ Hv) as Hr.
  rewrite length_reverse, length_fmap in Hr.
  unfold sort_values_descending, nargsort_descending.
  rewrite (map_fmap snd t), length_fmap, take_rows_reverse, reverse_Permutation.
  rewrite (take_rows_mirror _ _ Hr).
  rewrite take_rows_Permutation; [apply reverse_Permutation|].
  destruct Hv as [Hp _]. by rewrite !length_reverse, length_fmap in *.
Qed.

(** X9. Whenever numpy's [argsort] does its job, the top-subcategories
    table holds [min 20 n] of the [n] groups, and every group left out has
    summed sales no larger than any group kept. *)
Theorem top_subcategories_are_the_largest (argsort : list Z → list nat) (df : DataFrame) :
  let cat := groupby_sum ["category"; "sub_category"] "sales" df in
  valid_argsort (reverse cat.*2) (argsort (reverse cat.*2)) →
  let top := top_subcategories argsort df in
  length top = Nat.min 20 (length cat) ∧
  ∃ dropped,
    cat ≡ₚ top ++ dropped ∧
    ∀ r r', r ∈ top → r' ∈ dropped → r'.2 ≤ r.2.
Proof.
  intros cat Hv top. unfold top, top_subcategories, head. fold cat.
  pose proof (sort_values_descending_Permutation argsort cat Hv) as Hperm.
  pose proof (sort_values_descending_sorted argsort cat Hv) as Hsorted.
  set (sorted := sort_values_descending argsort cat) in *.
  split.
  - rewrite length_take. by rewrite (Permutation_length Hperm).
  - exists (drop 20 sorted). split.
    + by rewrite take_drop.
    + intros r r' Hr Hr'.
      apply (Sorted_StronglySorted (flip Z.le)) in Hsorted.
      rewrite <- (take_drop 20 sorted), fmap_app in Hsorted.
      apply (StronglySorted_app_1_elem_of (flip Z.le) _ _ r.2 r'.2) in Hsorted;
        [done|by apply list_elem_of_fmap_2..].
Qed.

End GroupingMore.

(** ** The chart stage, continued *)

Section ChartsMore.

Lemma read_put_file_other n m c fs :
  n ≠ m → read_file n (put_file m c fs) = read_file n fs.
Proof.
  intros Hne. unfold read_file. induction fs as [|[k c0] fs IH]; cbn.
  - destruct (String.eqb_spec m n); [congruence|done].
  - destruct (String.eqb_spec k m) as [->|Hkm]; cbn.
    + destruct (String.eqb_spec m n); [congruence|done].
    + destruct (String.eqb_spec k n); [done|apply IH].
Qed.

Lemma elem_of_put_file_names f n c fs :
  f ∈ map fst (put_file n c fs) ↔ f ∈ map fst fs ∨ f = n.
Proof.
  rewrite put_file_names. destruct (decide (n ∈ map fst fs)) as [Hin|Hnin].
  - split; [by left|]. intros [?| ->]; done.
  - rewrite elem_of_app, list_elem_of_singleton. done.
Qed.

Local Ltac step_call env name c :=
  unfold call at 1; destruct (raises env name c);
  [intros [= <- <-]; repeat split; by left|].

Lemma monthly_trend_frame env df w r w' :
  monthly_trend env df w = (r, w') → writes_at_most ventas_por_mes w w'.
Proof.
  unfold monthly_trend, writes_at_most.
  destruct (has_column "year_month" df && has_column "sales" df);
    [|intros [= <- <-]; repeat split; by left].
  unfold mbind, stage_bind, lift.
  destruct (agg _ _ _) as [by_month|e]; [|intros [= <- <-]; repeat split; by left].
  step_call env ventas_por_mes PxFigure.
  step_call env ventas_por_mes UpdateLayout.
  step_call env ventas_por_mes WriteHtml.
  unfold write_file at 1.
  unfold call. destruct (raises env ventas_por_mes Show);
    intros [= <- <-]; repeat split; right; eexists; reflexivity.
Qed.

Lemma subcategory_chart_frame env df w r w' :
  subcategory_chart env df w = (r, w') → writes_at_most top_subcategorias w w'.
Proof.
  unfold subcategory_chart, writes_at_most.
  destruct (forallb _ _); [|intros [= <- <-]; repeat split; by left].
  unfold mbind, stage_bind.
  step_call env top_subcategorias PxFigure.
  step_call env top_subcategorias UpdateLayout.
  step_call env top_subcategorias WriteHtml.
  unfold write_file at 1.
  unfold call. destruct (raises env top_subcategorias Show);
    intros [= <- <-]; repeat split; right; eexists; reflexivity.
Qed.

Lemma region_chart_frame env df w r w' :
  region_chart env df w = (r, w') → writes_at_most ventas_por_region w w'.
Proof.
  unfold region_chart, writes_at_most.
  destruct (_ && _); [|intros [= <- <-]; repeat split; by left].
  unfold mbind, stage_bind.
  step_call env ventas_por_region PxFigure.
  step_call env ventas_por_region WriteHtml.
  unfold write_file at 1.
  unfold call. destruct (raises env ventas_por_region Show);
    intros [= <- <-]; repeat split; right; eexists; reflexivity.
Qed.

Lemma writes_at_most_read name w w' n :
  writes_at_most name w w' → n ≠ name →
  read_file n (cwd w') = read_file n (cwd w).
Proof.
  intros (_ & _ & [-> | [c ->]]) Hne; [done|]. by apply read_put_file_other.
Qed.

(** X11. Whatever raises, the chart stage leaves standard output alone,
    adds at most one line to the error stream, and leaves every file
    other than its three chart files as it was. *)
Theorem chart_stage_touches_only_its_files env df w :
  let w' := visualization_stage env df w in
  stdout w' = stdout w ∧
  (stderr w' = stderr w ∨
   ∃ e, stderr w' = stderr w ++ ["Error al generar visualizaciones: " +:+ exn_str e]) ∧
  ∀ n, n ∉ [ventas_por_mes; top_subcategorias; ventas_por_region] →
       read_file n (cwd w') = read_file n (cwd w).
Proof.
  cbn zeta. unfold visualization_stage, try_except. unfold mbind, stage_bind.
  destruct (monthly_trend env df w) as [r1 w1] eqn:E1.
  pose proof (monthly_trend_frame _ _ _ _ _ E1) as F1.
  assert (Hother : ∀ n, n ∉ [ventas_por_mes; top_subcategorias; ventas_por_region] →
                        n ≠ ventas_por_mes ∧ n ≠ top_subcategorias ∧ n ≠ ventas_por_region).
  { intros n Hn. repeat split; intros ->; apply Hn;
      first [left | right; left | right; right; left]. }
  destruct r1 as [[]|e1].
  2:{ destruct F1 as (Ho & He & _). cbn. rewrite Ho, He.
      split; [done|]. split; [right; by exists e1|].
      intros n Hn. apply (writes_at_most_read _ _ _ _ (monthly_trend_frame _ _ _ _ _ E1)).
      by apply Hother. }
  destruct (subcategory_chart env df w1) as [r2 w2] eqn:E2.
  pose proof (subcategory_chart_frame _ _ _ _ _ E2) as F2.
  destruct r2 as [[]|e2].
  2:{ destruct F1 as (Ho1 & He1 & _), F2 as (Ho2 & He2 & _). cbn.
      rewrite Ho2, He2, Ho1, He1.
      split; [done|]. split; [right; by exists e2|].
      intros n Hn. destruct (Hother n Hn) as (? & ? & ?).
      rewrite (writes_at_most_read _ _ _ _ (subcategory_chart_frame _ _ _ _ _ E2)) by done.
      by apply (writes_at_most_read _ _ _ _ (monthly_trend_frame _ _ _ _ _ E1)). }
  destruct (region_chart env df w2) as [r3 w3] eqn:E3.
  pose proof (region_chart_frame _ _ _ _ _ E3) as F3.
  assert (Hread : ∀ n, n ∉ [ventas_por_mes; top_subcategorias; ventas_por_region] →
                       read_file n (cwd w3) = read_file n (cwd w)).
  { intros n Hn. destruct (Hother n Hn) as (? & ? & ?).
    rewrite (writes_at_most_read _ _ _ _ F3) by done.
    rewrite (writes_at_most_read _ _ _ _ F2) by done.
    by apply (writes_at_most_read _ _ _ _ F1). }
  destruct F1 as (Ho1 & He1 & _), F2 as (Ho2 & He2 & _), F3 as (Ho3 & He3 & _).
  destruct r3 as [[]|e3]; cbn; rewrite ?Ho3, ?He3, ?Ho2, ?He2, ?Ho1, ?He1.
  - split; [done|]. split; [by left|done].
  - split; [done|]. split; [right; by exists e3|done].
Qed.

Lemma step_if_applicable (b : bool) name c (step : stage unit) w :
  (b = true → step w = write_file name c w) →
  (b = false → step w = (Ok (), w)) →
  ∃ w1, step w = (Ok (), w1) ∧ stdout w1 = stdout w ∧ stderr w1 = stderr w ∧
        ∀ f, f ∈ file_names w1 ↔ f ∈ file_names w ∨ (b = true ∧ f = name).
Proof.
  intros Ht Hf. destruct b.
  - rewrite Ht by done. eexists. split; [reflexivity|]. cbn. repeat split; try done.
    + intros [?| ->]%elem_of_put_file_names; [by left | by right].
    + intros [?|[_ ->]]; apply elem_of_put_file_names; [by left | by right].
  - rewrite Hf by done. exists w. repeat split; try done; [by left|].
    intros [?|[? _]]; done.
Qed.

(** X12. When no call raises and the monthly chart is not asked for
    without a profit column, the chart stage reports nothing and the
    directory afterwards holds what it held plus exactly the charts whose
    columns are present. *)
Theorem charts_written_follow_the_columns env df w :
  quiet env →
  (has_column "year_month" df && has_column "sales" df = true →
   has_column "profit" df = true) →
  let w' := visualization_stage env df w in
  stdout w' = stdout w ∧ stderr w' = stderr w ∧
  ∀ f, f ∈ file_names w' ↔ f ∈ file_names w ∨ applicable f df = true.
Proof.
  intros Hq Hprofit. cbn zeta.
  unfold visualization_stage, try_except. unfold mbind, stage_bind.
  set (b1 := has_column "year_month" df && has_column "sales" df) in *.
  set (b2 := forallb (fun c => has_column c df) ["category"; "sub_category"; "sales"]).
  set (b3 := (has_column "region" df || has_column "segment" df) && has_column "sales" df).
  assert (H1 : ∃ c, (b1 = true → monthly_trend env df w = write_file ventas_por_mes c w)
                    ∧ (b1 = false → monthly_trend env df w = (Ok (), w))).
  { destruct b1 eqn:E.
    - apply andb_prop in E as [Hym Hs].
      destruct (monthly_trend_writes env df w Hq Hym Hs (Hprofit eq_refl)) as [fig ->].
      by exists (ChartHtml fig).
    - exists Blob. split; [done|]. intros _. unfold monthly_trend. fold b1. by rewrite E. }
  destruct H1 as (c1 & H1t & H1f).
  destruct (step_if_applicable b1 _ c1 _ w H1t H1f) as (w1 & -> & Ho1 & He1 & Hn1).
  assert (H2 : ∃ c, (b2 = true → subcategory_chart env df w1
                                 = write_file top_subcategorias c w1)
                    ∧ (b2 = false → subcategory_chart env df w1 = (Ok (), w1))).
  { destruct b2 eqn:E.
    - pose proof E as E'. unfold b2 in E'. cbn in E'.
      apply andb_prop in E' as [Hc E']. apply andb_prop in E' as [Hsc E'].
      apply andb_prop in E' as [Hs _].
      destruct (subcategory_chart_writes env df w1 Hq Hc Hsc Hs) as [fig ->].
      by exists (ChartHtml fig).
    - exists Blob. split; [done|]. intros _. unfold subcategory_chart. fold b2.
      by rewrite E. }
  destruct H2 as (c2 & H2t & H2f).
  destruct (step_if_applicable b2 _ c2 _ w1 H2t H2f) as (w2 & -> & Ho2 & He2 & Hn2).
  assert (H3 : ∃ c, (b3 = true → region_chart env df w2
                                 = write_file ventas_por_region c w2)
                    ∧ (b3 = false → region_chart env df w2 = (Ok (), w2))).
  { destruct b3 eqn:E.
    - apply andb_prop in E as [Hr Hs].
      destruct (region_chart_writes env df w2 Hq Hr Hs) as [fig ->].
      by exists (ChartHtml fig).
    - exists Blob. split; [done|]. intros _. unfold region_chart.
      unfold b3 in E. cbn.
      destruct (has_column "region" df), (has_column "segment" df),
        (has_column "sales" df); cbn in *; done. }
  destruct H3 as (c3 & H3t & H3f).
  destruct (step_if_applicable b3 _ c3 _ w2 H3t H3f) as (w3 & -> & Ho3 & He3 & Hn3).
  split; [congruence|]. split; [congruence|].
  intros f. rewrite Hn3, Hn2, Hn1. unfold applicable. fold b1 b2 b3.
  destruct (String.eqb_spec f ventas_por_mes) as [->|N1].
  { split; [|tauto]. intros [[[?|[? _]]|[_ ?]]|[_ ?]]; try discriminate; auto. }
  destruct (String.eqb_spec f top_subcategorias) as [->|N2].
  { split; [|tauto]. intros [[[?|[_ ?]]|[? _]]|[_ ?]]; try discriminate; auto. }
  destruct (String.eqb_spec f ventas_por_region) as [->|N3].
  { split; [|tauto]. intros [[[?|[_ ?]]|[_ ?]]|[? _]]; try discriminate; auto. }
  split; [|intros [?|?]; [auto|discriminate]].
  intros [[[?|[_ ?]]|[_ ?]]|[_ ?]]; auto; done.
Qed.

End ChartsMore.

(** ** The dashboard, continued *)

Section DashboardMore.

(** X13. The page is the fixed head, the KPI box with one line per KPI
    in KPI order, a heading and a frame per chart file in the order given,
    and the closing tags: [19 + kpis + 2 * charts] lines. *)
Theorem dashboard_layout (kpis : list (string * kpi_value)) (html_files : list string) :
  dashboard_parts kpis html_files
  = dashboard_head
    ++ [kpi_box_open; "<h2>🔍 KPIs Principales</h2>"]
    ++ map kpi_line kpis
    ++ ["</div>"]
    ++ flat_map (fun p => [chart_heading p; iframe_line p]) html_files
    ++ ["</body>"; "</html>"]
  ∧ length (dashboard_parts kpis html_files)
    = (19 + length kpis + 2 * length html_files)%nat.
Proof.
  assert (H : dashboard_parts kpis html_files
    = dashboard_head
      ++ [kpi_box_open; "<h2>🔍 KPIs Principales</h2>"]
      ++ map kpi_line kpis
      ++ ["</div>"]
      ++ flat_map (fun p => [chart_heading p; iframe_line p]) html_files
      ++ ["</body>"; "</html>"]).
  { unfold dashboard_parts. rewrite foldl_append_two, foldl_append_one.
    by rewrite <- !app_assoc. }
  split; [done|]. rewrite H, !length_app, length_map.
  assert (Hf : length (flat_map (fun p => [chart_heading p; iframe_line p]) html_files)
               = (2 * length html_files)%nat).
  { clear H. induction html_files as [|p l IH]; [done|]. cbn [flat_map app length].
    rewrite IH. lia. }
  rewrite Hf. cbn. lia.
Qed.

Lemma list_ascii_of_string_app s1 s2 :
  list_ascii_of_string (s1 +:+ s2) = list_ascii_of_string s1 ++ list_ascii_of_string s2.
Proof. induction s1 as [|c s IH]; [done|]. simpl. f_equal. exact IH. Qed.

Lemma iframe_line_inj p q : iframe_line p = iframe_line q → p = q.
Proof.
  unfold iframe_line. intros H.
  apply (f_equal list_ascii_of_string) in H.
  rewrite !list_ascii_of_string_app in H.
  do 2 apply app_inv_head in H. apply app_inv_tail in H.
  rewrite <- (string_of_list_ascii_of_string p), <- (string_of_list_ascii_of_string q).
  by rewrite H.
Qed.

Lemma section_of_line_chart line embed :
  section_of_line line = Some (ChartSection embed) → embed = line.
Proof.
  unfold section_of_line. destruct (String.eqb line kpi_box_open); [discriminate|].
  destruct (String.prefix _ line); [|discriminate]. by intros [= <-].
Qed.

(** The frames of a page are those of the files it was built from. *)
Lemma iframe_line_in_parts kpis files p :
  iframe_line p ∈ dashboard_parts kpis files ↔ p ∈ files.
Proof.
  assert (Hsec : ChartSection (iframe_line p) ∈ sections (dashboard_parts kpis files)
                 ↔ p ∈ files).
  { rewrite dashboard_sections. unfold chart_sections. rewrite map_fmap. split.
    - intros [Hk|Hin]%elem_of_cons; [discriminate Hk|].
      apply list_elem_of_fmap in Hin as (q & Hq & Hin).
      assert (Hpq : iframe_line p = iframe_line q) by congruence.
      by rewrite (iframe_line_inj p q Hpq).
    - intros Hin. right. apply list_elem_of_fmap. by exists p. }
  rewrite <- Hsec. unfold sections. rewrite list_elem_of_omap. split.
  - intros Hin. exists (iframe_line p). split; [done|apply section_of_iframe_line].
  - intros (line & Hin & Hline). by rewrite (section_of_line_chart _ _ Hline).
Qed.

(** X14. When the working directory holds at least one [.html] file other
    than the dashboard and the dashboard can be opened for writing, the
    stage writes the dashboard, and the page has a frame for a file
    exactly when the file is an entry of the directory whose name ends in
    [.html] and is not the dashboard itself. *)
Theorem dashboard_embeds_pages_of_the_directory env kpis w :
  (∀ names, scandir env names ≡ₚ names) →
  raises env dashboard_file OpenWrite = None →
  (∃ p, p ∈ file_names w ∧ ends_with ".html" p = true ∧ p ≠ dashboard_file) →
  ∃ parts,
    read_file dashboard_file (cwd (dashboard_stage env kpis w)) = Some (Page parts) ∧
    ∀ p, iframe_line p ∈ parts ↔
         p ∈ file_names w ∧ ends_with ".html" p = true ∧ p ≠ dashboard_file.
Proof.
  intros Hscan Hopen (p0 & Hp0).
  assert (Hglob : ∀ p, p ∈ glob_html env w ↔
            p ∈ file_names w ∧ ends_with ".html" p = true ∧ p ≠ dashboard_file).
  { intros p. unfold glob_html, file_names.
    rewrite list_elem_of_filter, Hscan. tauto. }
  exists (dashboard_parts kpis (glob_html env w)). split.
  - unfold dashboard_stage, try_except, assemble.
    destruct (glob_html env w) as [|p files] eqn:E.
    { apply Hglob in Hp0. by apply elem_of_nil in Hp0. }
    unfold mbind, stage_bind, call. rewrite Hopen.
    unfold write_file, print. cbn [fst snd cwd]. apply read_put_file.
  - intros p. by rewrite iframe_line_in_parts.
Qed.

Lemma dashboard_stage_cases env kpis w :
  let w' := dashboard_stage env kpis w in
  (glob_html env w = [] ∧ cwd w' = cwd w ∧ stdout w' = stdout w
   ∧ stderr w' = stderr w ++ [no_charts_message])
  ∨ (glob_html env w ≠ [] ∧
     ∃ e, raises env dashboard_file OpenWrite = Some e ∧ cwd w' = cwd w
          ∧ stdout w' = stdout w
          ∧ stderr w' = stderr w ++ ["Error al crear el dashboard: " +:+ exn_str e])
  ∨ (glob_html env w ≠ [] ∧ raises env dashboard_file OpenWrite = None
     ∧ cwd w' = put_file dashboard_file
                  (Page (dashboard_parts kpis (glob_html env w))) (cwd w)
     ∧ stdout w' = stdout w ++ ["
✅ Dashboard creado exitosamente: dashboard_superstore.html"]
     ∧ stderr w' = stderr w).
Proof.
  cbn zeta. unfold dashboard_stage, try_except, assemble.
  destruct (glob_html env w) as [|p files] eqn:E.
  - left. done.
  - right. unfold mbind, stage_bind, call.
    destruct (raises env dashboard_file OpenWrite) as [e|].
    + left. split; [done|]. by exists e.
    + right. done.
Qed.

(** X15. The dashboard stage leaves every file other than the dashboard
    as it was, removes no file, prints exactly one line (on one of the two
    streams), and if the dashboard changed it now holds the page built
    from the KPIs and the chart files found. *)
Theorem dashboard_stage_touches_only_the_dashboard env kpis w :
  let w' := dashboard_stage env kpis w in
  (∀ n, n ≠ dashboard_file → read_file n (cwd w') = read_file n (cwd w)) ∧
  file_names w ⊆ file_names w' ∧
  (length (stdout w') + length (stderr w')
   = length (stdout w) + length (stderr w) + 1)%nat ∧
  (read_file dashboard_file (cwd w') ≠ read_file dashboard_file (cwd w) →
   read_file dashboard_file (cwd w')
   = Some (Page (dashboard_parts kpis (glob_html env w))) ∧ glob_html env w ≠ []).
Proof.
  cbn zeta.
  destruct (dashboard_stage_cases env kpis w)
    as [(Hg & Hc & Ho & He)|[(Hg & e & _ & Hc & Ho & He)|(Hg & _ & Hc & Ho & He)]];
    unfold file_names; rewrite Hc, Ho, He.
  - split; [done|]. split; [done|]. rewrite length_app. cbn. split; [lia|done].
  - split; [done|]. split; [done|]. rewrite length_app. cbn. split; [lia|done].
  - split; [intros n Hn; by apply read_put_file_other|].
    split; [intros f Hf; apply elem_of_put_file_names; by left|].
    rewrite length_app. cbn. split; [lia|]. intros _. by rewrite read_put_file.
Qed.

Lemma rfind_from_none i c l found :
  c ∉ l → rfind_from i c l found = found.
Proof.
  revert i found. induction l as [|d t IH]; intros i found Hc; [done|].
  cbn [rfind_from]. destruct (Ascii.eqb_spec d c) as [->|Hne].
  - destruct Hc. left.
  - apply IH. intros Hin. apply Hc. by right.
Qed.

Lemma rfind_from_app i c l1 l2 found :
  rfind_from i c (l1 ++ l2) found
  = rfind_from (i + length l1) c l2 (rfind_from i c l1 found).
Proof.
  revert i found. induction l1 as [|d t IH]; intros i found; cbn [app length rfind_from].
  - by rewrite Nat.add_0_r.
  - rewrite IH. f_equal. lia.
Qed.

Lemma title_chars_ascii (b : bool) (l : list ascii) :
  Forall (fun c => (code c < 128)%N) l →
  Forall (fun c => (code c < 128)%N) (title_chars b l).
Proof.
  intros H. revert b. induction H as [|c l Hc _ IH]; intros b; [constructor|].
  cbn [title_chars]. unfold is_ascii_upper, is_ascii_lower.
  destruct (N.leb_spec 65 (code c)), (N.leb_spec (code c) 90),
    (N.leb_spec 97 (code c)), (N.leb_spec (code c) 122); cbn [andb];
    constructor; try apply IH; try done;
    destruct b; try done; unfold code in *;
    rewrite N_ascii_embedding; lia.
Qed.

Lemma replace_char_ascii (a b : ascii) (l : list ascii) :
  (code b < 128)%N →
  Forall (fun c => (code c < 128)%N) l →
  Forall (fun c => (code c < 128)%N) (replace_char a b l).
Proof.
  intros Hb H. unfold replace_char. apply Forall_map.
  eapply Forall_impl; [exact H|]. intros c Hc. cbn. by destruct (Ascii.eqb c a).
Qed.

(** X16. For a chart file [s.html] whose stem [s] is ASCII text, not
    empty and without a dot, the stem is [s] and the heading of its
    section is [s] with underscores turned into spaces, in title case,
    which is ASCII text again. *)
Theorem stem_of_a_page (s : string) :
  ascii_text s →
  s ≠ "" →
  "."%char ∉ list_ascii_of_string s →
  stem (s +:+ ".html") = s ∧
  chart_heading (s +:+ ".html")
  = "<h2>📈 " +:+ py_title (py_replace_char "_" " " s) +:+ "</h2>" ∧
  ascii_text (py_title (py_replace_char "_" " " s)).
Proof.
  intros Hascii Hne Hdot.
  assert (Hstem : stem (s +:+ ".html") = s).
  { unfold stem. rewrite list_ascii_of_string_app, rfind_from_app.
    rewrite (rfind_from_none _ _ _ _ Hdot).
    change (list_ascii_of_string ".html") with ["."; "h"; "t"; "m"; "l"]%char.
    cbn [rfind_from Ascii.eqb Bool.eqb]. cbn [length].
    rewrite length_app. cbn [length].
    assert (0 < length (list_ascii_of_string s))%nat.
    { destruct s; [done|]. cbn. lia. }
    destruct (Nat.ltb_spec 0 (0 + length (list_ascii_of_string s))); [|lia].
    destruct (Nat.ltb_spec (0 + length (list_ascii_of_string s))
                (length (list_ascii_of_string s) + 5 - 1)); [|lia].
    cbn [andb]. rewrite Nat.add_0_l, take_app_length.
    apply string_of_list_ascii_of_string. }
  split; [done|]. split; [unfold chart_heading; by rewrite Hstem|].
  unfold ascii_text, py_title, py_replace_char.
  rewrite !list_ascii_of_string_of_list_ascii.
  apply title_chars_ascii, replace_char_ascii; done.
Qed.

End DashboardMore.

(** ** Preparation *)

Section Preparation.

Context (pd : Pandas).

Lemma columns_set_column c f df :
  columns (set_column c f df) = add_column_name c (columns df).
Proof. reflexivity. Qed.

Lemma rows_set_column c f df :
  length (rows (set_column c f df)) = length (rows df).
Proof. unfold set_column. cbn. by rewrite length_map. Qed.

Lemma add_column_name_present c names :
  c ∈ names → add_column_name c names = names.
Proof. intros H. unfold add_column_name. by rewrite bool_decide_eq_true_2. Qed.

Lemma coerce_step c f df :
  columns (if has_column c df then set_column c f df else df) = columns df ∧
  length (rows (if has_column c df then set_column c f df else df))
  = length (rows df).
Proof.
  unfold has_column. destruct (bool_decide (c ∈ columns df)) eqn:E; [|done].
  apply bool_decide_eq_true_1 in E.
  by rewrite columns_set_column, add_column_name_present, rows_set_column.
Qed.

Lemma has_column_same_columns c df1 df2 :
  columns df1 = columns df2 → has_column c df1 = has_column c df2.
Proof. unfold has_column. by intros ->. Qed.

Lemma dates_step (df : DataFrame) :
  let date_cols := List.filter (fun c => has_column c df) ["order_date"; "ship_date"] in
  let df' := foldl (fun df col => set_column col (fun r => to_datetime pd (get col r)) df)
               df date_cols in
  columns df' = columns df ∧ length (rows df') = length (rows df).
Proof.
  cbn [List.filter]. unfold has_column.
  destruct (bool_decide ("order_date" ∈ columns df)) eqn:E1,
           (bool_decide ("ship_date" ∈ columns df)) eqn:E2;
    cbn [foldl]; rewrite ?columns_set_column, ?rows_set_column;
    try apply bool_decide_eq_true_1 in E1; try apply bool_decide_eq_true_1 in E2;
    rewrite ?columns_set_column, ?add_column_name_present; try done.
  all: rewrite ?columns_set_column, ?add_column_name_present; done.
Qed.

Lemma prepare_columns_rows (df : DataFrame) :
  columns (prepare pd df) = derived_names (map canonical_name (columns df)) ∧
  length (rows (prepare pd df)) = length (rows df).
Proof.
  unfold prepare.
  set (df0 := rename_columns df).
  assert (H0 : columns df0 = map canonical_name (columns df)
               ∧ length (rows df0) = length (rows df)).
  { unfold df0, rename_columns. cbn. by rewrite length_map. }
  destruct (dates_step df0) as [Hc1 Hr1]. cbn zeta in Hc1, Hr1.
  set (df1 := foldl _ df0 _) in *.
  set (df2 := if has_column "order_date" df1 then _ else df1).
  assert (H2 : columns df2 = derived_names (columns df1)
               ∧ length (rows df2) = length (rows df1)).
  { unfold df2, derived_names, has_column.
    destruct (bool_decide ("order_date" ∈ columns df1)); [|done].
    by rewrite !columns_set_column, !rows_set_column. }
  cbn [foldl].
  destruct (coerce_step "sales" (fun r => to_numeric pd (get "sales" r)) df2) as [Ha Hb].
  set (df3 := if has_column "sales" df2 then _ else df2) in *.
  destruct (coerce_step "profit" (fun r => to_numeric pd (get "profit" r)) df3) as [Hc Hd].
  set (df4 := if has_column "profit" df3 then _ else df3) in *.
  destruct (coerce_step "quantity" (fun r => to_numeric pd (get "quantity" r)) df4)
    as [He Hf].
  destruct H0 as [H0c H0r], H2 as [H2c H2r].
  split; congruence.
Qed.

Lemma elem_of_add_column_name x c names :
  x ∈ add_column_name c names ↔ x ∈ names ∨ x = c.
Proof.
  unfold add_column_name. destruct (bool_decide (c ∈ names)) eqn:E.
  - apply bool_decide_eq_true_1 in E. split; [by left|]. by intros [?| ->].
  - rewrite elem_of_app, list_elem_of_singleton. done.
Qed.

Lemma elem_of_derived_names x names :
  x ∈ derived_names names ↔
  x ∈ names ∨ ("order_date" ∈ names ∧ x ∈ ["year"; "year_month"; "month_name"]).
Proof.
  unfold derived_names. destruct (bool_decide ("order_date" ∈ names)) eqn:E.
  - apply bool_decide_eq_true_1 in E. rewrite !elem_of_add_column_name.
    rewrite !elem_of_cons, elem_of_nil. tauto.
  - apply bool_decide_eq_false_1 in E. tauto.
Qed.

Lemma canonical_names_fixed (cols : list string) :
  map canonical_name (map canonical_name cols) = map canonical_name cols.
Proof. rewrite map_map. apply map_ext. intros c. apply canonical_name_twice. Qed.

Lemma add_column_name_canonical c names :
  canonical_name c = c →
  map canonical_name names = names →
  map canonical_name (add_column_name c names) = add_column_name c names.
Proof.
  intros Hc Hn. unfold add_column_name. case_bool_decide; [done|].
  rewrite map_app, Hn. cbn. by rewrite Hc.
Qed.

Lemma derived_names_fixed names :
  map canonical_name names = names →
  map canonical_name (derived_names names) = derived_names names.
Proof.
  intros Hn. unfold derived_names. case_bool_decide; [|done].
  by repeat (apply add_column_name_canonical; [reflexivity|]).
Qed.

Lemma derived_names_idem names :
  derived_names (derived_names names) = derived_names names.
Proof.
  unfold derived_names at 1. case_bool_decide as Hod; [|done].
  assert (Hin : ∀ x, x ∈ ["year"; "year_month"; "month_name"] →
                     x ∈ derived_names names).
  { intros x Hx. apply elem_of_derived_names in Hod as [Hod|[Hod _]];
      apply elem_of_derived_names; right; done. }
  rewrite (add_column_name_present "year") by (apply Hin; left).
  rewrite (add_column_name_present "year_month") by (apply Hin; right; left).
  by rewrite (add_column_name_present "month_name") by (apply Hin; right; right; left).
Qed.

Lemma derived_names_canonical (cols : list string) :
  derived_names (map canonical_name (derived_names (map canonical_name cols)))
  = derived_names (map canonical_name cols).
Proof.
  rewrite derived_names_fixed by apply canonical_names_fixed.
  apply derived_names_idem.
Qed.

(** X17. After preparation the column index is the canonical names in
    their order, followed, when order_date is among them, by those of
    year, year_month and month_name that are not there yet; no row is
    added or dropped; preparing again leaves the index as it is. *)
Theorem prepared_index (df : DataFrame) :
  NoDup (map canonical_name (columns df)) →
  columns (prepare pd df) = derived_names (map canonical_name (columns df)) ∧
  length (rows (prepare pd df)) = length (rows df) ∧
  map canonical_name (columns df) `prefix_of` columns (prepare pd df) ∧
  columns (prepare pd (prepare pd df)) = columns (prepare pd df).
Proof.
  intros _. destruct (prepare_columns_rows df) as [Hc Hr].
  split; [done|]. split; [done|]. split.
  - rewrite Hc. unfold derived_names, add_column_name.
    repeat case_bool_decide; try done;
      repeat (apply prefix_app_r); done.
  - destruct (prepare_columns_rows (prepare pd df)) as [-> _]. rewrite Hc.
    apply derived_names_canonical.
Qed.

(** X18. After preparation the monthly chart is applicable exactly when
    the canonical names hold sales and order_date (or a year_month column
    of their own). *)
Theorem monthly_chart_needs_order_date_and_sales (df : DataFrame) :
  let names := map canonical_name (columns df) in
  NoDup names →
  applicable ventas_por_mes (prepare pd df) = true ↔
  ("order_date" ∈ names ∨ "year_month" ∈ names) ∧ "sales" ∈ names.
Proof.
  cbn zeta. intros _. unfold applicable. cbn [String.eqb Ascii.eqb Bool.eqb].
  change (String.eqb ventas_por_mes ventas_por_mes) with true. cbn match.
  unfold has_column. rewrite andb_true_iff, !bool_decide_eq_true.
  destruct (prepare_columns_rows df) as [-> _].
  rewrite !elem_of_derived_names.
  split.
  - intros [H1 H2]. split.
    + destruct H1 as [?|[? _]]; auto.
    + destruct H2 as [?|[_ H2]]; [done|]. exfalso.
      repeat (apply elem_of_cons in H2 as [H2|H2]; [discriminate H2|]).
      by apply elem_of_nil in H2.
  - intros [[?|?] ?]; split; auto. right. split; [done|]. right; left.
Qed.

End Preparation.

(** ** The Spotify script *)

Section SpotifyYears.

Import Spotify.

Lemma list_filter_bool {B} (f : B → bool) (l : list B) :
  List.filter f l = filter (fun x => f x = true) l.
Proof.
  induction l as [|x l IH]; [done|]. cbn [List.filter]. rewrite filter_cons, IH.
  destruct (f x); [by rewrite decide_True | by rewrite decide_False].
Qed.

Lemma year_max_None ys : year_max ys = None ↔ ∀ y, Num y ∉ ys.
Proof.
  induction ys as [|c ys IH]; cbn [year_max].
  - split; [|done]. intros _ y Hy. by apply elem_of_nil in Hy.
  - destruct c as [|z|s|t].
    2:{ split.
        - destruct (year_max ys); discriminate.
        - intros H. destruct (H z). left. }
    all: rewrite IH; split; intros H y Hy;
      [apply elem_of_cons in Hy as [Hy|Hy]; [discriminate Hy|by apply (H y)]
      | apply (H y); by right ].
Qed.

Lemma year_max_Some ys m :
  year_max ys = Some m ↔ Num m ∈ ys ∧ ∀ y, Num y ∈ ys → y ≤ m.
Proof.
  revert m. induction ys as [|c ys IH]; intros m; cbn [year_max].
  - split; [done|]. intros [H _]. by apply elem_of_nil in H.
  - destruct c as [|z|s|t].
    2:{ destruct (year_max ys) as [m'|] eqn:E.
        - destruct (proj1 (IH m') eq_refl) as [Hin Hub]. split.
          + intros [= <-]. split.
            * destruct (Z.max_spec z m') as [[_ ->]|[_ ->]]; [by right|left].
            * intros y [[= ->]|Hy]%elem_of_cons; [lia|]. specialize (Hub y Hy). lia.
          + intros [Hm Hall]. f_equal.
            assert (z ≤ m) by (apply Hall; left).
            assert (m' ≤ m) by (apply Hall; by right).
            apply elem_of_cons in Hm as [[= ->]|Hm]; [lia|].
            specialize (Hub m Hm). lia.
        - pose proof (proj1 (year_max_None ys) E) as Hnone. split.
          + intros [= <-]. split; [left|].
            intros y [[= ->]|Hy]%elem_of_cons; [lia|]. by destruct (Hnone y).
          + intros [Hm _]. apply elem_of_cons in Hm as [[= ->]|Hm]; [done|].
            by destruct (Hnone m). }
    all: rewrite IH; split; intros [Hm Hall]; split;
      [ by right
      | intros y Hy; apply Hall;
        apply elem_of_cons in Hy as [Hy|Hy]; [discriminate Hy|done]
      | apply elem_of_cons in Hm as [Hm|Hm]; [discriminate Hm|done]
      | intros y Hy; apply Hall; by right ].
Qed.

Lemma elem_of_years (rs : list (gmap string cell)) c :
  c ∈ map (get "year") rs ↔ ∃ r, r ∈ rs ∧ get "year" r = c.
Proof.
  rewrite map_fmap, list_elem_of_fmap. split.
  - intros (r & -> & Hr). by exists r.
  - intros (r & Hr & <-). by exists r.
Qed.

Lemma filter_at_least_none (rs : list (gmap string cell)) :
  List.filter (fun r => at_least None (get "year" r)) rs = [].
Proof.
  induction rs as [|r rs IH]; [done|]. cbn [List.filter].
  unfold at_least at 1. by destruct (get "year" r).
Qed.

Lemma filter_at_least_some (b : Z) (rs : list (gmap string cell)) :
  List.filter (fun r => at_least (Some b) (get "year" r)) rs
  = List.filter (fun r => match get "year" r with
                          | Num y => b <=? y
                          | _ => false
                          end) rs.
Proof.
  induction rs as [|r rs IH]; [done|]. cbn [List.filter].
  rewrite IH. unfold at_least. by destruct (get "year" r).
Qed.

(** X19. With a numeric year column whose years binary64 represents
    exactly, the filter keeps the columns and, of the rows, exactly those
    whose year is at most two years before the latest year, each as often
    as it occurs and in the order of the input; rows without a year are
    dropped.  The threshold, the latest year less two, is exact as well.
    Without any year no row is kept. *)
Theorem last_three_years_keeps_the_recent_rows (df df' : DataFrame) :
  has_column "year" df = true →
  years_exact df →
  last_three_years df = Ok df' →
  columns df' = columns df ∧
  ((∀ y, Num y ∉ map (get "year") (rows df)) → rows df' = []) ∧
  (∀ m, Num m ∈ map (get "year") (rows df) →
        (∀ y, Num y ∈ map (get "year") (rows df) → y ≤ m) →
        Z.abs (m - 2) < 2 ^ 53 ∧
        rows df'
        = List.filter (fun r => match get "year" r with
                                | Num y => m - 2 <=? y
                                | _ => false
                                end) (rows df)).
Proof.
  intros Hy Hexact. unfold last_three_years. rewrite Hy.
  destruct (forallb _ _); [|discriminate]. intros [= <-]. cbn [columns rows].
  split; [done|]. split.
  - intros Hnone. apply year_max_None in Hnone. rewrite Hnone.
    apply filter_at_least_none.
  - intros m Hm Hub. split.
    + apply elem_of_years in Hm as (r & Hr & Er).
      unfold years_exact in Hexact. rewrite Forall_forall in Hexact.
      specialize (Hexact r Hr). rewrite Er in Hexact. lia.
    + assert (Hmax : year_max (map (get "year") (rows df)) = Some m)
        by (by apply year_max_Some).
      rewrite Hmax. apply filter_at_least_some.
Qed.

(** X20. Filtering the last three years twice gives what filtering once
    gives. *)
Theorem last_three_years_idempotent (df df' : DataFrame) :
  last_three_years df = Ok df' → last_three_years df' = Ok df'.
Proof.
  unfold last_three_years at 1.
  destruct (has_column "year" df) eqn:Hy; [|by intros [= <-]; unfold last_three_years; rewrite Hy].
  destruct (forallb _ _) eqn:Hnum; [|discriminate]. intros [= <-].
  unfold last_three_years. unfold has_column in *. cbn [columns rows]. rewrite Hy.
  set (years := map (get "year") (rows df)) in *.
  set (bound := (fun m => m - 2) <$> year_max years).
  set (kept := List.filter (fun r => at_least bound (get "year" r)) (rows df)).
  assert (Hsub : ∀ r, r ∈ kept → r ∈ rows df ∧ at_least bound (get "year" r) = true).
  { intros r. unfold kept. rewrite list_filter_bool, list_elem_of_filter. tauto. }
  assert (Hnum' : forallb is_number_or_nan (map (get "year") kept) = true).
  { apply forallb_forall. intros c [r [Hr <-]]%list_elem_of_In%elem_of_years.
    rewrite forallb_forall in Hnum. apply Hnum, list_elem_of_In, elem_of_years.
    exists r. split; [|done]. by apply Hsub. }
  rewrite Hnum'. f_equal. f_equal.
  assert (Hmax : year_max (map (get "year") kept) = year_max years ∨ kept = []).
  { destruct (year_max years) as [m|] eqn:Em.
    - left. apply year_max_Some. apply year_max_Some in Em as Em'.
      destruct Em' as [Hm Hub]. split.
      + apply elem_of_years in Hm as (r & Hr & Er). apply elem_of_years.
        exists r. split; [|done]. unfold kept.
        rewrite list_filter_bool, list_elem_of_filter. split; [|done].
        unfold at_least, bound. rewrite Er. cbn. apply Z.leb_le. lia.
      + intros y (r & Hr & Er)%elem_of_years. apply Hub, elem_of_years.
        exists r. split; [|done]. by apply Hsub.
    - right. assert (Hb : bound = None) by (unfold bound; by rewrite ?Em).
      unfold kept. rewrite Hb. clear.
      induction (rows df) as [|r rs IH]; [done|]. cbn [List.filter].
      unfold at_least at 1. by destruct (get "year" r). }
  destruct Hmax as [-> | Hnil].
  - fold bound. unfold kept. rewrite !list_filter_bool. apply list_filter_filter_l.
    done.
  - by rewrite Hnil.
Qed.

End SpotifyYears.

Section SpotifyScript.

Import Spotify.

Lemma value_counts_lookup c (df : DataFrame) (g : cell) :
  default 0%nat (value_counts c df !! g)
  = if decide (g = NaN) then 0%nat else occurrences c g (rows df).
Proof.
  unfold value_counts, occurrences.
  induction (rows df) as [|r rs IH]; cbn [foldr].
  - rewrite lookup_empty. cbn. by destruct (decide (g = NaN)).
  - rewrite filter_cons.
    destruct (decide (get c r = g)) as [Hg|Hg].
    + destruct (decide (g = NaN)) as [->|Hn].
      * rewrite Hg. exact IH.
      * assert (Hins : ∀ m : gmap cell nat,
                  default 0%nat (<[g := S (default 0%nat (m !! g))]> m !! g)
                  = S (default 0%nat (m !! g))).
        { intros m. by rewrite lookup_insert_eq. }
        rewrite Hg. destruct g; [done|..]; rewrite Hins, IH; done.
    + assert (Hins : ∀ (m : gmap cell nat) k n, k ≠ g →
                default 0%nat (<[k := n]> m !! g) = default 0%nat (m !! g)).
      { intros m k n Hk. by rewrite lookup_insert_ne. }
      destruct (get c r) eqn:E; [exact IH|..]; rewrite Hins by done; exact IH.
Qed.

Lemma value_counts_positive c (df : DataFrame) (g : cell) n :
  value_counts c df !! g = Some n → (0 < n)%nat ∧ g ≠ NaN.
Proof.
  unfold value_counts. revert n.
  induction (rows df) as [|r rs IH]; intros n; cbn [foldr].
  - by rewrite lookup_empty.
  - destruct (get c r) eqn:E; [apply IH|..];
      (rewrite lookup_insert; case_decide as Hk;
       [intros [= <-]; split; [lia|by subst g] | apply IH]).
Qed.

(** X21. The genre dictionary maps each value that occurs to the number
    of rows that hold it; missing values and values that do not occur are
    no keys. *)
Theorem value_counts_counts c (df : DataFrame) (g : cell) :
  value_counts c df !! g
  = if decide (g = NaN) then None
    else match occurrences c g (rows df) with
         | O => None
         | n => Some n
         end.
Proof.
  pose proof (value_counts_lookup c df g) as Hd.
  destruct (decide (g = NaN)) as [Hg|Hg].
  - destruct (value_counts c df !! g) as [n|] eqn:E; [|done].
    by destruct (value_counts_positive _ _ _ _ E).
  - destruct (value_counts c df !! g) as [n|] eqn:E; cbn [default] in Hd.
    + destruct (value_counts_positive _ _ _ _ E) as [Hn _].
      rewrite <- Hd. by destruct n; [lia|].
    + by rewrite <- Hd.
Qed.

Lemma value_counts_empty c (df : DataFrame) :
  value_counts c df = ∅ ↔ ∀ r, r ∈ rows df → get c r = NaN.
Proof.
  unfold value_counts. induction (rows df) as [|r rs IH]; cbn [foldr].
  - split; [|done]. intros _ r Hr. by apply elem_of_nil in Hr.
  - destruct (get c r) eqn:E.
    + rewrite IH. split.
      * intros H r' [->|Hr']%elem_of_cons; [done|by apply H].
      * intros H r' Hr'. apply H. by right.
    + split; [intros H; by apply insert_non_empty in H|].
      intros H. specialize (H r (ltac:(left))). congruence.
    + split; [intros H; by apply insert_non_empty in H|].
      intros H. specialize (H r (ltac:(left))). congruence.
    + split; [intros H; by apply insert_non_empty in H|].
      intros H. specialize (H r (ltac:(left))). congruence.
Qed.








Lemma last_three_years_columns df0 df :
  last_three_years df0 = Ok df → columns df = columns df0.
Proof.
  unfold last_three_years. destruct (has_column "year" df0); [|by intros [= <-]].
  destruct (forallb _ _); [|discriminate]. by intros [= <-].
Qed.

Lemma check_columns_missing names df n :
  n ∈ names → has_column n df = false →
  ∃ msg, check_columns names df = Raise (ValueError msg).
Proof.
  intros Hin Hn. induction names as [|m names IH]; [by apply elem_of_nil in Hin|].
  cbn [check_columns]. destruct (has_column m df) eqn:Hm; [|by eexists].
  apply elem_of_cons in Hin as [->|Hin]; [congruence|by apply IH].
Qed.

Lemma check_columns_present names df :
  Forall (fun n => has_column n df = true) names → check_columns names df = Ok ().
Proof. induction 1 as [|n l Hn _ IH]; [done|]. cbn. by rewrite Hn. Qed.

(** X23. Without an energy or a popularity column, or with track_name
    and no artist_name, the run ends in a [ValueError] at the first chart
    and writes no file. *)
Theorem scatter_needs_its_columns raises df0 df fs :
  last_three_years df0 = Ok df →
  has_column "energy" df0 = false ∨ has_column "popularity" df0 = false
  ∨ (has_column "track_name" df0 = true ∧ has_column "artist_name" df0 = false) →
  ∃ msg, script raises (Ok df0) fs = (Raise (ValueError msg), fs).
Proof.
  intros Hy Hmiss. apply last_three_years_columns in Hy as Hc.
  assert (Hhas : ∀ n, has_column n df = has_column n df0).
  { intros n. unfold has_column. by rewrite Hc. }
  rewrite <- !Hhas in Hmiss.
  unfold script. unfold mbind at 1, run_bind at 1, lift at 1.
  unfold mbind at 1, run_bind at 1, lift at 1. rewrite Hy.
  unfold mbind at 1, run_bind at 1.
  assert (Hs : ∃ msg, scatter raises df fs = (Raise (ValueError msg), fs)).
  { unfold scatter. unfold mbind at 1, run_bind at 1, lift.
    match goal with |- context [check_columns ?names df] =>
      assert (Hchk : ∃ msg, check_columns names df = Raise (ValueError msg)) end.
    { destruct Hmiss as [H|[H|[Ht H]]].
      - apply (check_columns_missing _ _ "energy"); [left|done].
      - apply (check_columns_missing _ _ "popularity"); [right; left|done].
      - rewrite Ht. apply (check_columns_missing _ _ "artist_name"); [|done].
        cbn. right. right. apply elem_of_app. right.
        right. right. left. }
    destruct Hchk as [msg ->]. by exists msg. }
  destruct Hs as [msg ->]. by exists msg.
Qed.

(** X24. When every genre of the filtered dataset is missing (an empty
    dataset included), the word cloud refuses its empty dictionary: both
    charts are written, the image and the cleaned CSV are not. *)
Theorem empty_genres_end_the_run raises df0 df fs :
  last_three_years df0 = Ok df →
  Forall (fun n => has_column n df0 = true)
    ["energy"; "popularity"; "duration_ms"; "genre"] →
  has_column "track_name" df0 = false →
  (∀ r, r ∈ rows df → get "genre" r = NaN) →
  Forall (fun c => raises c = None)
    [PxScatter; ShowScatter; WriteScatter; PxHistogram; ShowHistogram; WriteHistogram] →
  script raises (Ok df0) fs
  = (Raise empty_cloud_error,
     put histogram_file (histogram_plot df) (put scatter_file (scatter_plot df) fs)).
Proof.
  intros Hy Hcols Htrack Hgenre Hquiet.
  apply last_three_years_columns in Hy as Hc.
  assert (Hhas : ∀ n, has_column n df = has_column n df0).
  { intros n. unfold has_column. by rewrite Hc. }
  rewrite <- Hhas in Htrack.
  assert (Hcols' : Forall (fun n => has_column n df = true)
                     ["energy"; "popularity"; "duration_ms"; "genre"]).
  { eapply Forall_impl; [exact Hcols|]. intros n Hn. by rewrite Hhas. }
  pose proof Hcols' as Hall. rewrite !Forall_cons in Hall.
  destruct Hall as (He & Hp & Hd & Hg & _).
  rewrite !Forall_cons in Hquiet.
  destruct Hquiet as (Q1 & Q2 & Q3 & Q4 & Q5 & Q6 & _).
  unfold script. unfold mbind at 1, run_bind at 1, lift at 1.
  unfold mbind at 1, run_bind at 1, lift at 1. rewrite Hy.
  assert (Hs : scatter raises df fs = (Ok (), put scatter_file (scatter_plot df) fs)).
  { unfold scatter, scatter_plot. rewrite Hg, Htrack. cbn [option_list default app].
    rewrite check_columns_present by (repeat constructor; done).
    unfold mbind, run_bind, lift, call. by rewrite Q1, Q2, Q3. }
  unfold mbind at 1, run_bind at 1. rewrite Hs.
  assert (Hh : ∀ fs1, histogram raises df fs1
                      = (Ok (), put histogram_file (histogram_plot df) fs1)).
  { intros fs1. unfold histogram, histogram_plot. rewrite Hg. cbn [option_list app].
    rewrite check_columns_present by (repeat constructor; done).
    unfold mbind, run_bind, lift, call. by rewrite Q4, Q5, Q6. }
  unfold mbind at 1, run_bind at 1. rewrite Hh.
  unfold mbind at 1, run_bind at 1.
  unfold word_cloud. rewrite Hg.
  rewrite bool_decide_eq_true_2 by (by apply value_counts_empty).
  reflexivity.
Qed.

End SpotifyScript.

(** ** The further properties on the sample data *)

Lemma text_load_fails_at_open_or_in_the_parser_witness :
  ((∃ msg, open_error csv_source = Some msg
           ∧ OtherError "Error tokenizing data" = OSError msg) ∨
   (open_error csv_source = None ∧
    ∃ encoding text msg,
      encoding ∈ ["utf-8"; "latin1"] ∧
      decode encoding (file_bytes csv_source) = Ok text ∧
      parse_rejects text = ParserError msg ∧
      OtherError "Error tokenizing data" = OtherError msg)) ∧
  ((∃ msg, open_error directory_source = Some msg
           ∧ OSError "[Errno 21] Is a directory: 'data/ventas.csv'" = OSError msg) ∨
   (open_error directory_source = None ∧
    ∃ encoding text msg,
      encoding ∈ ["utf-8"; "latin1"] ∧
      decode encoding (file_bytes directory_source) = Ok text ∧
      parse_rejects text = ParserError msg ∧
      OSError "[Errno 21] Is a directory: 'data/ventas.csv'" = OtherError msg)).
Proof.
  split.
  - apply (text_load_fails_at_open_or_in_the_parser read_excel_length parse_rejects
             csv_source);
      [reflexivity | discriminate | discriminate | reflexivity].
  - apply (text_load_fails_at_open_or_in_the_parser read_excel_length parse_rejects
             directory_source);
      [reflexivity | discriminate | discriminate | reflexivity].
Defined.

Lemma kpis_need_sales_witness :
  compute_kpis df_profit_only = [] ∧
  ∀ w, (kpi_stage df_profit_only w).2 =
       {| cwd := cwd w; stdout := stdout w ++ ["
=== KPIs Principales ==="]; stderr := stderr w |}.
Proof. apply (kpis_need_sales df_profit_only). reflexivity. Defined.

Lemma kpis_ignore_row_order_witness :
  compute_kpis df_full = compute_kpis df_full_reversed ∧
  summed_exactly "sales" df_full_reversed ∧ summed_exactly "profit" df_full_reversed.
Proof.
  apply (kpis_ignore_row_order df_full df_full_reversed);
    [reflexivity | symmetry; apply reverse_Permutation | by split | by split].
Defined.

(** One eighth, negated: the text is "-12.50%". *)
Lemma format_percent_two_decimals_witness :
  ∃ (h : Z) (d1 d2 : ascii),
    format_percent (S754_finite true 4503599627370496 (-55))
    = "-" +:+ pretty (h / 100) +:+ "." +:+ String d1 (String d2 "%") ∧
    0 ≤ h ∧
    h = 100 * (h / 100) + 10 * (Z.of_N (N_of_ascii d1) - 48)
        + (Z.of_N (N_of_ascii d2) - 48) ∧
    48 ≤ Z.of_N (N_of_ascii d1) ≤ 57 ∧ 48 ≤ Z.of_N (N_of_ascii d2) ≤ 57 ∧
    (Qabs (inject_Z h / 100 - 100 * magnitude 4503599627370496 (-55))
     <= 1 / 200 + 100 * magnitude 4503599627370496 (-55) / inject_Z (2 ^ 52))%Q.
Proof.
  apply (format_percent_two_decimals true 4503599627370496 (-55)); by split.
Defined.

Lemma top_subcategories_are_the_largest_witness :
  let top := top_subcategories insertion_argsort df_full in
  length top
  = Nat.min 20 (length (groupby_sum ["category"; "sub_category"] "sales" df_full)) ∧
  ∃ dropped,
    groupby_sum ["category"; "sub_category"] "sales" df_full ≡ₚ top ++ dropped ∧
    ∀ r r', r ∈ top → r' ∈ dropped → r'.2 ≤ r.2.
Proof.
  apply (top_subcategories_are_the_largest insertion_argsort df_full).
  split.
  - vm_compute. apply perm_swap.
  - vm_compute. repeat constructor. discriminate.
Defined.

Lemma monthly_table_totals_witness :
  ∃ by_month,
    agg ["year_month"] df_full
      [("sales", Some ("sales", "sum")); ("profit", Some ("profit", "sum"))]
    = Ok by_month ∧
    Sorted key_le by_month.*1 ∧
    NoDup by_month.*1 ∧
    Forall (fun row => Forall (fun v => Z.abs v < 2 ^ 53) row.2) by_month ∧
    sum_Z (map (fun row => row.2 !!! 0%nat) by_month)
    = sum_cells (map (get "sales") (keyed_rows ["year_month"] (rows df_full))) ∧
    sum_Z (map (fun row => row.2 !!! 1%nat) by_month)
    = sum_cells (map (get "profit") (keyed_rows ["year_month"] (rows df_full))).
Proof. apply (monthly_table_totals df_full); first [reflexivity | by split]. Defined.

Lemma group_sums_add_up_witness :
  Forall (fun row => Z.abs row.2 < 2 ^ 53) (groupby_sum ["category"] "sales" df_full) ∧
  Z.abs (sum_cells (map (get "sales") (keyed_rows ["category"] (rows df_full)))) < 2 ^ 53 ∧
  sum_Z (groupby_sum ["category"] "sales" df_full).*2
  = sum_cells (map (get "sales") (keyed_rows ["category"] (rows df_full))).
Proof. apply (group_sums_add_up ["category"] "sales" df_full). by split. Defined.

Lemma charts_written_follow_the_columns_witness :
  let w' := visualization_stage env_quiet df_full stale_world in
  stdout w' = stdout stale_world ∧ stderr w' = stderr stale_world ∧
  ∀ f, f ∈ file_names w' ↔ f ∈ file_names stale_world ∨ applicable f df_full = true.
Proof.
  apply (charts_written_follow_the_columns env_quiet df_full stale_world).
  - intros file c. reflexivity.
  - intros _. reflexivity.
Defined.

Lemma dashboard_embeds_pages_of_the_directory_witness :
  ∃ parts,
    read_file dashboard_file (cwd (dashboard_stage env_by_name [] stale_world))
    = Some (Page parts) ∧
    ∀ p, iframe_line p ∈ parts ↔
         p ∈ file_names stale_world ∧ ends_with ".html" p = true ∧ p ≠ dashboard_file.
Proof.
  apply (dashboard_embeds_pages_of_the_directory env_by_name [] stale_world).
  - intros names. apply merge_sort_Permutation.
  - reflexivity.
  - exists "index.html". split; [left|]. split; [reflexivity|discriminate].
Defined.

Lemma stem_of_a_page_witness :
  stem ("top_subcategorias" +:+ ".html") = "top_subcategorias" ∧
  chart_heading ("top_subcategorias" +:+ ".html")
  = "<h2>📈 " +:+ py_title (py_replace_char "_" " " "top_subcategorias") +:+ "</h2>" ∧
  ascii_text (py_title (py_replace_char "_" " " "top_subcategorias")).
Proof.
  apply (stem_of_a_page "top_subcategorias");
    [repeat constructor | discriminate |].
  apply (bool_decide_unpack _). vm_compute. exact I.
Defined.

Lemma last_three_years_keeps_the_recent_rows_witness :
  columns songs_recent = columns songs ∧
  ((∀ y, Num y ∉ map (get "year") (rows songs)) → rows songs_recent = []) ∧
  (∀ m, Num m ∈ map (get "year") (rows songs) →
        (∀ y, Num y ∈ map (get "year") (rows songs) → y ≤ m) →
        Z.abs (m - 2) < 2 ^ 53 ∧
        rows songs_recent
        = List.filter (fun r => match get "year" r with
                                | Num y => m - 2 <=? y
                                | _ => false
                                end) (rows songs)).
Proof.
  apply (last_three_years_keeps_the_recent_rows songs songs_recent);
    [reflexivity | repeat constructor | reflexivity].
Defined.

Lemma last_three_years_idempotent_witness :
  Spotify.last_three_years songs_recent = Ok songs_recent.
Proof. apply (last_three_years_idempotent songs songs_recent). reflexivity. Defined.


Lemma scatter_needs_its_columns_witness :
  ∃ msg, Spotify.script nothing_raises (Ok songs_no_energy) []
         = (Raise (ValueError msg), []).
Proof.
  apply (scatter_needs_its_columns nothing_raises songs_no_energy songs_no_energy_recent []);
    [reflexivity | left; reflexivity].
Defined.

Lemma empty_genres_end_the_run_witness :
  Spotify.script nothing_raises (Ok songs_without_genres) []
  = (Raise Spotify.empty_cloud_error,
     Spotify.put Spotify.histogram_file (Spotify.histogram_plot songs_without_genres)
       (Spotify.put Spotify.scatter_file (Spotify.scatter_plot songs_without_genres) [])).
Proof.
  apply (empty_genres_end_the_run nothing_raises songs_without_genres
           songs_without_genres []).
  - reflexivity.
  - repeat constructor.
  - reflexivity.
  - intros r Hr.
    repeat (apply elem_of_cons in Hr as [->|Hr]; [reflexivity|]).
    by apply elem_of_nil in Hr.
  - repeat constructor.
Defined.

Lemma prepared_index_witness :
  columns (prepare pandas_strict raw_sheet)
  = derived_names (map canonical_name (columns raw_sheet)) ∧
  length (rows (prepare pandas_strict raw_sheet)) = length (rows raw_sheet) ∧
  map canonical_name (columns raw_sheet) `prefix_of` columns (prepare pandas_strict raw_sheet) ∧
  columns (prepare pandas_strict (prepare pandas_strict raw_sheet))
  = columns (prepare pandas_strict raw_sheet).
Proof.
  apply (prepared_index pandas_strict raw_sheet).
  apply (bool_decide_unpack _). vm_compute. exact I.
Defined.

Lemma monthly_chart_needs_order_date_and_sales_witness :
  applicable ventas_por_mes (prepare pandas_strict raw_sheet) = true ↔
  ("order_date" ∈ map canonical_name (columns raw_sheet)
   ∨ "year_month" ∈ map canonical_name (columns raw_sheet))
  ∧ "sales" ∈ map canonical_name (columns raw_sheet).
Proof.
  apply (monthly_chart_needs_order_date_and_sales pandas_strict raw_sheet).
  apply (bool_decide_unpack _). vm_compute. exact I.
Defined.
